(** * ScanChain: provenance and verification core

    A shallow embedding of the Python services of ScanChain
    ([services/blockchain_service.py], [services/database_service.py],
    [services/auth_service.py], the payload of [services/qr_service.py],
    the mock mode of [services/greenfield_service.py] and the handlers of
    [app.py] that use them), followed by the properties of the provenance
    core that hold, or fail, on that code.

    Conventions of the embedding.
    - A Python [str] is the string of its UTF-8 bytes, so concatenation,
      [==], [<], [in] and [split] are exact. A lone surrogate (U+D800 to
      U+DFFF), which a [str] read from JSON may hold and UTF-8 does not
      encode, is written as the three bytes ED A0..BF 80..BF; [encode()]
      is the identity on the bytes of a [str] without one and raises
      [UnicodeEncodeError] on the others.
    - [lower()] is modelled on the ASCII characters and the Greek sigmas:
      [Py.lower] lowers the letters A to Z and a capital sigma, to the
      final or to the plain small sigma as its neighbours decide; it
      leaves every other character as it is, so it is [lower()] on the
      text that [Py.lowers] accepts, and statements about the case of
      letters are made for such text.
    - JSON documents are values of type [value] (no floating-point
      numbers); a [dict] is an association list in insertion order with
      unique keys.
    - The three JSON files of [DatabaseService] are the documents that
      [_initialize_files] creates and that the service rewrites: objects
      holding a list of objects and a counter. Reading and writing them
      does not fail.
    - [datetime.utcnow()] reads a clock carried by the world; every reading
      consumes one tick.
    - A Python exception is a result [Raise e]; [Unsupported] marks the
      places where Python goes on and the embedding does not follow it
      (reading back a [.meta] side file, sorting by keys that are not all
      strings, [str] of a list or of a dictionary, a user whose id is not
      an integer or whose full name is not a string).
    - The uploads directory is a map from plain file names to files; the
      users and sessions of [AuthService] are passed to its functions and
      returned by them.
    - What the code prints is left out. *)

From Stdlib Require Import ZArith List Bool Lia.
From Stdlib Require Import Strings.String Strings.Ascii Strings.Byte.
From Stdlib Require Import Numbers.DecimalString.
From Stdlib Require Import Sorted Permutation.
From Stdlib Require Numbers.DecimalZ Numbers.DecimalPos.
Import ListNotations.

Open Scope string_scope.
Open Scope list_scope.
Open Scope Z_scope.

Infix "+++" := String.append (right associativity, at level 60).

(** ** SHA-256 ([hashlib.sha256]) *)

Module Sha256.

Definition mask32 : Z := 4294967295.

Definition add32 (a b : Z) : Z := Z.land (a + b) mask32.

Definition rotr (n x : Z) : Z :=
  Z.land (Z.lor (Z.shiftr x n) (Z.shiftl x (32 - n))) mask32.

Definition shr (n x : Z) : Z := Z.shiftr x n.

Definition Ch (x y z : Z) : Z :=
  Z.lxor (Z.land x y) (Z.land (Z.lxor x mask32) z).

Definition Maj (x y z : Z) : Z :=
  Z.lxor (Z.lxor (Z.land x y) (Z.land x z)) (Z.land y z).

Definition Sigma0 (x : Z) : Z := Z.lxor (Z.lxor (rotr 2 x) (rotr 13 x)) (rotr 22 x).
Definition Sigma1 (x : Z) : Z := Z.lxor (Z.lxor (rotr 6 x) (rotr 11 x)) (rotr 25 x).
Definition sigma0 (x : Z) : Z := Z.lxor (Z.lxor (rotr 7 x) (rotr 18 x)) (shr 3 x).
Definition sigma1 (x : Z) : Z := Z.lxor (Z.lxor (rotr 17 x) (rotr 19 x)) (shr 10 x).

(** The constants of SHA-256 are the first 32 bits of the fractional
    parts of roots of the first primes: square roots of the first eight
    for the initial hash value, cube roots of the first sixty-four for the
    round constants. *)
Definition primes : list Z :=
  [ 2; 3; 5; 7; 11; 13; 17; 19; 23; 29; 31; 37; 41; 43; 47; 53;
    59; 61; 67; 71; 73; 79; 83; 89; 97; 101; 103; 107; 109; 113; 127; 131;
    137; 139; 149; 151; 157; 163; 167; 173; 179; 181; 191; 193; 197; 199; 211; 223;
    227; 229; 233; 239; 241; 251; 257; 263; 269; 271; 277; 281; 283; 293; 307; 311 ].

(** The integer cube root of [n], by bisection between [lo] and [hi]. *)
Fixpoint cube_root (fuel : nat) (lo hi n : Z) : Z :=
  match fuel with
  | O => lo
  | S fuel' =>
      let mid := (lo + hi + 1) / 2 in
      if mid * mid * mid <=? n then cube_root fuel' mid hi n
      else cube_root fuel' lo (mid - 1) n
  end.

Definition frac_sqrt (p : Z) : Z := Z.land (Z.sqrt (p * 2 ^ 64)) mask32.

Definition frac_cbrt (p : Z) : Z :=
  Z.land (cube_root 40 0 (2 ^ 36) (p * 2 ^ 96)) mask32.

Definition K : list Z := Eval vm_compute in map frac_cbrt primes.

Record state : Set := mkState
  { h0 : Z; h1 : Z; h2 : Z; h3 : Z; h4 : Z; h5 : Z; h6 : Z; h7 : Z }.

Definition init : state := Eval vm_compute in
  mkState (frac_sqrt 2) (frac_sqrt 3) (frac_sqrt 5) (frac_sqrt 7)
          (frac_sqrt 11) (frac_sqrt 13) (frac_sqrt 17) (frac_sqrt 19).

(** Big-endian words of a block of bytes. *)
Fixpoint words (bs : list Z) : list Z :=
  match bs with
  | b0 :: b1 :: b2 :: b3 :: rest =>
      Z.lor (Z.shiftl b0 24) (Z.lor (Z.shiftl b1 16) (Z.lor (Z.shiftl b2 8) b3))
      :: words rest
  | _ => []
  end.

(** The message schedule: [n] further words after the words in [w]. *)
Fixpoint schedule (n : nat) (w : list Z) : list Z :=
  match n with
  | O => w
  | S n' =>
      let i := List.length w in
      let at_ (k : nat) := nth (i - k) w 0 in
      schedule n'
        (w ++ [add32 (add32 (sigma1 (at_ 2%nat)) (at_ 7%nat))
                     (add32 (sigma0 (at_ 15%nat)) (at_ 16%nat))])
  end.

Definition round (s : state) (kw : Z * Z) : state :=
  let '(k, w) := kw in
  let t1 := add32 (add32 (add32 (h7 s) (Sigma1 (h4 s))) (Ch (h4 s) (h5 s) (h6 s)))
                  (add32 k w) in
  let t2 := add32 (Sigma0 (h0 s)) (Maj (h0 s) (h1 s) (h2 s)) in
  mkState (add32 t1 t2) (h0 s) (h1 s) (h2 s) (add32 (h3 s) t1) (h4 s) (h5 s) (h6 s).

Definition compress (s : state) (block : list Z) : state :=
  let w := schedule 48 (words block) in
  let r := fold_left round (combine K w) s in
  mkState (add32 (h0 s) (h0 r)) (add32 (h1 s) (h1 r)) (add32 (h2 s) (h2 r))
          (add32 (h3 s) (h3 r)) (add32 (h4 s) (h4 r)) (add32 (h5 s) (h5 r))
          (add32 (h6 s) (h6 r)) (add32 (h7 s) (h7 r)).

Fixpoint blocks (fuel : nat) (s : state) (bs : list Z) : state :=
  match fuel, bs with
  | S fuel', _ :: _ => blocks fuel' (compress s (firstn 64 bs)) (skipn 64 bs)
  | _, _ => s
  end.

Definition be64 (n : Z) : list Z :=
  map (fun i => Z.land (Z.shiftr n (8 * i)) 255) [7; 6; 5; 4; 3; 2; 1; 0].

Definition pad (bs : list Z) : list Z :=
  let len := Z.of_nat (List.length bs) in
  bs ++ [128] ++ repeat 0 (Z.to_nat ((55 - len) mod 64)) ++ be64 (8 * len).

Definition digest (data : list byte) : state :=
  let bs := pad (map (fun b => Z.of_N (Byte.to_N b)) data) in
  blocks (List.length bs) init bs.

Definition hexdigit (n : Z) : ascii :=
  match n with
  | 0 => "0" | 1 => "1" | 2 => "2" | 3 => "3" | 4 => "4" | 5 => "5"
  | 6 => "6" | 7 => "7" | 8 => "8" | 9 => "9" | 10 => "a" | 11 => "b"
  | 12 => "c" | 13 => "d" | 14 => "e" | _ => "f"
  end%char.

Definition nibble (x i : Z) : ascii := hexdigit (Z.land (Z.shiftr x (4 * i)) 15).

Definition hex32 (x : Z) (rest : string) : string :=
  String (nibble x 7) (String (nibble x 6) (String (nibble x 5) (String (nibble x 4)
  (String (nibble x 3) (String (nibble x 2) (String (nibble x 1) (String (nibble x 0)
  rest))))))).

Definition hex (s : state) : string :=
  hex32 (h0 s) (hex32 (h1 s) (hex32 (h2 s) (hex32 (h3 s)
  (hex32 (h4 s) (hex32 (h5 s) (hex32 (h6 s) (hex32 (h7 s) ""))))))).

(** [hashlib.sha256(data).hexdigest()] *)
Definition hexdigest (data : list byte) : string := hex (digest data).

End Sha256.

(** The bytes of [s]: what [s.encode()] returns, when it returns. *)
Definition encode (s : string) : list byte := list_byte_of_string s.

(** ** Python values and dictionaries *)

#[local] Set Warnings "-register-all".

Inductive value : Type :=
| VNone
| VBool (b : bool)
| VInt (n : Z)
| VStr (s : string)
| VList (l : list value)
| VDict (d : list (string * value)).

Definition dict : Type := list (string * value).

Inductive exn : Type :=
| KeyError (key : string)
| TypeError
| AttributeError
| UnicodeEncodeError
| Unsupported.

Inductive result (A : Type) : Type :=
| Ok (a : A)
| Raise (e : exn).

Arguments Ok {A} a.
Arguments Raise {A} e.

Module Py.

(** [bool(v)] *)
Definition truthy (v : value) : bool :=
  match v with
  | VNone => false
  | VBool b => b
  | VInt n => negb (n =? 0)
  | VStr s => negb (s =? "")%string
  | VList l => match l with [] => false | _ => true end
  | VDict d => match d with [] => false | _ => true end
  end.

(** [a or b] *)
Definition or_ (a b : value) : value := if truthy a then a else b.

Definition num (v : value) : option Z :=
  match v with
  | VBool true => Some 1
  | VBool false => Some 0
  | VInt n => Some n
  | _ => None
  end.

(** [k in d] and [d.get(k)] for the raw association list. *)
Fixpoint lookup (d : dict) (k : string) : option value :=
  match d with
  | [] => None
  | (k', v) :: d' => if (k' =? k)%string then Some v else lookup d' k
  end.

(** [a == b]: numbers by value ([True == 1]), strings and lists
    structurally, dictionaries key by key whatever the order. *)
Fixpoint eq (a b : value) : bool :=
  match a, b with
  | VNone, VNone => true
  | VStr s, VStr t => (s =? t)%string
  | VBool x, _ =>
      match num b with Some n => (if x then 1 else 0) =? n | None => false end
  | VInt x, _ =>
      match num b with Some n => x =? n | None => false end
  | VList l, VList m =>
      (fix go (l m : list value) {struct l} : bool :=
         match l, m with
         | [], [] => true
         | x :: l', y :: m' => eq x y && go l' m'
         | _, _ => false
         end) l m
  | VDict d, VDict e =>
      (List.length d =? List.length e)%nat &&
      (fix go (d : list (string * value)) : bool :=
         match d with
         | [] => true
         | (k, v) :: d' =>
             match lookup e k with
             | Some w => eq v w
             | None => false
             end && go d'
         end) d
  | _, _ => false
  end.

(** Values that may enter a [set]: lists and dictionaries are unhashable. *)
Definition hashable (v : value) : bool :=
  match v with
  | VList _ | VDict _ => false
  | _ => true
  end.

(** [str(n)] for an integer. *)
Definition str_int (n : Z) : string := NilZero.string_of_int (Z.to_int n).

(** [str(v) == str(n)] for an integer [n]: [str] of a string is the string
    itself; [str] of [None], of a boolean, of a list or of a dictionary
    ("None", "True", "False", "[...]", "{...}") is never a decimal
    numeral. *)
Definition str_eq_int (v : value) (n : Z) : bool :=
  match v with
  | VInt m => m =? n
  | VStr s => (s =? str_int n)%string
  | _ => false
  end.

(** [d.get(k)] *)
Definition get (d : dict) (k : string) : value :=
  match lookup d k with Some v => v | None => VNone end.

(** [d.get(k, default)] *)
Definition get_default (d : dict) (k : string) (default : value) : value :=
  match lookup d k with Some v => v | None => default end.

(** [d[k]] *)
Definition getitem (d : dict) (k : string) : result value :=
  match lookup d k with Some v => Ok v | None => Raise (KeyError k) end.

(** [d[k] = v]: an existing key keeps its position. *)
Fixpoint setitem (d : dict) (k : string) (v : value) : dict :=
  match d with
  | [] => [(k, v)]
  | (k', v') :: d' =>
      if (k' =? k)%string then (k, v) :: d' else (k', v') :: setitem d' k v
  end.

(** [{**d, **e}], also the dictionary display [{..d.., k: v, ...}]. *)
Definition update (d e : dict) : dict :=
  fold_left (fun acc kv => setitem acc (fst kv) (snd kv)) e d.

(** The value that the assignments [items], made in order, leave on [k]:
    that of the last item for [k], if any. *)
Fixpoint last_binding (items : dict) (k : string) : option value :=
  match items with
  | [] => None
  | (k', v) :: items' =>
      match last_binding items' k with
      | Some x => Some x
      | None => if (k' =? k)%string then Some v else None
      end
  end.

(** A dictionary display [{k1: v1, k2: v2, ...}]. *)
Definition display (items : list (string * value)) : dict := update [] items.

(** [x in s] for a set kept as the list of its elements. *)
Definition set_mem (x : value) (s : list value) : bool := existsb (eq x) s.

(** [s.add(x)]; the elements stay in the order of their first insertion,
    which Python does not promise for [list(s)]. *)
Definition set_add (x : value) (s : list value) : result (list value) :=
  if hashable x then Ok (if set_mem x s then s else s ++ [x])
  else Raise TypeError.

(** Whether [s] holds a lone surrogate: the byte ED followed by a byte
    from A0 to BF. In UTF-8 the byte ED starts the characters U+D000 to
    U+D7FF and is followed by a byte from 80 to 9F. *)
Fixpoint has_surrogate (s : string) : bool :=
  match s with
  | String c (String d _ as s') =>
      (nat_of_ascii c =? 237)%nat
      && (160 <=? nat_of_ascii d)%nat && (nat_of_ascii d <=? 191)%nat
      || has_surrogate s'
  | _ => false
  end.

(** Whether [s.encode()] returns. *)
Definition encodable (s : string) : bool := negb (has_surrogate s).

(** [s.encode()] *)
Definition encode (s : string) : result (list byte) :=
  if encodable s then Ok (list_byte_of_string s) else Raise UnicodeEncodeError.

(** The lower case of an ASCII character. *)
Definition lower_ascii (c : ascii) : ascii :=
  let n := nat_of_ascii c in
  if ((65 <=? n) && (n <=? 90))%nat then ascii_of_nat (n + 32) else c.


(** The ASCII characters with a lower and an upper case: the letters. *)
Definition cased (c : ascii) : bool :=
  let n := nat_of_ascii c in
  ((65 <=? n) && (n <=? 90) || (97 <=? n) && (n <=? 122))%nat.

(** The ASCII characters that the Final_Sigma rule skips (the property
    Case_Ignorable): the apostrophe, the full stop, the colon, the
    circumflex and the grave accent. *)
Definition case_ignorable (c : ascii) : bool :=
  let n := nat_of_ascii c in
  ((n =? 39) || (n =? 46) || (n =? 58) || (n =? 94) || (n =? 96))%nat.

(** The UTF-8 bytes of the Greek sigmas: the capital U+03A3 is CE A3, the
    final small U+03C2 is CF 82 and the small U+03C3 is CF 83. *)
Definition is_capital_sigma (c d : ascii) : bool :=
  ((nat_of_ascii c =? 206) && (nat_of_ascii d =? 163))%nat.

Definition is_small_sigma (c d : ascii) : bool :=
  ((nat_of_ascii c =? 207) && ((nat_of_ascii d =? 130) || (nat_of_ascii d =? 131)))%nat.

Definition capital_sigma : string := String "206" (String "163" "").
Definition final_sigma : string := String "207" (String "130" "").
Definition small_sigma : string := String "207" (String "131" "").

(** What follows a capital sigma lets it be final: after the characters
    that the rule skips, the text ends or goes on with a character that is
    no letter. *)
Fixpoint ends_word (s : string) : bool :=
  match s with
  | EmptyString => true
  | String c s' =>
      if case_ignorable c then ends_word s'
      else negb (cased c
                 || match s' with
                    | String d _ => is_capital_sigma c d || is_small_sigma c d
                    | EmptyString => false
                    end)
  end.

(** [lower()] from a position of the text on. [in_word] tells whether,
    before the position and the characters that the rule skips, the text
    has a letter. A capital sigma becomes the final small sigma when
    [in_word] holds and what follows ends the word, and the small sigma
    otherwise. *)
Fixpoint lower_from (in_word : bool) (s : string) : string :=
  match s with
  | EmptyString => EmptyString
  | String c s' =>
      match s' with
      | String d s'' =>
          if is_capital_sigma c d then
            (if in_word && ends_word s'' then final_sigma else small_sigma)
            +++ lower_from true s''
          else if is_small_sigma c d then
            String c (String d (lower_from true s''))
          else
            String (lower_ascii c)
                   (lower_from (if case_ignorable c then in_word else cased c) s')
      | EmptyString => String (lower_ascii c) EmptyString
      end
  end.

(** [s.lower()], for a [str] of ASCII characters and Greek sigmas. *)
Definition lower (s : string) : string := lower_from false s.



(** [s.startswith(p)] *)
Definition startswith (s p : string) : bool := prefix p s.

(** [sub in s] *)
Fixpoint contains (sub s : string) : bool :=
  prefix sub s ||
  match s with
  | EmptyString => false
  | String _ s' => contains sub s'
  end.

(** [s.split(sep)[-1]] for a one-character separator: what follows the
    last separator, the whole string when there is none. *)
Fixpoint split_last (sep : ascii) (s : string) : string :=
  match s with
  | EmptyString => EmptyString
  | String c s' =>
      if contains (String sep EmptyString) s'
      then split_last sep s'
      else if Ascii.eqb c sep then s' else s
  end.

End Py.

(** ** The world: JSON files, uploads directory and clock *)

(** A reading of [datetime.utcnow()]: its [isoformat()] and its
    [timestamp()] truncated by [int]. *)
Record datetime : Set := mkDatetime
  { isoformat : string; timestamp : Z }.

(** [batches.json]: [{"batches": [...], "lastBatchId": n}] *)
Record batches_doc : Type := mkBatches
  { batches : list dict; lastBatchId : Z }.

(** [scans.json]: [{"scans": [...], "lastScanId": n}] *)
Record scans_doc : Type := mkScans
  { scans : list dict; lastScanId : Z }.

(** [products.json]: [{"products": [...], "metadata": [...], "lastProductId": n}] *)
Record products_doc : Type := mkProducts
  { products : list dict; metadata : list value; lastProductId : Z }.

(** A file of the local [uploads/] directory: the bytes of an uploaded
    artifact, or the JSON side file [<name>.meta] written next to it. *)
Inductive file : Type :=
| Blob (data : list byte)
| MetaJson (doc : dict).

(** What the services read from the process environment. *)
Record Env : Set := mkEnv
  { (** [GreenfieldService.bucket_name] *)
    bucket_name : string;
    (** [os.getenv('BSC_CONTRACT_ADDRESS')] *)
    BSC_CONTRACT_ADDRESS : option string }.

Record World : Type := mkWorld
  { batches_file : batches_doc;
    scans_file : scans_doc;
    products_file : products_doc;
    (** the local [uploads/] directory of the mock Greenfield store, by
        file name *)
    uploads : list (string * file);
    env : Env;
    (** the readings the clock will give, and how many were consumed *)
    clock : nat -> datetime;
    ticks : nat }.

(** The files as [_initialize_files] creates them. *)
Definition initial_world (e : Env) (clk : nat -> datetime) : World :=
  mkWorld (mkBatches [] 0) (mkScans [] 0) (mkProducts [] [] 0) [] e clk 0%nat.

(** Computations over the world that may raise. *)
Definition M (A : Type) : Type := World -> result A * World.

Definition ret {A : Type} (a : A) : M A := fun w => (Ok a, w).

Definition raise {A : Type} (e : exn) : M A := fun w => (Raise e, w).

Definition bind {A B : Type} (m : M A) (k : A -> M B) : M B :=
  fun w =>
    match m w with
    | (Ok a, w') => k a w'
    | (Raise e, w') => (Raise e, w')
    end.

Definition lift {A : Type} (r : result A) : M A := fun w => (r, w).

Notation "x <- m ;; k" := (bind m (fun x => k))
  (at level 61, m at next level, right associativity).
Notation "m ;;; k" := (bind m (fun _ => k))
  (at level 61, right associativity).

(** [datetime.utcnow()] *)
Definition utcnow : M datetime :=
  fun w =>
    (Ok (clock w (ticks w)),
     mkWorld (batches_file w) (scans_file w) (products_file w) (uploads w)
             (env w) (clock w) (S (ticks w))).

(** ** [services/database_service.py] *)

Module DatabaseService.

(** [_load_data] and [_save_data] on each of the files. *)
Definition load_batches : M batches_doc := fun w => (Ok (batches_file w), w).
Definition load_scans : M scans_doc := fun w => (Ok (scans_file w), w).
Definition load_products : M products_doc := fun w => (Ok (products_file w), w).

Definition save_batches (d : batches_doc) : M unit :=
  fun w => (Ok tt, mkWorld d (scans_file w) (products_file w) (uploads w)
                           (env w) (clock w) (ticks w)).
Definition save_scans (d : scans_doc) : M unit :=
  fun w => (Ok tt, mkWorld (batches_file w) d (products_file w) (uploads w)
                           (env w) (clock w) (ticks w)).
Definition save_products (d : products_doc) : M unit :=
  fun w => (Ok tt, mkWorld (batches_file w) (scans_file w) d (uploads w)
                           (env w) (clock w) (ticks w)).

(** The ['metadata'] entry of a new batch. *)
Definition batch_metadata (data : dict) (uploaded : datetime) : dict :=
  Py.display
    [ ("fileName", Py.get_default data "fileName" (VStr "unknown"));
      ("fileSize", Py.get_default data "fileSize" (VInt 0));
      ("mimeType", Py.get_default data "mimeType" (VStr "application/octet-stream"));
      ("uploadedBy", Py.get_default data "userId" (VStr "unknown"));
      ("uploadedAt", VStr (isoformat uploaded)) ].

(** The [batch] dictionary that [store_batch] builds:
    [{**data, 'batchId': batch_id, 'createdAt': ..., 'scans': [],
      'status': 'active', 'lastActivity': ..., 'metadata': {...}}]. *)
Definition batch_record (batch_id : value) (data : dict)
    (created activity uploaded : datetime) : dict :=
  Py.update data
    [ ("batchId", batch_id);
      ("createdAt", VStr (isoformat created));
      ("scans", VList []);
      ("status", VStr "active");
      ("lastActivity", VStr (isoformat activity));
      ("metadata", VDict (batch_metadata data uploaded)) ].

(** The [product_metadata] row that [store_batch] builds. *)
Definition product_row (batch_id : value) (data : dict)
    (created : datetime) (metadata_of_batch : value) : dict :=
  Py.display
    [ ("productId", batch_id);
      ("userId", Py.get data "userId");
      ("userEmail", Py.get data "userEmail");
      ("batchName", Py.get data "batchName");
      ("manufacturerName", Py.get data "manufacturerName");
      ("productType", Py.get data "productType");
      ("description", Py.get data "description");
      ("fileHash", Py.get data "fileHash");
      ("greenfieldUrl", Py.get data "greenfieldUrl");
      ("txHash", Py.get data "txHash");
      ("contractAddress", Py.get data "contractAddress");
      ("createdAt", VStr (isoformat created));
      ("metadata", metadata_of_batch) ].

(** [store_batch(batch_id, data)] *)
Definition store_batch (batch_id : value) (data : dict) : M dict :=
  batches_data <- load_batches ;;
  created <- utcnow ;;
  activity <- utcnow ;;
  uploaded <- utcnow ;;
  let batch := batch_record batch_id data created activity uploaded in
  save_batches (mkBatches (batches batches_data ++ [batch])
                          (lastBatchId batches_data + 1)) ;;;
  products_data <- load_products ;;
  product_created <- utcnow ;;
  metadata_of_batch <- lift (Py.getitem batch "metadata") ;;
  let product_metadata :=
    product_row batch_id data product_created metadata_of_batch in
  save_products (mkProducts (products products_data ++ [product_metadata])
                            (metadata products_data)
                            (lastProductId products_data + 1)) ;;;
  ret batch.

(** The loop of [get_batch]: the first batch whose ["batchId"] equals
    [batch_id]; [batch['batchId']] raises on a batch without the key. *)
Fixpoint find_batch (bs : list dict) (batch_id : value) : result (option dict) :=
  match bs with
  | [] => Ok None
  | batch :: bs' =>
      match Py.getitem batch "batchId" with
      | Raise e => Raise e
      | Ok id =>
          if Py.eq id batch_id then Ok (Some batch) else find_batch bs' batch_id
      end
  end.

(** [get_batch(batch_id)] *)
Definition get_batch (batch_id : value) : M (option dict) :=
  batches_data <- load_batches ;;
  lift (find_batch (batches batches_data) batch_id).

(** The loop of [record_scan] that writes the updated batch back:
    [batches[i] = batch] at the first [i] whose ["batchId"] equals
    [batch_id], then [break]. *)
Fixpoint replace_batch (bs : list dict) (batch_id : value) (batch : dict)
  : result (list dict) :=
  match bs with
  | [] => Ok []
  | b :: bs' =>
      match Py.getitem b "batchId" with
      | Raise e => Raise e
      | Ok id =>
          if Py.eq id batch_id then Ok (batch :: bs')
          else match replace_batch bs' batch_id batch with
               | Ok r => Ok (b :: r)
               | Raise e => Raise e
               end
      end
  end.

(** [batch['scans'].append(scan_record)] *)
Definition append_scan (batch : dict) (scan_record : dict) : result dict :=
  match Py.getitem batch "scans" with
  | Raise e => Raise e
  | Ok (VList l) => Ok (Py.setitem batch "scans" (VList (l ++ [VDict scan_record])))
  | Ok _ => Raise AttributeError
  end.

(** The [scan_record] dictionary that [record_scan] builds:
    [{'id': str(lastScanId + 1), 'batchId': batch_id, **scan_data,
      'timestamp': ..., 'location': scan_data.get('location', 'Unknown')}]. *)
Definition scan_record_of (batch_id : value) (scan_data : dict)
    (last_scan_id : Z) (stamp : datetime) : dict :=
  Py.update
    (Py.update
       (Py.display [ ("id", VStr (Py.str_int (last_scan_id + 1)));
                     ("batchId", batch_id) ])
       scan_data)
    [ ("timestamp", VStr (isoformat stamp));
      ("location", Py.get_default scan_data "location" (VStr "Unknown")) ].

(** [record_scan(batch_id, scan_data)] *)
Definition record_scan (batch_id : value) (scan_data : dict) : M (option dict) :=
  found <- get_batch batch_id ;;
  match found with
  | None => ret None
  | Some batch =>
      if negb (Py.truthy (VDict batch)) then ret None else
      scans_data <- load_scans ;;
      stamp <- utcnow ;;
      let scan_record :=
        scan_record_of batch_id scan_data (lastScanId scans_data) stamp in
      batch <- lift (append_scan batch scan_record) ;;
      activity <- utcnow ;;
      let batch := Py.setitem batch "lastActivity" (VStr (isoformat activity)) in
      batches_data <- load_batches ;;
      updated <- lift (replace_batch (batches batches_data) batch_id batch) ;;
      save_batches (mkBatches updated (lastBatchId batches_data)) ;;;
      save_scans (mkScans (scans scans_data ++ [scan_record])
                          (lastScanId scans_data + 1)) ;;;
      ret (Some scan_record)
  end.

(** The notion the specification calls [listScansByBatch]: the ["scans"]
    list of the batch that [get_batch] resolves [batch_id] to. *)
Definition listScansByBatch (batch_id : value) (w : World) : option (list value) :=
  match fst (get_batch batch_id w) with
  | Ok (Some batch) =>
      match Py.lookup batch "scans" with
      | Some (VList l) => Some l
      | _ => None
      end
  | _ => None
  end.

End DatabaseService.

(** ** [services/blockchain_service.py] *)

Module BlockchainService.

(** [store_product_hash(product_id, file_hash)]: the mock transaction
    hash [f"0x{sha256(f'{product_id}{file_hash}'.encode()).hexdigest()}"].
    Its one caller, [upload_file], passes the text of a form field and a
    hex digest, which hold no lone surrogate. *)
Definition store_product_hash (product_id file_hash : string) : M string :=
  let mock_tx_hash :=
    "0x" +++ Sha256.hexdigest (encode (product_id +++ file_hash)) in
  ret mock_tx_hash.

(** [get_product_hash(product_id)]: the mock hash
    [sha256(f"mock_file_content_{product_id}".encode()).hexdigest()], and
    [None] from the [except Exception] clause when [encode()] raises. *)
Definition get_product_hash (product_id : string) : M (option string) :=
  match Py.encode ("mock_file_content_" +++ product_id) with
  | Ok data =>
      let mock_hash := Sha256.hexdigest data in
      ret (Some mock_hash)
  | Raise _ => ret None
  end.

End BlockchainService.

(** ** [services/greenfield_service.py], in its mock mode

    [GreenfieldService.__init__] sets [self.mode = 'mock']; the uploads
    directory is a map from file names to files. *)

Module GreenfieldService.

Definition mock_content : list byte :=
  encode "mock_file_content_for_hash_verification".

Fixpoint fs_lookup (dir : list (string * file)) (name : string) : option file :=
  match dir with
  | [] => None
  | (n, f) :: dir' => if (n =? name)%string then Some f else fs_lookup dir' name
  end.

Fixpoint fs_write (dir : list (string * file)) (name : string) (f : file)
  : list (string * file) :=
  match dir with
  | [] => [(name, f)]
  | (n, g) :: dir' =>
      if (n =? name)%string then (name, f) :: dir' else (n, g) :: fs_write dir' name f
  end.

Definition write_file (name : string) (f : file) : M unit :=
  fun w => (Ok tt, mkWorld (batches_file w) (scans_file w) (products_file w)
                           (fs_write (uploads w) name f)
                           (env w) (clock w) (ticks w)).

Definition get_env : M Env := fun w => (Ok (env w), w).

(** [_upload_mock(file_data, filename, content_type, file_hash)] *)
Definition _upload_mock (file_data : list byte) (filename content_type file_hash : string)
  : M string :=
  write_file filename (Blob file_data) ;;;
  upload_time <- utcnow ;;
  e <- get_env ;;
  let metadata :=
    Py.display
      [ ("filename", VStr filename);
        ("contentType", VStr content_type);
        ("hash", VStr file_hash);
        ("size", VInt (Z.of_nat (List.length file_data)));
        ("uploadTime", VStr (isoformat upload_time));
        ("bucket", VStr (bucket_name e));
        ("mode", VStr "mock") ] in
  write_file (filename +++ ".meta") (MetaJson metadata) ;;;
  ret ("gnfd://" +++ bucket_name e +++ "/" +++ filename).

(** [upload_file(file_data, filename, content_type)] *)
Definition upload_file (file_data : list byte) (filename content_type : string)
  : M string :=
  let file_hash := Sha256.hexdigest file_data in
  _upload_mock file_data filename content_type file_hash.

(** [_download_mock(filename)]; the text of a [.meta] side file is not
    modelled. *)
Definition _download_mock (filename : string) : M (list byte) :=
  fun w =>
    match fs_lookup (uploads w) filename with
    | Some (Blob data) => (Ok data, w)
    | Some (MetaJson _) => (Raise Unsupported, w)
    | None => (Ok mock_content, w)
    end.

(** [download_file(file_url)] *)
Definition download_file (file_url : string) : M (list byte) :=
  if Py.startswith file_url "gnfd://" then
    let filename := Py.split_last "/" file_url in
    _download_mock filename
  else ret mock_content.

End GreenfieldService.

(** ** The dashboard and search of [services/database_service.py] *)

Module Dashboard.

(** The accumulators of [_get_manufacturer_dashboard]. *)
Record acc : Type := mkAcc
  { manufacturer_batches : list dict;
    manufacturer_batch_ids : list value;
    recent_scans : list dict;
    total_scans : Z;
    unique_suppliers : list value }.

Definition bindr {A B : Type} (r : result A) (k : A -> result B) : result B :=
  match r with Ok a => k a | Raise e => Raise e end.

(** The two statements that close both scan loops:
    [total_scans += 1] and
    [if scan.get('supplierName'): unique_suppliers.add(scan['supplierName'])]. *)
Definition count_scan (scan : dict) (entry : dict) (a : acc) : result acc :=
  bindr (if Py.truthy (Py.get scan "supplierName")
         then bindr (Py.getitem scan "supplierName")
                    (fun name => Py.set_add name (unique_suppliers a))
         else Ok (unique_suppliers a))
        (fun suppliers =>
           Ok (mkAcc (manufacturer_batches a) (manufacturer_batch_ids a)
                     (recent_scans a ++ [entry]) (total_scans a + 1) suppliers)).

(** [for scan in batch.get('scans', [])]: the scans kept inside a batch. *)
Fixpoint legacy_scans (batch : dict) (l : list value) (a : acc) : result acc :=
  match l with
  | [] => Ok a
  | VDict scan :: l' =>
      bindr (Py.getitem batch "batchId") (fun id =>
      let entry :=
        Py.update scan
          [ ("batchId", id);
            ("productName",
             Py.or_ (Py.get batch "batchName") (Py.get batch "productName")) ] in
      bindr (count_scan scan entry a) (legacy_scans batch l'))
  | _ :: _ => Raise TypeError
  end.

(** What [for scan in v] iterates over: the elements of a list, the
    characters of a string, the keys of a dictionary. *)
Definition iterate (v : value) : result (list value) :=
  match v with
  | VList l => Ok l
  | VStr s => Ok (map (fun c => VStr (String c EmptyString)) (list_ascii_of_string s))
  | VDict d => Ok (map (fun kv => VStr (fst kv)) d)
  | _ => Raise TypeError
  end.

(** [for batch in batches_data.get('batches', [])] *)
Fixpoint own_batches (user_id : Z) (bs : list dict) (a : acc) : result acc :=
  match bs with
  | [] => Ok a
  | batch :: bs' =>
      if Py.str_eq_int (Py.get batch "userId") user_id then
        bindr (Py.set_add (Py.get batch "batchId") (manufacturer_batch_ids a)) (fun ids =>
        let a1 := mkAcc (manufacturer_batches a ++ [batch]) ids
                        (recent_scans a) (total_scans a) (unique_suppliers a) in
        bindr (iterate (Py.get_default batch "scans" (VList []))) (fun l =>
        bindr (legacy_scans batch l a1) (own_batches user_id bs')))
      else own_batches user_id bs' a
  end.

(** [for product in products_data.get('products', [])] *)
Fixpoint own_products (user_id : Z) (ps : list dict) (a : acc) : result acc :=
  match ps with
  | [] => Ok a
  | product :: ps' =>
      if Py.str_eq_int (Py.get product "userId") user_id then
        bindr (Py.set_add (Py.get product "productId") (manufacturer_batch_ids a)) (fun ids =>
        own_products user_id ps'
          (mkAcc (manufacturer_batches a) ids
                 (recent_scans a) (total_scans a) (unique_suppliers a)))
      else own_products user_id ps' a
  end.

(** The first element of [l] whose [key] equals [id]. *)
Fixpoint first_with (key : string) (id : value) (l : list dict) : option dict :=
  match l with
  | [] => None
  | d :: l' => if Py.eq (Py.get d key) id then Some d else first_with key id l'
  end.

(** The batch, else the product, that a scan of [scans.json] refers to;
    an empty dictionary found among the batches counts as not found. *)
Definition batch_info_of (scan : dict) (own : list dict) (ps : list dict) : option dict :=
  match first_with "batchId" (Py.get scan "batchId") own with
  | Some b => if Py.truthy (VDict b) then Some b
              else first_with "productId" (Py.get scan "batchId") ps
  | None => first_with "productId" (Py.get scan "batchId") ps
  end.

(** [x in s] for a set: the hash of [x] is taken first. *)
Definition in_set (x : value) (s : list value) : result bool :=
  if Py.hashable x then Ok (Py.set_mem x s) else Raise TypeError.

(** [for scan in scans_data.get('scans', [])] *)
Fixpoint file_scans (user_name : string) (ps : list dict) (ss : list dict) (a : acc)
  : result acc :=
  match ss with
  | [] => Ok a
  | scan :: ss' =>
      bindr (in_set (Py.get scan "batchId") (manufacturer_batch_ids a)) (fun mine =>
      if mine then
        let info := batch_info_of scan (manufacturer_batches a) ps in
        let truthy_info :=
          match info with Some d => Py.truthy (VDict d) | None => false end in
        let product_name :=
          match info with
          | Some d =>
              if truthy_info
              then Py.or_ (Py.get d "batchName")
                          (Py.get_default d "productName" (VStr "Unknown Product"))
              else VStr "Unknown Product"
          | None => VStr "Unknown Product"
          end in
        let manufacturer_name :=
          match info with
          | Some d =>
              if truthy_info
              then Py.get_default d "manufacturerName" (VStr user_name)
              else VStr user_name
          | None => VStr user_name
          end in
        let entry :=
          Py.update scan
            [ ("productName", product_name);
              ("manufacturerName", manufacturer_name) ] in
        bindr (count_scan scan entry a) (file_scans user_name ps ss')
      else file_scans user_name ps ss' a)
  end.

(** The sort key [x.get('timestamp', '')]. *)
Definition sort_key (x : dict) : value := Py.get_default x "timestamp" (VStr "").

Definition key_string (x : dict) : option string :=
  match sort_key x with VStr s => Some s | _ => None end.

Definition key_of (x : dict) : string :=
  match key_string x with Some s => s | None => "" end.

(** [l.sort(key=..., reverse=True)] is stable: descending keys, equal
    keys in their original order. *)
Fixpoint insert_desc (x : dict) (l : list dict) : list dict :=
  match l with
  | [] => [x]
  | y :: l' =>
      if String.ltb (key_of x) (key_of y) then y :: insert_desc x l' else x :: l
  end.

Fixpoint sort_desc (l : list dict) : list dict :=
  match l with
  | [] => []
  | x :: l' => insert_desc x (sort_desc l')
  end.

(** [recent_scans.sort(key=lambda x: x.get('timestamp', ''), reverse=True)].
    With fewer than two elements nothing is compared. Keys that are not
    all strings are outside the embedding (Python raises [TypeError] on
    [None], on dictionaries and on mixed types, and orders numbers). *)
Definition sort_newest_first (l : list dict) : result (list dict) :=
  match l with
  | [] | [_] => Ok l
  | _ => if forallb (fun x => match key_string x with Some _ => true | None => false end) l
         then Ok (sort_desc l)
         else Raise Unsupported
  end.

Definition len {A : Type} (l : list A) : value := VInt (Z.of_nat (List.length l)).

(** [_get_manufacturer_dashboard(user_id, user_name, batches_data,
    scans_data, products_data)] *)
Definition _get_manufacturer_dashboard (user_id : Z) (user_name : string)
    (batches_data : batches_doc) (scans_data : scans_doc) (products_data : products_doc)
  : result dict :=
  bindr (own_batches user_id (batches batches_data) (mkAcc [] [] [] 0 [])) (fun a1 =>
  bindr (own_products user_id (products products_data) a1) (fun a2 =>
  bindr (file_scans user_name (products products_data) (scans scans_data) a2) (fun a3 =>
  bindr (sort_newest_first (recent_scans a3)) (fun sorted =>
  Ok (Py.display
        [ ("userId", VInt user_id);
          ("userName", VStr user_name);
          ("role", VStr "manufacturer");
          ("totalBatches", len (manufacturer_batches a3));
          ("totalScans", VInt (total_scans a3));
          ("totalSuppliers", len (unique_suppliers a3));
          ("batches", VList (map VDict (manufacturer_batches a3)));
          ("recentScans", VList (map VDict (firstn 10 sorted)));
          ("supplierList", VList (unique_suppliers a3));
          ("allScans", VList (map VDict sorted)) ]))))).

(** [get_user_metadata(user_id)['totalScans']]: the scans of [scans.json]
    whose batch is one of the user's products, each counted once. *)
Definition user_metadata_total_scans (user_id : Z)
    (scans_data : scans_doc) (products_data : products_doc) : result Z :=
  let user_products :=
    filter (fun p => Py.eq (Py.get p "userId") (VInt user_id)) (products products_data) in
  (fix count (ss : list dict) : result Z :=
     match ss with
     | [] => Ok 0
     | scan :: ss' =>
         bindr ((fix any (ps : list dict) : result bool :=
                   match ps with
                   | [] => Ok false
                   | p :: ps' =>
                       bindr (Py.getitem p "productId") (fun id =>
                       if Py.eq id (Py.get scan "batchId") then Ok true else any ps')
                   end) user_products) (fun hit =>
         bindr (count ss') (fun n => Ok (if hit then n + 1 else n)))
     end) (scans scans_data).

End Dashboard.

(** ** [DatabaseService.search_products] *)

Module Search.

Import Dashboard.

(** [search_term in product.get('productId', '').lower()] *)
Definition id_match (search_term : string) (product : dict) : result bool :=
  match Py.get_default product "productId" (VStr "") with
  | VStr s => Ok (Py.contains search_term (Py.lower s))
  | _ => Raise AttributeError
  end.

(** [product.get(field) and search_term in product[field].lower()],
    taken as a condition. *)
Definition field_match (search_term : string) (field : string) (product : dict)
  : result bool :=
  if Py.truthy (Py.get product field) then
    bindr (Py.getitem product field) (fun v =>
    match v with
    | VStr s => Ok (Py.contains search_term (Py.lower s))
    | _ => Raise AttributeError
    end)
  else Ok false.

(** [a or b] on conditions: [b] is evaluated only when [a] is false. *)
Definition orelse (a b : result bool) : result bool :=
  bindr a (fun x => if x then Ok true else b).

(** The [match] computed for one product. *)
Definition matches (search_term criteria : string) (product : dict) : result bool :=
  if (criteria =? "productId")%string then id_match search_term product
  else if (criteria =? "batchName")%string then field_match search_term "batchName" product
  else if (criteria =? "manufacturer")%string
       then field_match search_term "manufacturerName" product
  else if (criteria =? "productType")%string
       then field_match search_term "productType" product
  else
    orelse (id_match search_term product)
   (orelse (field_match search_term "batchName" product)
   (orelse (field_match search_term "manufacturerName" product)
           (field_match search_term "productType" product))).

Fixpoint search_loop (search_term criteria : string) (ps : list dict)
  : result (list dict) :=
  match ps with
  | [] => Ok []
  | product :: ps' =>
      bindr (matches search_term criteria product) (fun m =>
      bindr (search_loop search_term criteria ps') (fun results =>
      Ok (if m then product :: results else results)))
  end.

(** [search_products(query, criteria)] *)
Definition search_products (query criteria : string) : M (list dict) :=
  products_data <- DatabaseService.load_products ;;
  let search_term := Py.lower query in
  lift (search_loop search_term criteria (products products_data)).

End Search.

(** ** The handlers of [app.py] *)

(** What a handler returns: [jsonify(body), status], or the answer of its
    [except Exception as e] clause,
    [jsonify({'success': False, 'error': str(e)}), 500]. *)
Inductive response : Type :=
| Response (status : Z) (body : dict)
| InternalError (e : exn).

Module App.

(** [try: ... except Exception as e: return jsonify(...), 500] *)
Definition handle (m : M response) : World -> response * World :=
  fun w =>
    match m w with
    | (Ok r, w') => (r, w')
    | (Raise e, w') => (InternalError e, w')
    end.

(** A request field holding a JSON string, or [None] when it is absent. *)
Definition opt (s : option string) : value :=
  match s with Some x => VStr x | None => VNone end.

(** [os.getenv('BSC_CONTRACT_ADDRESS', '0x00...00')] *)
Definition contract_address (e : Env) : string :=
  match BSC_CONTRACT_ADDRESS e with
  | Some a => a
  | None => "0x0000000000000000000000000000000000000000"
  end.

(** *** [/api/verify] *)

(** The JSON body of a verify request. *)
Record verify_request : Set := mkVerify
  { v_productId : option string; v_greenfieldUrl : option string }.

Definition verify_product (data : verify_request) : World -> response * World :=
  handle (
    let product_id := v_productId data in
    let greenfield_url := v_greenfieldUrl data in
    if negb (Py.truthy (opt product_id)) then
      ret (Response 400 (Py.display [ ("success", VBool false);
                                      ("error", VStr "Product ID is required") ]))
    else
      let pid := match product_id with Some s => s | None => "" end in
      stored_hash <- BlockchainService.get_product_hash pid ;;
      if negb (Py.truthy (opt stored_hash)) then
        ret (Response 200 (Py.display
               [ ("success", VBool true);
                 ("isVerified", VBool false);
                 ("error", VStr "Product not found on blockchain");
                 ("productId", opt product_id) ]))
      else
        let stored := match stored_hash with Some s => s | None => "" end in
        current_hash <-
          (if Py.truthy (opt greenfield_url) then
             let url := match greenfield_url with Some s => s | None => "" end in
             file_data <- GreenfieldService.download_file url ;;
             ret (Sha256.hexdigest file_data)
           else ret stored) ;;
        let is_verified := (stored =? current_hash)%string in
        ret (Response 200 (Py.display
               [ ("success", VBool true);
                 ("isVerified", VBool is_verified);
                 ("productId", opt product_id);
                 ("storedHash", VStr stored);
                 ("currentHash", VStr current_hash);
                 ("message", VStr (if is_verified then "Product is authentic"
                                   else "Product has been tampered with")) ]))).

(** *** [/api/upload]: the registration steps *)

(** [request.files['file']] *)
Record uploaded_file : Set := mkFile
  { filename : string; content : list byte; content_type : option string }.

(** The resolved user, the file and the form of an upload request. *)
Record upload_request : Type := mkUpload
  { u_user : option dict;
    u_file : option uploaded_file;
    u_productId : option string;
    u_manufacturerName : option string;
    u_batchName : option string;
    u_productType : option string;
    u_description : option string }.

(** What the registration steps computed, as the success response
    reports it. *)
Record registration : Set := mkRegistration
  { r_batchId : string; r_fileHash : string; r_greenfieldUrl : string; r_txHash : string }.

(** [s.replace(' ', '_')] *)
Fixpoint underscore (s : string) : string :=
  match s with
  | EmptyString => EmptyString
  | String c s' => String (if Ascii.eqb c " " then "_"%char else c) (underscore s')
  end.

Definition get_env : M Env := fun w => (Ok (env w), w).

(** The [batch_data] dictionary of [upload_file]. *)
Definition batch_data_of (req : upload_request) (file : uploaded_file)
    (product_id file_hash greenfield_url tx_hash : string) (e : Env)
    (user_id user_email : value) (uploaded : datetime) : dict :=
  Py.display
    [ ("manufacturerId",
       match u_manufacturerName req with
       | Some m => if Py.truthy (VStr m) then VStr (underscore (Py.lower m))
                   else VStr "unknown"
       | None => VStr "unknown"
       end);
      ("manufacturerName",
       Py.or_ (opt (u_manufacturerName req)) (VStr "Unknown Manufacturer"));
      ("batchName", Py.or_ (opt (u_batchName req)) (VStr product_id));
      ("productType", Py.or_ (opt (u_productType req)) (VStr "Unknown"));
      ("description", Py.or_ (opt (u_description req)) (VStr ""));
      ("fileHash", VStr file_hash);
      ("greenfieldUrl", VStr greenfield_url);
      ("txHash", VStr tx_hash);
      ("contractAddress", VStr (contract_address e));
      ("documentUrl", VStr greenfield_url);
      ("userId", user_id);
      ("userEmail", user_email);
      ("fileName", VStr (filename file));
      ("fileSize", VInt (Z.of_nat (List.length (content file))));
      ("mimeType", opt (content_type file));
      ("uploadTimestamp", VStr (isoformat uploaded)) ].

(** The object name under which [upload_file] stores the artifact:
    [f"{product_id}-{int(datetime.utcnow().timestamp())}.{file.filename.split('.')[-1]}"]. *)
Definition object_name (product_id : string) (now : datetime) (file : uploaded_file)
  : string :=
  product_id +++ "-" +++ Py.str_int (timestamp now) +++ "."
    +++ Py.split_last "." (filename file).

(** [file.content_type or 'application/octet-stream'] *)
Definition content_type_or_default (file : uploaded_file) : string :=
  match content_type file with
  | Some s => if Py.truthy (VStr s) then s else "application/octet-stream"
  | None => "application/octet-stream"
  end.

(** [upload_file] from the user lookup to [db_service.store_batch]: the
    hash, the blob, the ledger anchor and the batch record. The hash
    association on the user and the QR code that follow write none of the
    files of this development. A request turned away gives its
    response. *)
Definition upload_file (req : upload_request) : M (response + registration) :=
  match u_user req with
  | None => ret (inl (Response 404 (Py.display [ ("success", VBool false);
                                                ("error", VStr "User not found") ])))
  | Some user =>
  match u_file req with
  | None => ret (inl (Response 400 (Py.display [ ("success", VBool false);
                                                ("error", VStr "No file provided") ])))
  | Some file =>
  if (filename file =? "")%string then
    ret (inl (Response 400 (Py.display [ ("success", VBool false);
                                        ("error", VStr "No file selected") ])))
  else if negb (Py.truthy (opt (u_productId req))) then
    ret (inl (Response 400 (Py.display [ ("success", VBool false);
                                        ("error", VStr "Product ID is required") ])))
  else
    let product_id := match u_productId req with Some s => s | None => "" end in
    let file_data := content file in
    let file_hash := Sha256.hexdigest file_data in
    now <- utcnow ;;
    greenfield_url <-
      GreenfieldService.upload_file file_data (object_name product_id now file)
        (content_type_or_default file) ;;
    tx_hash <- BlockchainService.store_product_hash product_id file_hash ;;
    e <- get_env ;;
    user_id <- lift (Py.getitem user "id") ;;
    user_email <- lift (Py.getitem user "email") ;;
    uploaded <- utcnow ;;
    let batch_data :=
      batch_data_of req file product_id file_hash greenfield_url tx_hash e
                    user_id user_email uploaded in
    DatabaseService.store_batch (VStr product_id) batch_data ;;;
    ret (inr (mkRegistration product_id file_hash greenfield_url tx_hash))
  end
  end.

(** *** [/api/products/search] *)

Definition search_products (q criteria : option string) : World -> response * World :=
  handle (
    let criteria := match criteria with Some c => c | None => "all" end in
    if negb (Py.truthy (opt q)) then
      ret (Response 400 (Py.display [ ("success", VBool false);
                                      ("error", VStr "Search query is required") ]))
    else
      let query := match q with Some s => s | None => "" end in
      results <- Search.search_products query criteria ;;
      ret (Response 200 (Py.display
             [ ("success", VBool true);
               ("query", VStr query);
               ("criteria", VStr criteria);
               ("results", VList (map VDict results));
               ("total", Dashboard.len results) ]))).

(** *** [/api/scan] *)

(** The JSON body of a scan request, the identity of its token and what
    the handler reads from the connection. *)
Record scan_request : Type := mkScan
  { s_qrData : value;
    s_supplierName : option string;
    s_supplierLocation : option string;
    s_remote_addr : value;
    s_user_agent : value;
    s_jwt_identity : value }.

Section Scan.

(** [json.loads]; [None] stands for [json.JSONDecodeError]. *)
Variable json_loads : string -> option value.

(** [json.loads(qr_data) if isinstance(qr_data, str) else qr_data] *)
Definition parse_qr (qr_data : value) : option value :=
  match qr_data with
  | VStr s => json_loads s
  | _ => Some qr_data
  end.

(** [parsed_qr.get('productId')] *)
Definition qr_product_id (parsed_qr : value) : result value :=
  match parsed_qr with
  | VDict d => Ok (Py.get d "productId")
  | _ => Raise AttributeError
  end.

Definition scan_product (req : scan_request) : World -> response * World :=
  handle (
    let qr_data := s_qrData req in
    let supplier_name := s_supplierName req in
    let supplier_location := s_supplierLocation req in
    if negb (Py.truthy qr_data) || negb (Py.truthy (opt supplier_name)) then
      ret (Response 400 (Py.display
             [ ("success", VBool false);
               ("error", VStr "QR data and supplier name are required") ]))
    else
      match parse_qr qr_data with
      | None =>
          ret (Response 400 (Py.display [ ("success", VBool false);
                                          ("error", VStr "Invalid QR code format") ]))
      | Some parsed_qr =>
          batch_id <- lift (qr_product_id parsed_qr) ;;
          found <- DatabaseService.get_batch batch_id ;;
          match found with
          | None =>
              ret (Response 404 (Py.display [ ("success", VBool false);
                                              ("error", VStr "Batch not found") ]))
          | Some batch =>
              if negb (Py.truthy (VDict batch)) then
                ret (Response 404 (Py.display [ ("success", VBool false);
                                                ("error", VStr "Batch not found") ]))
              else
              let current_user_identity := s_jwt_identity req in
              recorded <-
                DatabaseService.record_scan batch_id
                  (Py.display
                     [ ("supplierName", opt supplier_name);
                       ("supplierLocation",
                        Py.or_ (opt supplier_location) (VStr "Unknown"));
                       ("scanType", VStr "QR_SCAN");
                       ("ipAddress", s_remote_addr req);
                       ("userAgent", s_user_agent req);
                       ("userId",
                        match current_user_identity with
                        | VDict i => Py.get i "id"
                        | _ => VNone
                        end);
                       ("scannerUsername",
                        match current_user_identity with
                        | VDict i => Py.get i "username"
                        | _ => current_user_identity
                        end) ]) ;;
              match recorded with
              | None => raise TypeError
              | Some scan_record =>
                  scan_id <- lift (Py.getitem scan_record "id") ;;
                  scan_time <- lift (Py.getitem scan_record "timestamp") ;;
                  scan_supplier <- lift (Py.getitem scan_record "supplierName") ;;
                  ret (Response 200 (Py.display
                         [ ("success", VBool true);
                           ("batchInfo",
                            VDict (Py.display
                              [ ("batchId", batch_id);
                                ("batchName", Py.get batch "batchName");
                                ("manufacturerName", Py.get batch "manufacturerName");
                                ("productType", Py.get batch "productType");
                                ("description", Py.get batch "description");
                                ("documentUrl", Py.get batch "documentUrl");
                                ("createdAt", Py.get batch "createdAt");
                                ("contractAddress", Py.get batch "contractAddress");
                                ("txHash", Py.get batch "txHash") ]));
                           ("scanRecord",
                            VDict (Py.display
                              [ ("scanId", scan_id);
                                ("timestamp", scan_time);
                                ("supplierName", scan_supplier) ]));
                           ("message",
                            VStr ("Welcome "
                                  +++ match supplier_name with Some s => s | None => "" end
                                  +++ "! Scan recorded successfully.")) ]))
              end
          end
      end).

End Scan.

End App.

(** ** Vocabulary of the statements *)

(** The hash the ledger client answers for a [product_id] that UTF-8
    encodes. *)
Definition mock_hash (product_id : string) : string :=
  Sha256.hexdigest (encode ("mock_file_content_" +++ product_id)).

(** The success response of [verify_product]. *)
Definition verdict (product_id stored current : string) : response :=
  Response 200
    (Py.display
       [ ("success", VBool true);
         ("isVerified", VBool (stored =? current)%string);
         ("productId", VStr product_id);
         ("storedHash", VStr stored);
         ("currentHash", VStr current);
         ("message", VStr (if (stored =? current)%string then "Product is authentic"
                           else "Product has been tampered with")) ]).


(** A field of the JSON body of a response. *)
Definition body_field (r : response) (k : string) : option value :=
  match r with
  | Response _ body => Py.lookup body k
  | InternalError _ => None
  end.

Definition status_of (r : response) : Z :=
  match r with
  | Response status _ => status
  | InternalError _ => 500
  end.

(** The batch as [record_scan] writes it back. *)
Definition scanned_batch (batch : dict) (l : list value) (r : dict) (activity : datetime)
  : dict :=
  Py.setitem (Py.setitem batch "scans" (VList (l ++ [VDict r])))
             "lastActivity" (VStr (isoformat activity)).


(** Whether a computation returned rather than raised. *)
Definition is_ok {A : Type} (r : result A) : bool :=
  match r with Ok _ => true | Raise _ => false end.

(** The letters, in their two cases. *)
Definition letters : list (ascii * ascii) :=
  combine (list_ascii_of_string "ABCDEFGHIJKLMNOPQRSTUVWXYZ")
          (list_ascii_of_string "abcdefghijklmnopqrstuvwxyz").

(** [c] and [d] are the same character, or the two cases of one letter. *)
Definition same_letter (c d : ascii) : bool :=
  Ascii.eqb c d
  || existsb (fun ul => Ascii.eqb c (fst ul) && Ascii.eqb d (snd ul)
                        || Ascii.eqb c (snd ul) && Ascii.eqb d (fst ul)) letters.

(** [q] and [s] read the same once the case of their letters is ignored. *)
Fixpoint same_ignoring_case (q s : string) : bool :=
  match q, s with
  | EmptyString, EmptyString => true
  | String c q', String d s' => same_letter c d && same_ignoring_case q' s'
  | _, _ => false
  end.

(** [s] starts with a text that reads as [q], case ignored. *)
Fixpoint ci_prefix (q s : string) : bool :=
  match q, s with
  | EmptyString, _ => true
  | String c q', String d s' => same_letter c d && ci_prefix q' s'
  | String _ _, EmptyString => false
  end.

(** [q] is a case-insensitive substring of [s]: a part of [s] reads as
    [q], case ignored. *)
Fixpoint ci_substring (q s : string) : bool :=
  ci_prefix q s
  || match s with
     | EmptyString => false
     | String _ s' => ci_substring q s'
     end.

(** The string a record holds under [k] (empty when it holds none). *)
Definition str_field (p : dict) (k : string) : string :=
  match Py.get p k with VStr s => s | _ => "" end.

(** The fields that search reads. *)
Definition search_fields : list string :=
  [ "productId"; "batchName"; "manufacturerName"; "productType" ].


(** A product row as registration writes it: each of the fields that
    search reads holds a non-empty string. *)
Definition registered_product (p : dict) : Prop :=
  forall k, In k search_fields ->
            exists s, Py.lookup p k = Some (VStr s) /\ s <> "".




(** Whether the registration steps ran to the end. *)
Definition registered (r : result (response + App.registration)) : bool :=
  match r with Ok (inr _) => true | _ => false end.

(** [a] may stand before [b] in a list ordered newest-first. *)
Definition newer_or_equal (a b : dict) : Prop :=
  String.leb (Dashboard.key_of b) (Dashboard.key_of a) = true.


(** The number of scans kept inside the batches of a user. *)
Fixpoint nested_scan_count (user_id : Z) (bs : list dict) : Z :=
  match bs with
  | [] => 0
  | batch :: bs' =>
      (if Py.str_eq_int (Py.get batch "userId") user_id then
         match Dashboard.iterate (Py.get_default batch "scans" (VList [])) with
         | Ok l => Z.of_nat (List.length l)
         | Raise _ => 0
         end
       else 0) + nested_scan_count user_id bs'
  end.

(** The number of scans of [scans.json] whose batch id is one of [ids]. *)
Definition file_scan_count (ids : list value) (ss : list dict) : Z :=
  Z.of_nat (List.length (filter (fun scan => Py.set_mem (Py.get scan "batchId") ids) ss)).

(** ** Concrete worlds for the scenarios *)

Module Scenario.

Definition two_digits (n : nat) : string :=
  (if (n <? 10)%nat then "0" else "") +++ Py.str_int (Z.of_nat n).

(** A clock that advances by one second at every reading, from
    2025-07-19T12:00:00. *)
Definition demo_clock (n : nat) : datetime :=
  mkDatetime
    ("2025-07-19T12:" +++ two_digits ((n / 60) mod 60) +++ ":" +++ two_digits (n mod 60))
    (1752926400 + Z.of_nat n).

Definition demo_env : Env := mkEnv "bnbhack1" None.

Definition w0 : World := initial_world demo_env demo_clock.

(** The manufacturer M, as [auth_service.get_user_by_id] resolves it. *)
Definition manufacturer : dict :=
  [ ("id", VInt 1); ("email", VStr "m@example.com");
    ("fullName", VStr "M"); ("role", VStr "manufacturer") ].

Definition upload (product_id : string) (artifact : string) : App.upload_request :=
  App.mkUpload (Some manufacturer)
    (Some (App.mkFile "certificate.txt" (encode artifact) (Some "text/plain")))
    (Some product_id) (Some "Acme") None (Some "Widget") None.

(** The world after a sequence of steps. *)
Definition after {A : Type} (m : M A) (w : World) : World := snd (m w).

(** A scan request whose QR payload arrives as a JSON object. *)
Definition scan (product_id supplier : string) : App.scan_request :=
  App.mkScan (VDict [ ("productId", VStr product_id) ]) (Some supplier) None
             (VStr "203.0.113.7") (VStr "scanner/1.0") (VStr "2").

Definition no_json (_ : string) : option value := None.

Definition do_scan (product_id supplier : string) (w : World) : World :=
  snd (App.scan_product no_json (scan product_id supplier) w).

(** Registration of "LOT-001" with the artifact [b"hello"]. *)
Definition w_lot001 : World := after (App.upload_file (upload "LOT-001" "hello")) w0.

Definition lot001_object : string := "LOT-001-1752926400.txt".

Definition lot001_url : string := "gnfd://bnbhack1/LOT-001-1752926400.txt".

Definition lot001_registration : App.registration :=
  App.mkRegistration "LOT-001"
    "2cf24dba5fb0a30e26e83b2ac5b9e29e1b161e5c1fa7425e73043362938b9824"
    lot001_url
    "0xc20ebc0712ebcc204672d184e252f490ddc5ed2685b3cfc2aa6aed1887940466".

(** The stored object replaced by the bytes "mock_file_content_LOT-001". *)
Definition w_lot001_swapped : World :=
  after (GreenfieldService.upload_file (encode "mock_file_content_LOT-001")
           lot001_object "text/plain") w_lot001.




(** The lone surrogate U+DC80, as [json.loads] reads it from the six
    characters of its escape. *)
Definition lone_surrogate : string := String "237" (String "178" (String "128" "")).

(** A second registration under the same batch id. *)
Definition w_lot001_twice : World :=
  after (App.upload_file (upload "LOT-001" "hello!")) w_lot001.

(** A scan recorded against "LOT-001" with a client-supplied timestamp. *)
Definition scan_data_s1 : dict :=
  [ ("supplierName", VStr "S1"); ("timestamp", VStr "1999-01-01T00:00:00") ].

Definition first_scan : dict :=
  DatabaseService.scan_record_of (VStr "LOT-001") scan_data_s1 0 (demo_clock 7).

Definition w_lot001_scanned : World :=
  after (DatabaseService.record_scan (VStr "LOT-001") scan_data_s1) w_lot001.

(** The dashboard scenario: M registers B1 and B2; S1, S2 and S1 again
    scan B1, and S2 scans B2. *)
Definition w_batches : World :=
  after (App.upload_file (upload "B2" "second certificate"))
        (after (App.upload_file (upload "B1" "first certificate")) w0).

Definition w_dashboard : World :=
  do_scan "B2" "S2" (do_scan "B1" "S1" (do_scan "B1" "S2" (do_scan "B1" "S1" w_batches))).

(** The same with three scan events: S1 and S2 scan B1, S2 scans B2. *)
Definition w_dashboard3 : World :=
  do_scan "B2" "S2" (do_scan "B1" "S2" (do_scan "B1" "S1" w_batches)).

Definition dashboard_of (w : World) : result dict :=
  Dashboard._get_manufacturer_dashboard 1 "M"
    (batches_file w) (scans_file w) (products_file w).

Definition dashboard_field (w : World) (k : string) : option value :=
  match dashboard_of w with
  | Ok d => Py.lookup d k
  | Raise _ => None
  end.

(** The ["timestamp"] of each entry of a list of scans. *)
Definition timestamps (v : option value) : list value :=
  match v with
  | Some (VList l) =>
      map (fun x => match x with VDict d => Py.get d "timestamp" | _ => VNone end) l
  | _ => []
  end.

(** The ["id"] of each entry of a list of scans. *)
Definition scan_ids (v : option value) : list value :=
  match v with
  | Some (VList l) =>
      map (fun x => match x with VDict d => Py.get d "id" | _ => VNone end) l
  | _ => []
  end.

End Scenario.

(** ** Further vocabulary *)

(** The counters of the three files agree with the lists they count. *)
Definition counters_consistent (w : World) : Prop :=
  lastBatchId (batches_file w) = Z.of_nat (List.length (batches (batches_file w)))
  /\ lastScanId (scans_file w) = Z.of_nat (List.length (scans (scans_file w)))
  /\ lastProductId (products_file w) = Z.of_nat (List.length (products (products_file w))).

(** The keys that [store_batch] sets on a batch, over those of [data]. *)
Definition batch_keys : list string :=
  [ "batchId"; "createdAt"; "scans"; "status"; "lastActivity"; "metadata" ].

(** A name that [open(f"uploads/{name}", 'wb')] takes as a file of the
    uploads directory itself: without "/" and without a NUL, not empty,
    not "." or "..", and short enough for [<name>.meta] to fit the 255
    bytes of a file name. *)
Definition plain_name (name : string) : bool :=
  negb (Py.contains "/" name)
  && negb (Py.contains (String Ascii.zero "") name)
  && negb (name =? "")%string && negb (name =? ".")%string && negb (name =? "..")%string
  && (String.length name <=? 250)%nat.

(** The scan data that [scan_product] hands to [record_scan]. *)
Definition scan_data_of (req : App.scan_request) : dict :=
  Py.display
    [ ("supplierName", App.opt (App.s_supplierName req));
      ("supplierLocation", Py.or_ (App.opt (App.s_supplierLocation req)) (VStr "Unknown"));
      ("scanType", VStr "QR_SCAN");
      ("ipAddress", App.s_remote_addr req);
      ("userAgent", App.s_user_agent req);
      ("userId",
       match App.s_jwt_identity req with
       | VDict i => Py.get i "id"
       | _ => VNone
       end);
      ("scannerUsername",
       match App.s_jwt_identity req with
       | VDict i => Py.get i "username"
       | _ => App.s_jwt_identity req
       end) ].

(** The event that [scan_product] records for a request. *)
Definition scan_event (req : App.scan_request) (batch_id : value) (w : World) : dict :=
  DatabaseService.scan_record_of batch_id (scan_data_of req) (lastScanId (scans_file w))
                                 (clock w (ticks w)).

(** The scans of [scans.json] carry the numbers that [record_scan] gives:
    the counter is their number, and the scan at position [i] has the id
    [str(i + 1)]. *)
Definition scans_numbered (w : World) : Prop :=
  lastScanId (scans_file w) = Z.of_nat (List.length (scans (scans_file w)))
  /\ forall (i : nat) (s : dict),
       nth_error (scans (scans_file w)) i = Some s ->
       Py.lookup s "id" = Some (VStr (Py.str_int (Z.of_nat i + 1))).

(** ** Further functions of the services *)

Module BlockchainInfo.

(** [BlockchainService.contract_address]:
    [os.getenv('BSC_CONTRACT_ADDRESS', '0x03D1...70d8')]. *)
Definition contract_address (e : Env) : string :=
  match BSC_CONTRACT_ADDRESS e with
  | Some a => a
  | None => "0x03D1DC1fC2DB1E831D511B74f5a0Cb34585770d8"
  end.

(** [BlockchainService.get_product_info(product_id)] *)
Definition get_product_info (product_id : string) : M dict :=
  file_hash <- BlockchainService.get_product_hash product_id ;;
  if negb (Py.truthy (App.opt file_hash)) then ret []
  else
    e <- App.get_env ;;
    ret (Py.display
           [ ("productId", VStr product_id);
             ("fileHash", App.opt file_hash);
             ("contractAddress", VStr (contract_address e));
             ("timestamp", VInt 1721390400);
             ("blockNumber", VInt 12345678) ]).

(** [/api/product/<product_id>], [get_product] of [app.py] *)
Definition get_product (product_id : string) : World -> response * World :=
  App.handle (
    if negb (Py.truthy (VStr product_id)) then
      ret (Response 400 (Py.display [ ("success", VBool false);
                                      ("error", VStr "Product ID is required") ]))
    else
      product_info <- get_product_info product_id ;;
      if negb (Py.truthy (Py.get product_info "fileHash")) then
        ret (Response 404 (Py.display [ ("success", VBool false);
                                        ("error", VStr "Product not found") ]))
      else
        ret (Response 200 (Py.update
                             (Py.display [ ("success", VBool true);
                                           ("productId", VStr product_id) ])
                             product_info))).

End BlockchainInfo.

Module GreenfieldInfo.

Definition get_env : M Env := fun w => (Ok (env w), w).

(** The file information that [get_file_info] makes up when it finds
    nothing. *)
Definition mock_info (file_url : string) (e : Env) : dict :=
  Py.display
    [ ("url", VStr file_url);
      ("size", VInt 1024);
      ("contentType", VStr "application/pdf");
      ("lastModified", VStr "2025-07-20T00:00:00Z");
      ("bucket", VStr (bucket_name e)) ].

(** [GreenfieldService.get_file_info(file_url)]. A side file holds the
    document that was dumped into it; what [json.load] makes of the bytes
    of an artifact stored under a [.meta] name, and the size of the text
    of a side file, are not modelled. *)
Definition get_file_info (file_url : string) : M dict :=
  e <- get_env ;;
  if Py.startswith file_url "gnfd://" then
    let filename := Py.split_last "/" file_url in
    fun w =>
      match GreenfieldService.fs_lookup (uploads w) (filename +++ ".meta") with
      | Some (MetaJson metadata) =>
          (Ok (Py.display
                 [ ("url", VStr file_url);
                   ("size", Py.get_default metadata "size" (VInt 0));
                   ("contentType",
                    Py.get_default metadata "contentType" (VStr "application/octet-stream"));
                   ("lastModified",
                    Py.get_default metadata "uploadTime" (VStr "2025-07-20T00:00:00Z"));
                   ("bucket", VStr (bucket_name e));
                   ("filename", VStr filename);
                   ("hash", Py.get_default metadata "hash" (VStr ""));
                   ("mode", Py.get_default metadata "mode" (VStr "unknown")) ]), w)
      | Some (Blob _) => (Raise Unsupported, w)
      | None =>
          match GreenfieldService.fs_lookup (uploads w) filename with
          | Some (Blob data) =>
              (Ok (Py.display
                     [ ("url", VStr file_url);
                       ("size", VInt (Z.of_nat (List.length data)));
                       ("contentType", VStr "application/octet-stream");
                       ("lastModified", VStr "2025-07-20T00:00:00Z");
                       ("bucket", VStr (bucket_name e));
                       ("filename", VStr filename) ]), w)
          | Some (MetaJson _) => (Raise Unsupported, w)
          | None => (Ok (mock_info file_url e), w)
          end
      end
  else ret (mock_info file_url e).

End GreenfieldInfo.

Module ScanDetails.

(** [str(v) == s] for a string [s]; [str] of a list or of a dictionary is
    not modelled. *)
Definition str_eq (v : value) (s : string) : result bool :=
  match v with
  | VNone => Ok ("None" =? s)%string
  | VBool b => Ok ((if b then "True" else "False") =? s)%string
  | VInt n => Ok (Py.str_int n =? s)%string
  | VStr t => Ok (t =? s)%string
  | VList _ | VDict _ => Raise Unsupported
  end.

(** The loop of [get_scan_details]: the first scan whose ["id"], as a
    string, is [scan_id]. *)
Fixpoint find_scan (ss : list dict) (scan_id : string) : result (option dict) :=
  match ss with
  | [] => Ok None
  | s :: ss' =>
      match str_eq (Py.get s "id") scan_id with
      | Raise e => Raise e
      | Ok true => Ok (Some s)
      | Ok false => find_scan ss' scan_id
      end
  end.

(** [/api/scan/<scan_id>], [get_scan_details] of [app.py] *)
Definition get_scan_details (scan_id : string) : World -> response * World :=
  App.handle (
    scans_data <- DatabaseService.load_scans ;;
    found <- lift (find_scan (scans scans_data) scan_id) ;;
    match found with
    | None =>
        ret (Response 404 (Py.display [ ("success", VBool false);
                                        ("error", VStr "Scan not found") ]))
    | Some scan =>
        if negb (Py.truthy (VDict scan)) then
          ret (Response 404 (Py.display [ ("success", VBool false);
                                          ("error", VStr "Scan not found") ]))
        else
          batch <- DatabaseService.get_batch (Py.get scan "batchId") ;;
          let batch_info := match batch with Some b => VDict b | None => VNone end in
          batch_info <-
            (if negb (Py.truthy batch_info) then
               products_data <- DatabaseService.load_products ;;
               ret (match Dashboard.first_with "productId" (Py.get scan "batchId")
                            (products products_data) with
                    | Some product => VDict product
                    | None => batch_info
                    end)
             else ret batch_info) ;;
          ret (Response 200 (Py.display [ ("success", VBool true);
                                          ("scan", VDict scan);
                                          ("batchInfo", batch_info) ]))
    end).

End ScanDetails.

(** ** [services/auth_service.py]

    The users live in [users.json], a file of their own; the functions
    take the document and return it. *)

Module AuthService.

Import Dashboard.

(** [users.json]: [{"users": [...], "lastUserId": n}] *)
Record users_doc : Type := mkUsers
  { users : list dict; lastUserId : Z }.

(** [del d[k]] *)
Fixpoint delitem (d : dict) (k : string) : result dict :=
  match d with
  | [] => Raise (KeyError k)
  | (k', v) :: d' =>
      if (k' =? k)%string then Ok d'
      else match delitem d' k with
           | Ok r => Ok ((k', v) :: r)
           | Raise e => Raise e
           end
  end.

(** [user_response = user.copy()] then [del user_response['password']] *)
Definition user_response (user : dict) : result dict := delitem user "password".

(** The loop of [get_user_by_id] and of [get_user_by_email]: the first
    user whose [key] equals [v], without its password. *)
Fixpoint get_user_by (key : string) (v : value) (us : list dict) : result (option dict) :=
  match us with
  | [] => Ok None
  | user :: us' =>
      bindr (Py.getitem user key) (fun x =>
      if Py.eq x v then bindr (user_response user) (fun r => Ok (Some r))
      else get_user_by key v us')
  end.

(** [get_user_by_id(user_id)] *)
Definition get_user_by_id (user_id : value) (d : users_doc) : result (option dict) :=
  get_user_by "id" user_id (users d).

(** [get_user_by_email(email)] *)
Definition get_user_by_email (email : value) (d : users_doc) : result (option dict) :=
  get_user_by "email" email (users d).

(** [s.split(sep)[0]] for a one-character separator. *)
Fixpoint split_first (sep : ascii) (s : string) : string :=
  match s with
  | EmptyString => EmptyString
  | String c s' =>
      if Ascii.eqb c sep then EmptyString else String c (split_first sep s')
  end.

(** The first loop of [register_user]: whether a user has the email. *)
Fixpoint email_taken (email : string) (us : list dict) : result bool :=
  match us with
  | [] => Ok false
  | user :: us' =>
      bindr (Py.getitem user "email") (fun e =>
      if Py.eq e (VStr email) then Ok true else email_taken email us')
  end.

(** The [new_user] dictionary of [register_user]. *)
Definition new_user (d : users_doc)
    (email password_hash full_name role company_name : string)
    (created joined : datetime) : dict :=
  Py.display
    [ ("id", VInt (lastUserId d + 1));
      ("username", VStr (split_first "@" email));
      ("email", VStr email);
      ("password", VStr password_hash);
      ("fullName", VStr full_name);
      ("role", VStr role);
      ("companyName", VStr company_name);
      ("verified", VBool true);
      ("createdAt", VStr (isoformat created));
      ("lastLogin", VNone);
      ("blockchainHashes", VList []);
      ("profileData",
       VDict (Py.display [ ("totalBatches", VInt 0);
                           ("totalScans", VInt 0);
                           ("joinedAt", VStr (isoformat joined)) ])) ].

(** [register_user(email, password, full_name, role, company_name)].
    [password_hash] stands for
    [bcrypt.hashpw(password.encode('utf-8'), bcrypt.gensalt()).decode('utf-8')],
    [created] and [joined] for the two readings of [datetime.utcnow()]. *)
Definition register_user (email password_hash full_name role company_name : string)
    (created joined : datetime) (d : users_doc) : result dict * users_doc :=
  match email_taken email (users d) with
  | Raise e => (Raise e, d)
  | Ok true =>
      (Ok (Py.display [ ("success", VBool false);
                        ("error", VStr "User already exists") ]), d)
  | Ok false =>
      let user := new_user d email password_hash full_name role company_name
                           created joined in
      let d' := mkUsers (users d ++ [user]) (lastUserId d + 1) in
      (bindr (user_response user) (fun r =>
       Ok (Py.display [ ("success", VBool true); ("user", VDict r) ])), d')
  end.

(** [users.json] and [sessions.json] *)
Record auth_files : Type := mkAuthFiles
  { users_file : users_doc; sessions : list dict }.

(** The loop of [login_user] that looks the user up by email. *)
Fixpoint find_by_email (email : string) (us : list dict) : result (option dict) :=
  match us with
  | [] => Ok None
  | u :: us' =>
      bindr (Py.getitem u "email") (fun e =>
      if Py.eq e (VStr email) then Ok (Some u) else find_by_email email us')
  end.

(** [user['lastLogin'] = stamp] on the user that the loop found: the user
    is an element of the list, which the assignment changes in place. *)
Fixpoint set_last_login (email : string) (stamp : value) (us : list dict) : list dict :=
  match us with
  | [] => []
  | u :: us' =>
      match Py.getitem u "email" with
      | Ok e =>
          if Py.eq e (VStr email) then Py.setitem u "lastLogin" stamp :: us'
          else u :: set_last_login email stamp us'
      | Raise _ => u :: us'
      end
  end.

Section Login.

(** [bcrypt.checkpw(password.encode('utf-8'), hashed.encode('utf-8'))],
    which raises on a string that is no bcrypt hash. *)
Variable checkpw : string -> string -> result bool.

(** [login_user(email, password)]; [login_at], [session_login] and
    [session_activity] stand for the three readings of
    [datetime.utcnow()]. *)
Definition login_user (email password : string)
    (login_at session_login session_activity : datetime) (files : auth_files)
  : result dict * auth_files :=
  let users_data := users_file files in
  let not_found := Py.display [ ("success", VBool false); ("error", VStr "User not found") ] in
  match find_by_email email (users users_data) with
  | Raise e => (Raise e, files)
  | Ok None => (Ok not_found, files)
  | Ok (Some user) =>
      if negb (Py.truthy (VDict user)) then (Ok not_found, files) else
      match Py.getitem user "password" with
      | Raise e => (Raise e, files)
      | Ok (VStr hashed) =>
          match checkpw password hashed with
          | Raise e => (Raise e, files)
          | Ok false =>
              (Ok (Py.display [ ("success", VBool false);
                                ("error", VStr "Invalid password") ]), files)
          | Ok true =>
              let stamp := VStr (isoformat login_at) in
              let user := Py.setitem user "lastLogin" stamp in
              let saved :=
                mkAuthFiles (mkUsers (set_last_login email stamp (users users_data))
                                     (lastUserId users_data))
                            (sessions files) in
              match Py.getitem user "id", Py.getitem user "email" with
              | Raise e, _ => (Raise e, saved)
              | Ok _, Raise e => (Raise e, saved)
              | Ok user_id, Ok user_email =>
                  let session_data :=
                    Py.display
                      [ ("userId", user_id);
                        ("email", user_email);
                        ("loginTime", VStr (isoformat session_login));
                        ("lastActivity", VStr (isoformat session_activity)) ] in
                  (bindr (user_response user) (fun r =>
                   Ok (Py.display [ ("success", VBool true); ("user", VDict r) ])),
                   mkAuthFiles (users_file saved) (sessions files ++ [session_data]))
              end
          end
      | Ok _ => (Raise AttributeError, files)
      end
  end.

End Login.

End AuthService.

(** ** [services/qr_service.py] *)

Module QRService.

(** [generate_qr_data(product_id, contract_address, additional_data)], up
    to its last step: the dictionary that it hands to [json.dumps]. *)
Definition qr_data (product_id contract_address : string)
    (additional_data : option dict) : dict :=
  let qr_data :=
    Py.display
      [ ("productId", VStr product_id);
        ("contractAddress", VStr contract_address);
        ("timestamp", VStr "2025-07-19T12:00:00Z");
        ("version", VStr "1.0") ] in
  match additional_data with
  | Some more => if Py.truthy (VDict more) then Py.update qr_data more else qr_data
  | None => qr_data
  end.

(** The QR payload that [upload_file] asks for once the batch is stored:
    [generate_product_qr(product_id, os.getenv('BSC_CONTRACT_ADDRESS', ...),
    {'batchName': ..., 'manufacturer': ..., 'productType': ...})]. *)
Definition registration_qr_data (req : App.upload_request) (product_id : string)
    (e : Env) : dict :=
  qr_data product_id (App.contract_address e)
    (Some (Py.display
             [ ("batchName", Py.or_ (App.opt (App.u_batchName req)) (VStr product_id));
               ("manufacturer",
                Py.or_ (App.opt (App.u_manufacturerName req)) (VStr "Unknown Manufacturer"));
               ("productType", Py.or_ (App.opt (App.u_productType req)) (VStr "Unknown")) ])).

End QRService.

Module UserMetadata.

Import Dashboard.

(** [get_user_products(user_id)] *)
Definition get_user_products (user_id : value) : M (list dict) :=
  products_data <- DatabaseService.load_products ;;
  ret (filter (fun p => Py.eq (Py.get p "userId") user_id) (products products_data)).

(** [any(product['productId'] == batch_id for product in user_products)] *)
Fixpoint any_product (batch_id : value) (ps : list dict) : result bool :=
  match ps with
  | [] => Ok false
  | p :: ps' =>
      bindr (Py.getitem p "productId") (fun id =>
      if Py.eq id batch_id then Ok true else any_product batch_id ps')
  end.

(** The scans whose batch is one of the products of the user. *)
Fixpoint user_scans (user_products : list dict) (ss : list dict) : result (list dict) :=
  match ss with
  | [] => Ok []
  | scan :: ss' =>
      bindr (any_product (Py.get scan "batchId") user_products) (fun hit =>
      bindr (user_scans user_products ss') (fun rest =>
      Ok (if hit then scan :: rest else rest)))
  end.

(** One entry of ['uploadHistory']. *)
Definition upload_entry (product : dict) : result value :=
  bindr (Py.getitem product "productId") (fun product_id =>
  bindr (Py.getitem product "batchName") (fun batch_name =>
  bindr (Py.getitem product "createdAt") (fun created =>
  bindr (Py.getitem product "fileHash") (fun file_hash =>
  bindr (Py.getitem product "txHash") (fun tx_hash =>
  Ok (VDict (Py.display
               [ ("productId", product_id);
                 ("batchName", batch_name);
                 ("uploadedAt", created);
                 ("fileHash", file_hash);
                 ("txHash", tx_hash) ]))))))).

Fixpoint upload_history (ps : list dict) : result (list value) :=
  match ps with
  | [] => Ok []
  | p :: ps' =>
      bindr (upload_entry p) (fun entry =>
      bindr (upload_history ps') (fun rest => Ok (entry :: rest)))
  end.

(** [l[-10:]] *)
Definition last10 {A : Type} (l : list A) : list A :=
  skipn (List.length l - 10) l.

(** [get_user_metadata(user_id)] *)
Definition get_user_metadata (user_id : value) : M dict :=
  user_products <- get_user_products user_id ;;
  scans_data <- DatabaseService.load_scans ;;
  scans_of_user <- lift (user_scans user_products (scans scans_data)) ;;
  history <- lift (upload_history user_products) ;;
  ret (Py.display
         [ ("userId", user_id);
           ("totalUploads", len user_products);
           ("totalScans", len scans_of_user);
           ("products", VList (map VDict user_products));
           ("recentActivity", VList (map VDict (last10 scans_of_user)));
           ("uploadHistory", VList history) ]).

(** [/api/user/metadata], [get_current_user_metadata] of [app.py]; the
    identity of the token is what [get_user_metadata] is asked about. *)
Definition get_current_user_metadata (jwt_identity : value) : World -> response * World :=
  App.handle (
    user_metadata <- get_user_metadata jwt_identity ;;
    ret (Response 200 (Py.display [ ("success", VBool true);
                                    ("userMetadata", VDict user_metadata) ]))).

(** [/api/user/<int:user_id>/metadata], [get_user_metadata] of [app.py],
    over the users of [users.json]. *)
Definition get_user_metadata_route (users_data : AuthService.users_doc)
    (jwt_identity : value) (user_id : Z) : World -> response * World :=
  App.handle (
    let current_user_id := jwt_identity in
    current_user <- lift (AuthService.get_user_by_id current_user_id users_data) ;;
    denied <-
      (if negb (Py.eq current_user_id (VInt user_id)) then
         match current_user with
         | Some user => ret (negb (Py.eq (Py.get user "role") (VStr "admin")))
         | None => raise AttributeError
         end
       else ret false) ;;
    if denied : bool then
      ret (Response 403
             (Py.display
                [ ("success", VBool false);
                  ("error",
                   VStr "Access denied. You can only view your own metadata.") ]))
    else
      user_metadata <- get_user_metadata (VInt user_id) ;;
      ret (Response 200 (Py.display [ ("success", VBool true);
                                      ("userMetadata", VDict user_metadata) ]))).

End UserMetadata.

(** ** The dashboards of suppliers and of general users, and
    [get_user_dashboard] *)

Module RoleDashboards.

Import Dashboard.

(** The accumulators of [_get_supplier_dashboard] and of
    [_get_general_user_dashboard]; [seen_batches] is [scanned_batches] in
    the first and [viewed_batches] in the second. *)
Record role_acc : Type := mkRoleAcc
  { seen_batches : list dict;
    my_scans : list dict;
    unique_manufacturers : list value;
    scan_total : Z }.

(** [scan.get('supplierName') == user_name or
     str(scan.get('supplierId', '')) == str(user_id)] *)
Definition by_supplier (user_id : Z) (user_name : string) (scan : dict) : bool :=
  Py.eq (Py.get scan "supplierName") (VStr user_name)
  || Py.str_eq_int (Py.get_default scan "supplierId" (VStr "")) user_id.

(** [scan.get('supplierName') == user_name or
     str(scan.get('userId', '')) == str(user_id) or
     scan.get('scannerName') == user_name] *)
Definition by_user (user_id : Z) (user_name : string) (scan : dict) : bool :=
  Py.eq (Py.get scan "supplierName") (VStr user_name)
  || Py.str_eq_int (Py.get_default scan "userId" (VStr "")) user_id
  || Py.eq (Py.get scan "scannerName") (VStr user_name).

(** [any(b.get('batchId') == batch_id for b in seen)] *)
Definition any_batch (batch_id : value) (seen : list dict) : bool :=
  existsb (fun b => Py.eq (Py.get b "batchId") batch_id) seen.

(** [sum(1 for s in my_scans if s.get('batchId') == batch_id)] *)
Definition count_scans (batch_id : value) (scans_so_far : list dict) : Z :=
  Z.of_nat (List.length (filter (fun s => Py.eq (Py.get s "batchId") batch_id) scans_so_far)).

(** [if not any(...): seen.append({**info, seen_key: scan.get('timestamp'),
    count_key: sum(...)})] *)
Definition add_seen (seen_key count_key : string) (info : dict) (batch_id stamp : value)
    (a : role_acc) : list dict :=
  if any_batch batch_id (seen_batches a) then seen_batches a
  else seen_batches a
       ++ [Py.update info [ (seen_key, stamp);
                            (count_key, VInt (count_scans batch_id (my_scans a))) ]].

(** The loop over [scans.json], for the scans that [mine] selects:
    [for scan in scans_data.get('scans', [])]. *)
Fixpoint file_loop (mine : dict -> bool) (seen_key count_key : string)
    (bs ps : list dict) (ss : list dict) (a : role_acc) : result role_acc :=
  match ss with
  | [] => Ok a
  | scan :: ss' =>
      if mine scan then
        let a1 := mkRoleAcc (seen_batches a) (my_scans a ++ [scan])
                            (unique_manufacturers a) (scan_total a + 1) in
        bindr
          (match batch_info_of scan bs ps with
           | Some info =>
               if Py.truthy (VDict info) then
                 bindr (Py.set_add (Py.get_default info "manufacturerName" (VStr "Unknown"))
                                   (unique_manufacturers a1)) (fun ms =>
                 Ok (mkRoleAcc
                       (add_seen seen_key count_key info (Py.get scan "batchId")
                                 (Py.get scan "timestamp") a1)
                       (my_scans a1) ms (scan_total a1)))
               else Ok a1
           | None => Ok a1
           end)
          (file_loop mine seen_key count_key bs ps ss')
      else file_loop mine seen_key count_key bs ps ss' a
  end.

(** [for scan in batch.get('scans', [])] of [_get_supplier_dashboard]:
    the scans kept inside a batch. *)
Fixpoint legacy_loop (user_id : Z) (user_name : string) (batch : dict) (l : list value)
    (a : role_acc) : result role_acc :=
  match l with
  | [] => Ok a
  | VDict scan :: l' =>
      if by_supplier user_id user_name scan then
        let entry :=
          Py.update scan [ ("batchId", Py.get batch "batchId");
                           ("productName", Py.get batch "batchName") ] in
        let a1 := mkRoleAcc (seen_batches a) (my_scans a ++ [entry])
                            (unique_manufacturers a) (scan_total a + 1) in
        bindr (Py.set_add (Py.get_default batch "manufacturerName" (VStr "Unknown"))
                          (unique_manufacturers a1)) (fun ms =>
        legacy_loop user_id user_name batch l'
          (mkRoleAcc
             (add_seen "lastScanned" "scanCount" batch (Py.get batch "batchId")
                       (Py.get scan "timestamp") a1)
             (my_scans a1) ms (scan_total a1)))
      else legacy_loop user_id user_name batch l' a
  | _ :: _ => Raise AttributeError
  end.

(** [for batch in batches_data.get('batches', [])] of
    [_get_supplier_dashboard] *)
Fixpoint legacy_batches (user_id : Z) (user_name : string) (bs : list dict) (a : role_acc)
  : result role_acc :=
  match bs with
  | [] => Ok a
  | batch :: bs' =>
      bindr (iterate (Py.get_default batch "scans" (VList []))) (fun l =>
      bindr (legacy_loop user_id user_name batch l a) (legacy_batches user_id user_name bs'))
  end.

(** [_get_supplier_dashboard(user_id, user_name, batches_data, scans_data,
    products_data)] *)
Definition _get_supplier_dashboard (user_id : Z) (user_name : string)
    (batches_data : batches_doc) (scans_data : scans_doc) (products_data : products_doc)
  : result dict :=
  bindr (file_loop (by_supplier user_id user_name) "lastScanned" "scanCount"
           (batches batches_data) (products products_data) (scans scans_data)
           (mkRoleAcc [] [] [] 0)) (fun a1 =>
  bindr (legacy_batches user_id user_name (batches batches_data) a1) (fun a2 =>
  bindr (sort_newest_first (my_scans a2)) (fun sorted =>
  Ok (Py.display
        [ ("userId", VInt user_id);
          ("userName", VStr user_name);
          ("role", VStr "supplier");
          ("totalScans", VInt (scan_total a2));
          ("totalBatches", len (seen_batches a2));
          ("totalManufacturers", len (unique_manufacturers a2));
          ("scannedBatches", VList (map VDict (seen_batches a2)));
          ("recentScans", VList (map VDict (firstn 10 sorted)));
          ("manufacturerList", VList (unique_manufacturers a2));
          ("allScans", VList (map VDict sorted)) ])))).

(** [_get_general_user_dashboard(user_id, user_name, batches_data,
    scans_data, products_data)] *)
Definition _get_general_user_dashboard (user_id : Z) (user_name : string)
    (batches_data : batches_doc) (scans_data : scans_doc) (products_data : products_doc)
  : result dict :=
  bindr (file_loop (by_user user_id user_name) "lastViewed" "viewCount"
           (batches batches_data) (products products_data) (scans scans_data)
           (mkRoleAcc [] [] [] 0)) (fun a1 =>
  bindr (sort_newest_first (my_scans a1)) (fun sorted =>
  Ok (Py.display
        [ ("userId", VInt user_id);
          ("userName", VStr user_name);
          ("role", VStr "user");
          ("totalScans", VInt (scan_total a1));
          ("totalBatches", len (seen_batches a1));
          ("totalManufacturers", len (unique_manufacturers a1));
          ("viewedBatches", VList (map VDict (seen_batches a1)));
          ("recentScans", VList (map VDict (firstn 10 sorted)));
          ("manufacturerList", VList (unique_manufacturers a1));
          ("allScans", VList (map VDict sorted)) ]))).

(** The loop of [get_user_dashboard] that looks the user up: by the
    string of its id, by its username, or by its full name in lower case
    with "_" for " ". *)
Fixpoint find_user (user_id : string) (us : list dict) : result (option dict) :=
  match us with
  | [] => Ok None
  | user :: us' =>
      bindr (ScanDetails.str_eq (Py.get user "id") user_id) (fun by_id =>
      bindr (if by_id || Py.eq (Py.get user "username") (VStr user_id) then Ok true
             else match Py.get user "fullName" with
                  | VStr full_name =>
                      Ok (App.underscore (Py.lower full_name) =? Py.lower user_id)%string
                  | _ => Raise AttributeError
                  end) (fun hit =>
      if hit then Ok (Some user) else find_user user_id us'))
  end.

(** [get_user_dashboard(user_id, user_role)]. The role given by the
    caller is overwritten by the role of the user that was found. An id
    that is not an integer and a full name that is not a string are
    outside the embedding. *)
Definition get_user_dashboard (users_data : AuthService.users_doc) (user_id : string)
    (user_role : option string) : M dict :=
  batches_data <- DatabaseService.load_batches ;;
  scans_data <- DatabaseService.load_scans ;;
  products_data <- DatabaseService.load_products ;;
  user_info <- lift (find_user user_id (AuthService.users users_data)) ;;
  match user_info with
  | None => ret (Py.display [ ("error", VStr "User not found"); ("success", VBool false) ])
  | Some user_info =>
      if negb (Py.truthy (VDict user_info)) then
        ret (Py.display [ ("error", VStr "User not found"); ("success", VBool false) ])
      else
        match Py.get user_info "id", Py.get_default user_info "fullName" (VStr user_id) with
        | VInt actual_user_id, VStr user_name =>
            let user_role := Py.get_default user_info "role" (VStr "user") in
            if Py.eq user_role (VStr "manufacturer") then
              lift (_get_manufacturer_dashboard actual_user_id user_name
                      batches_data scans_data products_data)
            else if Py.eq user_role (VStr "supplier") then
              lift (_get_supplier_dashboard actual_user_id user_name
                      batches_data scans_data products_data)
            else
              lift (_get_general_user_dashboard actual_user_id user_name
                      batches_data scans_data products_data)
        | _, _ => raise Unsupported
        end
  end.

(** [get_manufacturer_dashboard(manufacturer_id)] *)
Definition get_manufacturer_dashboard (users_data : AuthService.users_doc)
    (manufacturer_id : string) : M dict :=
  get_user_dashboard users_data manufacturer_id (Some "manufacturer").

(** [/api/dashboard/<user_id>], [get_dashboard] of [app.py] *)
Definition get_dashboard (users_data : AuthService.users_doc) (user_id : string)
  : World -> response * World :=
  App.handle (
    dashboard_data <- get_user_dashboard users_data user_id None ;;
    ret (Response 200 (Py.update (Py.display [ ("success", VBool true) ]) dashboard_data))).

(** [/api/scans/<manufacturer_id>], [get_manufacturer_scans] of [app.py] *)
Definition get_manufacturer_scans (users_data : AuthService.users_doc)
    (manufacturer_id : string) : World -> response * World :=
  App.handle (
    dashboard_data <- get_manufacturer_dashboard users_data manufacturer_id ;;
    ret (Response 200
           (Py.display
              [ ("success", VBool true);
                ("scans", Py.get_default dashboard_data "allScans" (VList []));
                ("totalScans", Py.get_default dashboard_data "totalScans" (VInt 0));
                ("recentScans", Py.get_default dashboard_data "recentScans" (VList [])) ]))).

End RoleDashboards.

(** The scans kept inside the batches that [by_supplier] selects. *)
Definition supplier_scans_in (user_id : Z) (user_name : string) (l : list value) : Z :=
  Z.of_nat (List.length
              (filter (fun v => match v with
                                | VDict scan => RoleDashboards.by_supplier user_id user_name scan
                                | _ => false
                                end) l)).

Fixpoint nested_supplier_scans (user_id : Z) (user_name : string) (bs : list dict) : Z :=
  match bs with
  | [] => 0
  | batch :: bs' =>
      match Dashboard.iterate (Py.get_default batch "scans" (VList [])) with
      | Ok l => supplier_scans_in user_id user_name l
      | Raise _ => 0
      end + nested_supplier_scans user_id user_name bs'
  end.

(** ** Further concrete worlds and requests *)

Module Cases.

Import Scenario.

(** The batch that the registration of "LOT-001" stored. *)
Definition lot001_batch : dict := nth 0 (batches (batches_file w_lot001)) [].

(** A scan of "LOT-001" by the supplier S1. *)
Definition lot001_scan : App.scan_request := scan "LOT-001" "S1".

(** The file of the registration of "LOT-001". *)
Definition certificate : App.uploaded_file :=
  App.mkFile "certificate.txt" (encode "hello") (Some "text/plain").

(** A scan request that carries the QR payload of the registration of
    "LOT-001" as a JSON object. *)
Definition lot001_qr_scan : App.scan_request :=
  App.mkScan (VDict (QRService.registration_qr_data (upload "LOT-001" "hello") "LOT-001"
                       demo_env))
             (Some "S1") None (VStr "203.0.113.7") (VStr "scanner/1.0") (VStr "2").

(** The metadata of user 1 before anything was registered. *)
Definition no_uploads : dict :=
  Py.display
    [ ("userId", VInt 1); ("totalUploads", VInt 0); ("totalScans", VInt 0);
      ("products", VList []); ("recentActivity", VList []); ("uploadHistory", VList []) ].

(** The users after the registration of one manufacturer. *)
Definition one_user : AuthService.users_doc :=
  snd (AuthService.register_user "m@example.com" "$2b$12$hash" "M" "manufacturer" "Acme"
         (demo_clock 0) (demo_clock 1) (AuthService.mkUsers [] 0)).

(** Three stored users: the second and the third share the id 2, and the
    third has no password. *)
Definition user_a : dict :=
  [ ("id", VInt 1); ("email", VStr "a@example.com"); ("password", VStr "$2b$12$a") ].

Definition user_b : dict :=
  [ ("id", VInt 2); ("email", VStr "b@example.com"); ("password", VStr "$2b$12$b") ].

Definition user_c : dict :=
  [ ("id", VInt 2); ("email", VStr "c@example.com") ].

Definition three_users : list dict := [ user_a; user_b; user_c ].

(** The user that [get_user_by_id] returns for the id 1. *)
Definition one_user_response : dict :=
  match AuthService.get_user_by_id (VInt 1) one_user with
  | Ok (Some r) => r
  | _ => []
  end.

(** The dashboard of M in a world. *)
Definition dashboard_doc (w : World) : dict :=
  match dashboard_of w with Ok d => d | Raise _ => [] end.

(** The dashboards of the supplier S1, user 2, in a world. *)
Definition supplier_doc (w : World) : dict :=
  match RoleDashboards._get_supplier_dashboard 2 "S1"
          (batches_file w) (scans_file w) (products_file w) with
  | Ok d => d
  | Raise _ => []
  end.

Definition general_doc (w : World) : dict :=
  match RoleDashboards._get_general_user_dashboard 2 "S1"
          (batches_file w) (scans_file w) (products_file w) with
  | Ok d => d
  | Raise _ => []
  end.

(** A world whose only batch has no scan list. *)
Definition w_bare : World :=
  mkWorld (mkBatches [ [ ("batchId", VStr "B") ] ] 1) (mkScans [] 0) (mkProducts [] [] 0)
          [] demo_env demo_clock 0.

(** A password check that accepts the password "right" only. *)
Definition demo_checkpw (password hashed : string) : result bool :=
  Ok (password =? "right")%string.

(** The users and sessions after the registration of one manufacturer. *)
Definition one_user_files : AuthService.auth_files :=
  AuthService.mkAuthFiles one_user [].

End Cases.

(** * Properties *)

(** Runs the straight-line part of a computation in the world monad. *)
Ltac run_monad :=
  cbv beta iota zeta delta
    [bind ret lift raise utcnow App.handle App.get_env
     DatabaseService.load_batches DatabaseService.load_scans
     DatabaseService.load_products DatabaseService.save_batches
     DatabaseService.save_scans DatabaseService.save_products
     GreenfieldService.upload_file GreenfieldService._upload_mock
     GreenfieldService.write_file GreenfieldService.get_env
     BlockchainService.store_product_hash BlockchainService.get_product_hash];
  cbn [batches_file scans_file products_file uploads env clock ticks fst snd].

(** ** SHA-256 test vectors *)

Example sha256_constants :
  Sha256.K = map Sha256.frac_cbrt Sha256.primes
  /\ List.length Sha256.K = 64%nat
  /\ nth 0 Sha256.K 0 = 0x428a2f98 /\ nth 63 Sha256.K 0 = 0xc67178f2
  /\ Sha256.h0 Sha256.init = Sha256.frac_sqrt 2
  /\ Sha256.h0 Sha256.init = 0x6a09e667 /\ Sha256.h7 Sha256.init = 0x5be0cd19.
Proof. repeat split; vm_compute; reflexivity. Qed.

Example sha256_empty :
  Sha256.hexdigest [] =
  "e3b0c44298fc1c149afbf4c8996fb92427ae41e4649b934ca495991b7852b855".
Proof. vm_compute. reflexivity. Qed.

Example sha256_abc :
  Sha256.hexdigest (encode "abc") =
  "ba7816bf8f01cfea414140de5dae2223b00361a396177a9cb410ff61f20015ad".
Proof. vm_compute. reflexivity. Qed.

Example sha256_hello :
  Sha256.hexdigest (encode "hello") =
  "2cf24dba5fb0a30e26e83b2ac5b9e29e1b161e5c1fa7425e73043362938b9824".
Proof. vm_compute. reflexivity. Qed.

Example sha256_two_blocks :
  Sha256.hexdigest
    (encode "abcdbcdecdefdefgefghfghighijhijkijkljklmklmnlmnomnopnopq") =
  "248d6a61d20638b8e5c026930c3e6039a33ce45964ff2167f6ecedd419db06c1".
Proof. vm_compute. reflexivity. Qed.

(** ** Dictionaries *)

Lemma lookup_setitem_eq (d : dict) (k : string) (v : value) :
  Py.lookup (Py.setitem d k v) k = Some v.
Proof.
  induction d as [|[k' v'] d IH]; simpl.
  - now rewrite String.eqb_refl.
  - destruct (String.eqb k' k) eqn:E; simpl.
    + now rewrite String.eqb_refl.
    + now rewrite E.
Qed.

Lemma lookup_setitem_neq (d : dict) (k k' : string) (v : value) :
  k <> k' -> Py.lookup (Py.setitem d k v) k' = Py.lookup d k'.
Proof.
  intros Hne. induction d as [|[k0 v0] d IH]; simpl.
  - destruct (String.eqb k k') eqn:E; [apply String.eqb_eq in E; contradiction | reflexivity].
  - destruct (String.eqb k0 k) eqn:E; simpl.
    + apply String.eqb_eq in E; subst k0.
      destruct (String.eqb k k') eqn:E'; [apply String.eqb_eq in E'; contradiction | reflexivity].
    + destruct (String.eqb k0 k'); [reflexivity | exact IH].
Qed.

Lemma update_snoc (d items : dict) (k : string) (v : value) :
  Py.update d (items ++ [(k, v)]) = Py.setitem (Py.update d items) k v.
Proof. unfold Py.update. now rewrite fold_left_app. Qed.

(** A key that the later items do not mention keeps the value it had. *)
Lemma lookup_update_other (items d : dict) (k : string) :
  (forall kv, In kv items -> fst kv <> k) ->
  Py.lookup (Py.update d items) k = Py.lookup d k.
Proof.
  revert d. induction items as [|[k0 v0] items IH]; intros d H; [reflexivity|].
  unfold Py.update; simpl. fold (Py.update (Py.setitem d k0 v0) items).
  rewrite IH by (intros kv Hin; apply H; now right).
  apply lookup_setitem_neq. apply (H (k0, v0)). now left.
Qed.

(** ** The ledger client *)

Lemma hex_nonempty (s : Sha256.state) : Sha256.hex s <> "".
Proof. unfold Sha256.hex, Sha256.hex32. discriminate. Qed.

Lemma hexdigest_truthy (data : list byte) :
  Py.truthy (VStr (Sha256.hexdigest data)) = true.
Proof.
  unfold Sha256.hexdigest, Sha256.hex, Sha256.hex32. reflexivity.
Qed.

(** C10. Anchoring is a pure function of its two arguments: in every world
    [store_product_hash] returns "0x" followed by the SHA-256 hex digest of
    the concatenation of the batch id and the content hash, leaves the
    world as it was, and so gives the same reference on any two calls. *)
Theorem store_product_hash_deterministic :
  forall (product_id file_hash : string) (w1 w2 : World),
    BlockchainService.store_product_hash product_id file_hash w1 =
      (Ok ("0x" +++ Sha256.hexdigest (encode (product_id +++ file_hash))), w1)
    /\ fst (BlockchainService.store_product_hash product_id file_hash w1) =
       fst (BlockchainService.store_product_hash product_id file_hash w2).
Proof.
  intros product_id file_hash w1 w2. split; reflexivity.
Qed.

(** The constant text before the id holds no surrogate and ends none. *)
Lemma has_surrogate_mock (product_id : string) :
  Py.has_surrogate ("mock_file_content_" +++ product_id) = Py.has_surrogate product_id.
Proof. destruct product_id as [|c s]; reflexivity. Qed.

Lemma get_product_hash_run (product_id : string) (w : World) :
  BlockchainService.get_product_hash product_id w =
    (Ok (if Py.encodable product_id
         then Some (Sha256.hexdigest (encode ("mock_file_content_" +++ product_id)))
         else None), w).
Proof.
  unfold BlockchainService.get_product_hash, Py.encode, Py.encodable.
  rewrite has_surrogate_mock.
  destruct (Py.has_surrogate product_id); reflexivity.
Qed.

(** C3, as the code has it. The lookup of the ledger client answers from
    the batch id alone and leaves the world unchanged. For every batch id
    that UTF-8 encodes it returns the SHA-256 hex digest of
    "mock_file_content_" followed by the id, in every world; it answers
    "not found" ([None]) for the ids that hold a lone surrogate, and for
    no other. Anchoring a content hash under the id beforehand changes
    nothing in the answer. *)
Theorem get_product_hash_always_mock :
  forall (product_id : string) (w : World),
    BlockchainService.get_product_hash product_id w =
      (Ok (if Py.encodable product_id
           then Some (Sha256.hexdigest (encode ("mock_file_content_" +++ product_id)))
           else None), w)
    /\ (fst (BlockchainService.get_product_hash product_id w) = Ok None
        <-> Py.has_surrogate product_id = true)
    /\ forall (file_hash : string),
         fst (BlockchainService.get_product_hash product_id
                (snd (BlockchainService.store_product_hash product_id file_hash w)))
         = fst (BlockchainService.get_product_hash product_id w).
Proof.
  intros product_id w. split; [apply get_product_hash_run|]. split.
  - rewrite get_product_hash_run. unfold Py.encodable. cbn [fst].
    destruct (Py.has_surrogate product_id); cbn [negb]; split; intros H;
      try reflexivity; discriminate.
  - intros file_hash. now rewrite !get_product_hash_run.
Qed.

(** ** Verification *)

Lemma truthy_opt_some (s : string) :
  s <> "" -> Py.truthy (App.opt (Some s)) = true.
Proof.
  intros H. simpl. destruct (String.eqb s "") eqn:E; [|reflexivity].
  apply String.eqb_eq in E. contradiction.
Qed.

Lemma verify_product_with_url (w w' : World) (product_id url : string) (blob : list byte) :
  product_id <> "" -> Py.encodable product_id = true -> url <> "" ->
  GreenfieldService.download_file url w = (Ok blob, w') ->
  App.verify_product (App.mkVerify (Some product_id) (Some url)) w =
    (verdict product_id (mock_hash product_id) (Sha256.hexdigest blob), w').
Proof.
  intros Hp He Hu Hd.
  unfold App.verify_product, App.handle, bind; cbn [App.v_productId App.v_greenfieldUrl].
  rewrite (truthy_opt_some _ Hp); cbn [negb].
  rewrite get_product_hash_run, He.
  change (Py.truthy (App.opt (Some (Sha256.hexdigest ?x))))
    with (Py.truthy (VStr (Sha256.hexdigest x))).
  rewrite hexdigest_truthy; cbn [negb].
  rewrite (truthy_opt_some _ Hu).
  rewrite Hd. reflexivity.
Qed.

Lemma verify_product_without_url (w : World) (product_id : string) (url : option string) :
  product_id <> "" -> Py.encodable product_id = true -> url = None \/ url = Some "" ->
  App.verify_product (App.mkVerify (Some product_id) url) w =
    (verdict product_id (mock_hash product_id) (mock_hash product_id), w).
Proof.
  intros Hp He Hu.
  unfold App.verify_product, App.handle, bind; cbn [App.v_productId App.v_greenfieldUrl].
  rewrite (truthy_opt_some _ Hp); cbn [negb].
  rewrite get_product_hash_run, He.
  change (Py.truthy (App.opt (Some (Sha256.hexdigest ?x))))
    with (Py.truthy (VStr (Sha256.hexdigest x))).
  rewrite hexdigest_truthy; cbn [negb].
  destruct Hu as [-> | ->]; reflexivity.
Qed.


Lemma lookup_update (items d : dict) (k : string) :
  Py.lookup (Py.update d items) k =
    match Py.last_binding items k with
    | Some v => Some v
    | None => Py.lookup d k
    end.
Proof.
  revert d. induction items as [|[k0 v0] items IH]; intros d; [reflexivity|].
  unfold Py.update; simpl. fold (Py.update (Py.setitem d k0 v0) items).
  rewrite IH. destruct (Py.last_binding items k); [reflexivity|].
  destruct (String.eqb k0 k) eqn:E.
  - apply String.eqb_eq in E; subst. apply lookup_setitem_eq.
  - apply lookup_setitem_neq. intros ->. now rewrite String.eqb_refl in E.
Qed.

(** ** The record store *)

Import DatabaseService.

Lemma batch_record_metadata (batch_id : value) (data : dict) (c a u : datetime) :
  Py.getitem (batch_record batch_id data c a u) "metadata" =
    Ok (VDict (batch_metadata data u)).
Proof. unfold Py.getitem, batch_record. now rewrite lookup_update. Qed.

Lemma batch_record_batchId (batch_id : value) (data : dict) (c a u : datetime) :
  Py.lookup (batch_record batch_id data c a u) "batchId" = Some batch_id.
Proof. unfold batch_record. now rewrite lookup_update. Qed.

Lemma batch_record_scans (batch_id : value) (data : dict) (c a u : datetime) :
  Py.lookup (batch_record batch_id data c a u) "scans" = Some (VList []).
Proof. unfold batch_record. now rewrite lookup_update. Qed.

(** [store_batch] never fails: it reads the clock four times, appends the
    new batch to [batches.json] and a product row to [products.json]. *)
Lemma store_batch_run (batch_id : value) (data : dict) (w : World) :
  store_batch batch_id data w =
    (Ok (batch_record batch_id data (clock w (ticks w)) (clock w (S (ticks w)))
                      (clock w (S (S (ticks w))))),
     mkWorld
       (mkBatches
          (batches (batches_file w) ++
           [batch_record batch_id data (clock w (ticks w)) (clock w (S (ticks w)))
                         (clock w (S (S (ticks w))))])
          (lastBatchId (batches_file w) + 1))
       (scans_file w)
       (mkProducts
          (products (products_file w) ++
           [product_row batch_id data (clock w (S (S (S (ticks w)))))
                        (VDict (batch_metadata data (clock w (S (S (ticks w))))))])
          (metadata (products_file w))
          (lastProductId (products_file w) + 1))
       (uploads w) (env w) (clock w) (S (S (S (S (ticks w)))))).
Proof.
  unfold store_batch, bind, load_batches, load_products, utcnow, save_batches,
    save_products, lift, ret.
  cbn [batches_file scans_file products_file uploads env clock ticks].
  now rewrite batch_record_metadata.
Qed.

Lemma find_batch_app (bs l : list dict) (id : value) (b : dict) :
  find_batch bs id = Ok (Some b) -> find_batch (bs ++ l) id = Ok (Some b).
Proof.
  induction bs as [|b0 bs IH]; simpl; [discriminate|].
  destruct (Py.getitem b0 "batchId") as [v|e]; [|discriminate].
  destruct (Py.eq v id); [trivial | exact IH].
Qed.

Lemma find_batch_found (bs : list dict) (id : value) (b : dict) :
  find_batch bs id = Ok (Some b) ->
  In b bs /\ exists v, Py.lookup b "batchId" = Some v /\ Py.eq v id = true.
Proof.
  induction bs as [|b0 bs IH]; simpl; [discriminate|].
  unfold Py.getitem. destruct (Py.lookup b0 "batchId") as [v|] eqn:L; [|discriminate].
  destruct (Py.eq v id) eqn:E.
  - intros H; injection H as <-. split; [now left | now exists v].
  - intros H. destruct (IH H) as [Hin Hv]. split; [now right | exact Hv].
Qed.

Lemma found_batch_truthy (bs : list dict) (id : value) (b : dict) :
  find_batch bs id = Ok (Some b) -> Py.truthy (VDict b) = true.
Proof.
  intros H. destruct (find_batch_found _ _ _ H) as [_ [v [L _]]].
  destruct b; [discriminate | reflexivity].
Qed.

(** Writing back a batch with the same ["batchId"] puts it where
    [get_batch] will find it. *)
Lemma replace_found (bs : list dict) (id : value) (b b' : dict) :
  find_batch bs id = Ok (Some b) ->
  Py.lookup b' "batchId" = Py.lookup b "batchId" ->
  exists bs', replace_batch bs id b' = Ok bs'
              /\ find_batch bs' id = Ok (Some b')
              /\ List.length bs' = List.length bs.
Proof.
  intros Hf Hk. induction bs as [|b0 bs IH]; simpl in *; [discriminate|].
  unfold Py.getitem in *.
  destruct (Py.lookup b0 "batchId") as [v|] eqn:L; [|discriminate].
  destruct (Py.eq v id) eqn:E.
  - injection Hf as <-. exists (b' :: bs). repeat split.
    simpl. unfold Py.getitem. now rewrite Hk, L, E.
  - destruct (IH Hf) as [bs' [Hr [Hf' Hl]]]. exists (b0 :: bs').
    rewrite Hr. repeat split.
    + simpl. unfold Py.getitem. now rewrite L, E.
    + simpl. now rewrite Hl.
Qed.

Lemma scanned_batch_batchId (batch : dict) (l : list value) (r : dict) (a : datetime) :
  Py.lookup (scanned_batch batch l r a) "batchId" = Py.lookup batch "batchId".
Proof.
  unfold scanned_batch.
  rewrite !lookup_setitem_neq by discriminate. reflexivity.
Qed.

Lemma scanned_batch_scans (batch : dict) (l : list value) (r : dict) (a : datetime) :
  Py.lookup (scanned_batch batch l r a) "scans" = Some (VList (l ++ [VDict r])).
Proof.
  unfold scanned_batch.
  rewrite lookup_setitem_neq by discriminate. apply lookup_setitem_eq.
Qed.

(** [record_scan] on a batch that exists and holds a list of scans: the
    record it returns and the world it leaves. *)
Lemma record_scan_run (w : World) (id : value) (sd : dict) (batch : dict) (l : list value) :
  find_batch (batches (batches_file w)) id = Ok (Some batch) ->
  Py.lookup batch "scans" = Some (VList l) ->
  exists bs',
    replace_batch (batches (batches_file w)) id
      (scanned_batch batch l
         (scan_record_of id sd (lastScanId (scans_file w)) (clock w (ticks w)))
         (clock w (S (ticks w)))) = Ok bs'
    /\ record_scan id sd w =
       (Ok (Some (scan_record_of id sd (lastScanId (scans_file w)) (clock w (ticks w)))),
        mkWorld (mkBatches bs' (lastBatchId (batches_file w)))
                (mkScans (scans (scans_file w) ++
                          [scan_record_of id sd (lastScanId (scans_file w))
                                          (clock w (ticks w))])
                         (lastScanId (scans_file w) + 1))
                (products_file w) (uploads w) (env w) (clock w) (S (S (ticks w)))).
Proof.
  intros Hf Hs.
  destruct (replace_found _ _ _
              (scanned_batch batch l
                 (scan_record_of id sd (lastScanId (scans_file w)) (clock w (ticks w)))
                 (clock w (S (ticks w))))
              Hf (scanned_batch_batchId _ _ _ _)) as [bs' [Hr _]].
  exists bs'. split; [exact Hr|].
  unfold record_scan, get_batch, bind, load_batches, load_scans, utcnow, save_batches,
    save_scans, lift, ret.
  cbn [batches_file scans_file products_file uploads env clock ticks].
  rewrite Hf, (found_batch_truthy _ _ _ Hf). cbn [negb].
  unfold append_scan, Py.getitem. rewrite Hs.
  fold (scanned_batch batch l
          (scan_record_of id sd (lastScanId (scans_file w)) (clock w (ticks w)))
          (clock w (S (ticks w)))).
  now rewrite Hr.
Qed.

(** A successful [record_scan] found the batch, with a list of scans. *)
Lemma record_scan_success (w w' : World) (id : value) (sd r : dict) :
  record_scan id sd w = (Ok (Some r), w') ->
  exists batch l,
    find_batch (batches (batches_file w)) id = Ok (Some batch)
    /\ Py.lookup batch "scans" = Some (VList l).
Proof.
  unfold record_scan, get_batch, bind, load_batches, load_scans, utcnow, lift, ret.
  cbn [batches_file scans_file products_file uploads env clock ticks].
  destruct (find_batch (batches (batches_file w)) id) as [[batch|]|e] eqn:Hf;
    [|discriminate|discriminate].
  rewrite (found_batch_truthy _ _ _ Hf). cbn [negb].
  unfold append_scan, Py.getitem.
  destruct (Py.lookup batch "scans") as [[| | | |l|]|] eqn:Hs; try discriminate.
  intros _. now exists batch, l.
Qed.

Lemma get_batch_run (id : value) (w : World) :
  get_batch id w = (find_batch (batches (batches_file w)) id, w).
Proof. reflexivity. Qed.

Lemma listScansByBatch_found (id : value) (w : World) (batch : dict) (l : list value) :
  find_batch (batches (batches_file w)) id = Ok (Some batch) ->
  Py.lookup batch "scans" = Some (VList l) ->
  listScansByBatch id w = Some l.
Proof.
  intros Hf Hs. unfold listScansByBatch. rewrite get_batch_run. cbn [fst].
  now rewrite Hf, Hs.
Qed.

(** C6. The scan log of a batch is append-only: after a successful
    [record_scan] the scan list of the batch is the list it was before
    followed by the new record, so it is longer by exactly one and every
    earlier entry is where it was, unchanged; the same holds of
    [scans.json]. *)
Theorem record_scan_appends_one :
  forall (w w' : World) (batch_id : value) (scan_data r : dict),
    record_scan batch_id scan_data w = (Ok (Some r), w') ->
    exists old : list value,
      listScansByBatch batch_id w = Some old
      /\ listScansByBatch batch_id w' = Some (old ++ [VDict r])
      /\ List.length (old ++ [VDict r]) = S (List.length old)
      /\ (forall i, (i < List.length old)%nat ->
                    nth_error (old ++ [VDict r]) i = nth_error old i)
      /\ scans (scans_file w') = scans (scans_file w) ++ [r].
Proof.
  intros w w' id sd r H.
  destruct (record_scan_success _ _ _ _ _ H) as [batch [l [Hf Hs]]].
  destruct (record_scan_run w id sd batch l Hf Hs) as [bs' [Hr Hrun]].
  rewrite Hrun in H. injection H as Hrec Hw.
  exists l. split; [now apply listScansByBatch_found with batch|].
  split.
  - destruct (replace_found _ _ _ _ Hf (scanned_batch_batchId batch l r (clock w (S (ticks w)))))
      as [bs'' [Hr' [Hf' _]]].
    rewrite Hrec in Hr. rewrite Hr in Hr'. injection Hr' as <-.
    apply listScansByBatch_found with (scanned_batch batch l r (clock w (S (ticks w)))).
    + now rewrite <- Hw.
    + apply scanned_batch_scans.
  - split; [rewrite length_app; simpl; lia|].
    split; [intros i Hi; now apply nth_error_app1|].
    now rewrite <- Hw, Hrec.
Qed.

Lemma scan_record_timestamp (id : value) (sd : dict) (n : Z) (stamp : datetime) :
  Py.lookup (scan_record_of id sd n stamp) "timestamp" = Some (VStr (isoformat stamp)).
Proof. unfold scan_record_of. now rewrite lookup_update. Qed.

(** C7. The timestamp of the event that a successful [record_scan] creates
    is the reading of the server clock taken by that call, whatever the
    scan context holds: a ["timestamp"] supplied by the client is
    overwritten and changes nothing in the event's timestamp. *)
Theorem record_scan_server_timestamp :
  forall (w w' : World) (batch_id : value) (scan_data r : dict),
    record_scan batch_id scan_data w = (Ok (Some r), w') ->
    Py.lookup r "timestamp" = Some (VStr (isoformat (clock w (ticks w))))
    /\ forall (client : value) (r' : dict) (w'' : World),
         record_scan batch_id (Py.setitem scan_data "timestamp" client) w = (Ok (Some r'), w'') ->
         Py.lookup r' "timestamp" = Py.lookup r "timestamp".
Proof.
  assert (Hstamp : forall w w' id sd r,
             record_scan id sd w = (Ok (Some r), w') ->
             Py.lookup r "timestamp" = Some (VStr (isoformat (clock w (ticks w))))).
  { intros w w' id sd r H.
    destruct (record_scan_success _ _ _ _ _ H) as [batch [l [Hf Hs]]].
    destruct (record_scan_run w id sd batch l Hf Hs) as [bs' [_ Hrun]].
    rewrite Hrun in H. injection H as <- _. apply scan_record_timestamp. }
  intros w w' id sd r H. split; [now apply Hstamp with w' id sd|].
  intros client r' w'' H'.
  rewrite (Hstamp _ _ _ _ _ H), (Hstamp _ _ _ _ _ H'). reflexivity.
Qed.

(** C2, as the code has it. [store_batch] has no duplicate check: called
    with a batch id that already resolves to a batch it does not fail, it
    appends a second batch and a second product row under the same id, and
    the batch that [get_batch] resolves the id to is the earlier one,
    unchanged. *)
Theorem store_batch_accepts_duplicate :
  forall (w : World) (batch_id : value) (data existing : dict),
    fst (get_batch batch_id w) = Ok (Some existing) ->
    exists (batch row : dict) (w' : World),
      store_batch batch_id data w = (Ok batch, w')
      /\ batches (batches_file w') = batches (batches_file w) ++ [batch]
      /\ Py.lookup batch "batchId" = Some batch_id
      /\ products (products_file w') = products (products_file w) ++ [row]
      /\ Py.lookup row "productId" = Some batch_id
      /\ fst (get_batch batch_id w') = Ok (Some existing).
Proof.
  intros w id data existing H. rewrite get_batch_run in H. cbn [fst] in H.
  eexists _, _, _. split; [apply store_batch_run|].
  cbn [batches_file products_file batches products].
  split; [reflexivity|]. split; [apply batch_record_batchId|].
  split; [reflexivity|]. split.
  - unfold product_row, Py.display. now rewrite lookup_update.
  - rewrite get_batch_run. cbn [fst batches_file batches].
    now apply find_batch_app.
Qed.

(** ** The scan recorder *)

(** The two refusals of [scan_product]. *)
Lemma scan_product_empty_supplier
    (json_loads : string -> option value) (req : App.scan_request) (w : World) :
  App.s_supplierName req = None \/ App.s_supplierName req = Some "" ->
  App.scan_product json_loads req w =
    (Response 400 (Py.display [ ("success", VBool false);
                                ("error", VStr "QR data and supplier name are required") ]),
     w).
Proof.
  intros H. unfold App.scan_product, App.handle.
  assert (E : Py.truthy (App.opt (App.s_supplierName req)) = false)
    by (destruct H as [-> | ->]; reflexivity).
  rewrite E. cbn [negb]. rewrite orb_true_r. reflexivity.
Qed.

Lemma scan_product_missing_batch
    (json_loads : string -> option value) (req : App.scan_request) (w : World)
    (supplier : string) (parsed batch_id : value) :
  Py.truthy (App.s_qrData req) = true ->
  App.s_supplierName req = Some supplier -> supplier <> "" ->
  App.parse_qr json_loads (App.s_qrData req) = Some parsed ->
  App.qr_product_id parsed = Ok batch_id ->
  fst (get_batch batch_id w) = Ok None ->
  App.scan_product json_loads req w =
    (Response 404 (Py.display [ ("success", VBool false);
                                ("error", VStr "Batch not found") ]),
     w).
Proof.
  intros Hq Hs Hne Hp Hid Hb. rewrite get_batch_run in Hb. cbn [fst] in Hb.
  unfold App.scan_product, App.handle.
  rewrite Hq, Hs, (truthy_opt_some _ Hne). cbn [negb orb].
  rewrite Hp. unfold bind at 1. unfold lift at 1. rewrite Hid.
  unfold bind at 1. rewrite get_batch_run, Hb. reflexivity.
Qed.

(** C8. A scan that cannot be recorded leaves no trace. When the batch id
    resolves to no batch, [record_scan] returns [None] and [scan_product]
    answers 404 "Batch not found"; when the supplier name is missing or
    empty, [scan_product] answers 400. In each case the world (batches,
    scan log, products, uploads and clock) is exactly what it was, so no
    scan event was created. *)
Theorem scan_refused_leaves_state_unchanged :
  forall (json_loads : string -> option value) (req : App.scan_request) (w : World)
         (batch_id : value) (scan_data : dict),
    (fst (get_batch batch_id w) = Ok None ->
       record_scan batch_id scan_data w = (Ok None, w)
       /\ forall (supplier : string) (parsed : value),
            Py.truthy (App.s_qrData req) = true ->
            App.s_supplierName req = Some supplier -> supplier <> "" ->
            App.parse_qr json_loads (App.s_qrData req) = Some parsed ->
            App.qr_product_id parsed = Ok batch_id ->
            status_of (fst (App.scan_product json_loads req w)) = 404
            /\ body_field (fst (App.scan_product json_loads req w)) "error"
               = Some (VStr "Batch not found")
            /\ snd (App.scan_product json_loads req w) = w)
    /\ (App.s_supplierName req = None \/ App.s_supplierName req = Some "" ->
          status_of (fst (App.scan_product json_loads req w)) = 400
          /\ body_field (fst (App.scan_product json_loads req w)) "success"
             = Some (VBool false)
          /\ snd (App.scan_product json_loads req w) = w).
Proof.
  intros json_loads req w id sd. split.
  - intros Hb. split.
    + rewrite get_batch_run in Hb. cbn [fst] in Hb.
      unfold record_scan, bind. rewrite get_batch_run, Hb. reflexivity.
    + intros supplier parsed Hq Hs Hne Hp Hid.
      rewrite (scan_product_missing_batch json_loads req w supplier parsed id
                 Hq Hs Hne Hp Hid Hb).
      repeat split.
  - intros H. rewrite (scan_product_empty_supplier json_loads req w H).
    repeat split.
Qed.

(** ** Search *)

Lemma prefix_iff (a s : string) :
  prefix a s = true <-> exists post, s = a +++ post.
Proof.
  revert s. induction a as [|c a IH]; intros s.
  - split; [intros _; now exists s | intros _; now destruct s].
  - destruct s as [|d s]; simpl.
    + split; [discriminate | intros [post H]; discriminate].
    + destruct (ascii_dec c d) as [->|Hne].
      * rewrite IH. split; intros [post H]; exists post; [now subst | now injection H].
      * split; [discriminate|]. intros [post H]. injection H as H1 H2. congruence.
Qed.

Lemma contains_nil (sub : string) :
  Py.contains sub "" = prefix sub "" || false.
Proof. reflexivity. Qed.

Lemma contains_cons (sub : string) (c : ascii) (s : string) :
  Py.contains sub (String c s) = prefix sub (String c s) || Py.contains sub s.
Proof. reflexivity. Qed.

(** [Py.contains] decides the substring relation. *)
Lemma contains_iff (sub s : string) :
  Py.contains sub s = true <-> exists pre post, s = pre +++ sub +++ post.
Proof.
  induction s as [|c s IH].
  - rewrite contains_nil, orb_true_iff, prefix_iff. split.
    + intros [[post H] | H]; [|discriminate]. now exists "", post.
    + intros [[|d pre] [post H]]; [|discriminate]. left. now exists post.
  - rewrite contains_cons, orb_true_iff, prefix_iff, IH. split.
    + intros [[post H] | [pre [post H]]]; [now exists "", post|].
      exists (String c pre), post. simpl. now rewrite H.
    + intros [[|d pre] [post H]]; [left; now exists post|].
      right. injection H as _ H. now exists pre, post.
Qed.

Import Search.




(** *** Lower case and the case of letters *)







Lemma same_ignoring_case_nil (q : string) :
  same_ignoring_case q "" = true -> q = "".
Proof. destruct q; [reflexivity | discriminate]. Qed.

Lemma ci_prefix_iff (q : string) :
  forall s : string,
    ci_prefix q s = true <->
    exists part post, s = part +++ post /\ same_ignoring_case q part = true.
Proof.
  induction q as [|c q IH]; intros s.
  - split; [intros _; now exists "", s | reflexivity].
  - destruct s as [|d s]; cbn [ci_prefix].
    + split; [discriminate|]. intros [[|e part] [post [H1 H2]]]; discriminate.
    + rewrite andb_true_iff, IH. split.
      * intros [H [part [post [-> H2]]]]. exists (String d part), post.
        split; [reflexivity|]. cbn [same_ignoring_case]. now rewrite H, H2.
      * intros [[|e part] [post [H1 H2]]]; [discriminate|].
        cbn [same_ignoring_case] in H2. apply andb_true_iff in H2.
        destruct H2 as [H2 H3]. injection H1 as -> ->.
        split; [exact H2 | now exists part, post].
Qed.

(** [ci_substring] decides what its name says: a part of [s] reads as
    [q] once the case of the letters is ignored. *)
Lemma ci_substring_iff (q s : string) :
  ci_substring q s = true <->
  exists pre part post,
    s = pre +++ part +++ post /\ same_ignoring_case q part = true.
Proof.
  induction s as [|d s IH]; cbn [ci_substring]; rewrite orb_true_iff, ci_prefix_iff.
  - split.
    + intros [[part [post [H1 H2]]] | H]; [|discriminate]. now exists "", part, post.
    + intros [[|e pre] [part [post [H1 H2]]]]; [|discriminate].
      left. now exists part, post.
  - rewrite IH. split.
    + intros [[part [post [H1 H2]]] | [pre [part [post [H1 H2]]]]].
      * now exists "", part, post.
      * exists (String d pre), part, post. split; [|exact H2]. simpl. now rewrite H1.
    + intros [[|e pre] [part [post [H1 H2]]]].
      * left. now exists part, post.
      * right. injection H1 as _ H1. now exists pre, part, post.
Qed.

(** A substring is a case-insensitive substring. *)
Lemma same_letter_refl (c : ascii) : same_letter c c = true.
Proof. unfold same_letter. now rewrite Ascii.eqb_refl. Qed.

Lemma same_ignoring_case_refl (s : string) : same_ignoring_case s s = true.
Proof.
  induction s as [|c s IH]; [reflexivity|].
  cbn [same_ignoring_case]. now rewrite same_letter_refl, IH.
Qed.

Lemma contains_ci_substring (q s : string) :
  Py.contains q s = true -> ci_substring q s = true.
Proof.
  rewrite contains_iff, ci_substring_iff. intros [pre [post H]].
  exists pre, q, post. split; [exact H | apply same_ignoring_case_refl].
Qed.






(** ** Registration *)

Lemma or_opt_nonempty (o : option string) (d : string) :
  d <> "" -> exists s, Py.or_ (App.opt o) (VStr d) = VStr s /\ s <> "".
Proof.
  intros Hd. unfold Py.or_. destruct o as [x|]; simpl.
  - destruct (String.eqb x "") eqn:E; simpl.
    + now exists d.
    + exists x. split; [reflexivity|]. intros ->. discriminate.
  - now exists d.
Qed.

Lemma product_row_registered (req : App.upload_request) (file : App.uploaded_file)
    (pid hash url tx : string) (e : Env) (uid email meta : value) (t t' : datetime) :
  pid <> "" ->
  registered_product
    (product_row (VStr pid) (App.batch_data_of req file pid hash url tx e uid email t) t' meta).
Proof.
  intros Hp k Hk. unfold product_row, App.batch_data_of, Py.get. unfold Py.display.
  destruct (or_opt_nonempty (App.u_batchName req) pid Hp) as [s1 [E1 N1]].
  destruct (or_opt_nonempty (App.u_manufacturerName req) "Unknown Manufacturer")
    as [s2 [E2 N2]]; [discriminate|].
  destruct (or_opt_nonempty (App.u_productType req) "Unknown") as [s3 [E3 N3]];
    [discriminate|].
  simpl in Hk. destruct Hk as [<- | [<- | [<- | [<- | []]]]];
    rewrite lookup_update; cbn [Py.last_binding String.eqb Ascii.eqb Bool.eqb];
    rewrite ?lookup_update; cbn [Py.last_binding String.eqb Ascii.eqb Bool.eqb].
  - now exists pid.
  - rewrite E1. now exists s1.
  - rewrite E2. now exists s2.
  - rewrite E3. now exists s3.
Qed.

(** What a successful registration leaves: a non-empty batch id, the
    SHA-256 of the artifact as content hash, one more batch under that id
    and one more product row, of the registered shape. *)
Lemma upload_file_success (req : App.upload_request) (w w' : World) (reg : App.registration) :
  App.upload_file req w = (Ok (inr reg), w') ->
  App.r_batchId reg <> ""
  /\ App.u_productId req = Some (App.r_batchId reg)
  /\ (exists file, App.u_file req = Some file
                   /\ App.r_fileHash reg = Sha256.hexdigest (App.content file))
  /\ (exists batch, batches (batches_file w') = batches (batches_file w) ++ [batch]
                    /\ Py.lookup batch "batchId" = Some (VStr (App.r_batchId reg)))
  /\ (exists row, products (products_file w') = products (products_file w) ++ [row]
                  /\ registered_product row).
Proof.
  unfold App.upload_file.
  destruct (App.u_user req) as [user|]; [|discriminate].
  destruct (App.u_file req) as [file|]; [|discriminate].
  destruct (String.eqb (App.filename file) ""); [discriminate|].
  destruct (App.u_productId req) as [pid|]; [|discriminate].
  destruct (String.eqb_spec pid "") as [->|Hpid]; [discriminate|].
  rewrite (truthy_opt_some _ Hpid). cbn [negb].
  run_monad.
  destruct (Py.getitem user "id") as [uid|]; [|discriminate].
  destruct (Py.getitem user "email") as [email|]; [|discriminate].
  run_monad. rewrite store_batch_run. run_monad.
  intros H. injection H as <- <-.
  cbn [App.r_batchId App.r_fileHash batches_file products_file batches products].
  split; [exact Hpid|]. split; [reflexivity|].
  split; [now exists file|].
  split; [eexists; split; [reflexivity | apply batch_record_batchId]|].
  eexists; split; [reflexivity|]. now apply product_row_registered.
Qed.

(** ** Verification against the ledger *)

Import Scenario.

Lemma verdict_fields (p s c : string) :
  status_of (verdict p s c) = 200
  /\ body_field (verdict p s c) "isVerified" = Some (VBool (s =? c)%string)
  /\ body_field (verdict p s c) "storedHash" = Some (VStr s)
  /\ body_field (verdict p s c) "currentHash" = Some (VStr c)
  /\ body_field (verdict p s c) "verifiedAgainstSource" = None.
Proof.
  unfold verdict, body_field, status_of, Py.display.
  rewrite !lookup_update. repeat split.
Qed.

(** C1, as the code has it. After a successful registration of any
    artifact under a batch id that UTF-8 encodes (as every id read from
    the form of a registration is), [verify_product] with that id and a
    blob URI
    answers with the mock hash of the ledger client as [storedHash], which
    depends on the id alone, and the SHA-256 of the fetched blob as
    [currentHash]: [isVerified] is true exactly when these two digests are
    equal, whatever artifact was registered, and when it is false the two
    hashes reported are distinct. *)
Theorem verify_compares_with_mock_hash :
  forall (req : App.upload_request) (reg : App.registration) (w w1 w2 : World)
         (url : string) (blob : list byte),
    App.upload_file req w = (Ok (inr reg), w1) ->
    Py.encodable (App.r_batchId reg) = true ->
    url <> "" ->
    GreenfieldService.download_file url w1 = (Ok blob, w2) ->
    let answer :=
      fst (App.verify_product (App.mkVerify (Some (App.r_batchId reg)) (Some url)) w1) in
    status_of answer = 200
    /\ body_field answer "storedHash" = Some (VStr (mock_hash (App.r_batchId reg)))
    /\ body_field answer "currentHash" = Some (VStr (Sha256.hexdigest blob))
    /\ (body_field answer "isVerified" = Some (VBool true) <->
        Sha256.hexdigest blob = mock_hash (App.r_batchId reg))
    /\ (body_field answer "isVerified" = Some (VBool false) <->
        Sha256.hexdigest blob <> mock_hash (App.r_batchId reg))
    /\ (body_field answer "isVerified" = Some (VBool false) ->
        body_field answer "storedHash" <> body_field answer "currentHash").
Proof.
  intros req reg w w1 w2 url blob Hreg Henc Hurl Hget answer.
  destruct (upload_file_success _ _ _ _ Hreg) as [Hid _].
  subst answer. rewrite (verify_product_with_url w1 w2 _ url blob Hid Henc Hurl Hget).
  cbn [fst].
  destruct (verdict_fields (App.r_batchId reg) (mock_hash (App.r_batchId reg))
              (Sha256.hexdigest blob)) as [Hs [Hv [Hst [Hcu _]]]].
  rewrite Hs, Hv, Hst, Hcu.
  destruct (String.eqb_spec (mock_hash (App.r_batchId reg)) (Sha256.hexdigest blob))
    as [E|E].
  - repeat split; try (intros; congruence).
  - repeat split; try (intros; congruence).
Qed.

(** C5, as the code has it. For a batch id whose lookup yields a hash
    (one that UTF-8 encodes) and with the blob URI absent (or empty),
    [verify_product] reports the ledger hash as both [storedHash] and
    [currentHash] with [isVerified] true, and carries no
    [verifiedAgainstSource] field: the response is the very response of a
    re-hash of a blob whose digest equals the ledger hash, so nothing in it
    tells the two paths apart. *)
Theorem verify_without_blob_is_unlabelled :
  forall (w : World) (product_id : string) (url : option string),
    product_id <> "" -> Py.encodable product_id = true ->
    url = None \/ url = Some "" ->
    let answer := fst (App.verify_product (App.mkVerify (Some product_id) url) w) in
    status_of answer = 200
    /\ body_field answer "storedHash" = Some (VStr (mock_hash product_id))
    /\ body_field answer "currentHash" = body_field answer "storedHash"
    /\ body_field answer "isVerified" = Some (VBool true)
    /\ body_field answer "verifiedAgainstSource" = None
    /\ forall (w1 w2 : World) (u : string) (blob : list byte),
         u <> "" ->
         GreenfieldService.download_file u w1 = (Ok blob, w2) ->
         Sha256.hexdigest blob = mock_hash product_id ->
         fst (App.verify_product (App.mkVerify (Some product_id) (Some u)) w1) = answer.
Proof.
  intros w pid url Hp He Hu answer. subst answer.
  rewrite (verify_product_without_url w pid url Hp He Hu). cbn [fst].
  destruct (verdict_fields pid (mock_hash pid) (mock_hash pid)) as [Hs [Hv [Hst [Hcu Hl]]]].
  rewrite Hs, Hv, Hst, Hcu, Hl, String.eqb_refl.
  repeat split.
  intros w1 w2 u blob Hne Hget Hsame.
  rewrite (verify_product_with_url w1 w2 pid u blob Hp He Hne Hget). cbn [fst].
  now rewrite Hsame.
Qed.

(** ** The scenario of the specification: "LOT-001" and [b"hello"] *)

(** A run is the pair of its result and of the world it leaves. *)
Lemma run_eq {A : Type} (m : M A) (w : World) (r : result A) :
  fst (m w) = r -> m w = (r, after m w).
Proof. unfold after. destruct (m w); simpl. congruence. Qed.

Lemma download_file_world (url : string) (w : World) :
  snd (GreenfieldService.download_file url w) = w.
Proof.
  unfold GreenfieldService.download_file, GreenfieldService._download_mock, ret.
  destruct (Py.startswith url "gnfd://"); [|reflexivity].
  destruct (GreenfieldService.fs_lookup _ _) as [[data|doc]|]; reflexivity.
Qed.

Lemma download_file_eq (url : string) (w : World) (r : result (list byte)) :
  fst (GreenfieldService.download_file url w) = r ->
  GreenfieldService.download_file url w = (r, w).
Proof.
  intros H. rewrite <- (download_file_world url w) at 2. rewrite <- H.
  now destruct (GreenfieldService.download_file url w).
Qed.

(** [verify_product] only reads. *)
Lemma verify_product_world (req : App.verify_request) (w : World) :
  snd (App.verify_product req w) = w.
Proof.
  unfold App.verify_product, App.handle, bind.
  destruct (negb (Py.truthy (App.opt (App.v_productId req)))); [reflexivity|].
  rewrite get_product_hash_run.
  destruct (negb (Py.truthy (App.opt _))); [reflexivity|].
  destruct (Py.truthy (App.opt (App.v_greenfieldUrl req))); [|reflexivity].
  pose proof (download_file_world
                match App.v_greenfieldUrl req with Some s => s | None => "" end w) as Hw.
  destruct (GreenfieldService.download_file _ w) as [[data|e] w1];
    cbn [snd] in Hw; subst w1; reflexivity.
Qed.

Example lot001_is_registered :
  App.upload_file (upload "LOT-001" "hello") w0 = (Ok (inr lot001_registration), w_lot001).
Proof. unfold w_lot001. apply run_eq. vm_compute. reflexivity. Qed.

(** C1 fails on the code. "LOT-001" is registered with the artifact
    [b"hello"]; the blob fetched from the URI of the registration is
    [b"hello"], bit for bit, and [verify_product] answers
    [isVerified = false]. Once the stored object is replaced by the bytes
    "mock_file_content_LOT-001", which differ from the artifact, it
    answers [isVerified = true]. *)
Lemma roundtrip_rejects_identical_blob :
  fst (App.upload_file (upload "LOT-001" "hello") w0) = Ok (inr lot001_registration)
  /\ fst (GreenfieldService.download_file lot001_url w_lot001) = Ok (encode "hello")
  /\ body_field
       (fst (App.verify_product (App.mkVerify (Some "LOT-001") (Some lot001_url)) w_lot001))
       "isVerified" = Some (VBool false)
  /\ fst (GreenfieldService.download_file lot001_url w_lot001_swapped)
     = Ok (encode "mock_file_content_LOT-001")
  /\ encode "mock_file_content_LOT-001" <> encode "hello"
  /\ body_field
       (fst (App.verify_product (App.mkVerify (Some "LOT-001") (Some lot001_url))
                                w_lot001_swapped))
       "isVerified" = Some (VBool true).
Proof.
  repeat split; try (vm_compute; reflexivity). discriminate.
Qed.

(** The registration of "LOT-001" with [b"hello"], verified with its own blob. *)
Lemma verify_compares_with_mock_hash_witness :
  App.upload_file (upload "LOT-001" "hello") w0 = (Ok (inr lot001_registration), w_lot001)
  /\ Py.encodable (App.r_batchId lot001_registration) = true
  /\ lot001_url <> ""
  /\ GreenfieldService.download_file lot001_url w_lot001 = (Ok (encode "hello"), w_lot001)
  /\ body_field
       (fst (App.verify_product
               (App.mkVerify (Some (App.r_batchId lot001_registration)) (Some lot001_url))
               w_lot001))
       "currentHash"
     = Some (VStr (Sha256.hexdigest (encode "hello"))).
Proof.
  assert (H1 : App.upload_file (upload "LOT-001" "hello") w0
               = (Ok (inr lot001_registration), w_lot001))
    by (unfold w_lot001; apply run_eq; vm_compute; reflexivity).
  assert (H2 : lot001_url <> "") by discriminate.
  assert (H3 : GreenfieldService.download_file lot001_url w_lot001
               = (Ok (encode "hello"), w_lot001))
    by (apply download_file_eq; vm_compute; reflexivity).
  split; [exact H1|]. split; [reflexivity|]. split; [exact H2|]. split; [exact H3|].
  exact (proj1 (proj2 (proj2
           (verify_compares_with_mock_hash _ _ _ _ _ _ _ H1 eq_refl H2 H3)))).
Defined.

(** C3 fails on the code. Nothing was ever anchored in the initial world,
    and the lookup of "LOT-404" answers a hash. *)
Lemma lookup_of_unknown_batch_fabricates_hash :
  fst (BlockchainService.get_product_hash "LOT-404" w0)
  = Ok (Some "76c9239c2b42b25b1f5b7a7ef197a515fe40aca30ef9b8fed9983e59730bb17c")
  /\ fst (BlockchainService.get_product_hash "LOT-404" w0) <> Ok None.
Proof.
  split; [vm_compute; reflexivity | vm_compute; discriminate].
Qed.

(** The lookup of an id that holds a lone surrogate. *)
Example lookup_of_lone_surrogate :
  Py.encode ("mock_file_content_" +++ lone_surrogate) = Raise UnicodeEncodeError
  /\ fst (BlockchainService.get_product_hash lone_surrogate w0) = Ok None
  /\ status_of (fst (App.verify_product (App.mkVerify (Some lone_surrogate) None) w0)) = 200
  /\ body_field (fst (App.verify_product (App.mkVerify (Some lone_surrogate) None) w0))
                "error" = Some (VStr "Product not found on blockchain").
Proof. repeat split; vm_compute; reflexivity. Qed.

(** C5 fails on the code. The answer to a verify request without blob URI
    has no [verifiedAgainstSource] field, hence none that is false. *)
Lemma weak_verification_is_not_labelled :
  body_field (fst (App.verify_product (App.mkVerify (Some "LOT-001") None) w_lot001))
             "isVerified" = Some (VBool true)
  /\ body_field (fst (App.verify_product (App.mkVerify (Some "LOT-001") None) w_lot001))
                "verifiedAgainstSource" <> Some (VBool false).
Proof.
  split; [vm_compute; reflexivity | vm_compute; discriminate].
Qed.

(** "LOT-001" verified without a blob URI. *)
Lemma verify_without_blob_is_unlabelled_witness :
  "LOT-001" <> ""
  /\ Py.encodable "LOT-001" = true
  /\ body_field (fst (App.verify_product (App.mkVerify (Some "LOT-001") None) w_lot001))
                "verifiedAgainstSource" = None.
Proof.
  assert (H1 : "LOT-001" <> "") by discriminate.
  split; [exact H1|]. split; [reflexivity|].
  exact (proj1 (proj2 (proj2 (proj2 (proj2
           (verify_without_blob_is_unlabelled w_lot001 "LOT-001" None H1 eq_refl
              (or_introl eq_refl))))))).
Defined.

(** C2 fails on the code. "LOT-001" resolves to a batch; a second
    registration under "LOT-001" runs to the end, and [store_batch] with
    that id returns; afterwards [batches.json] holds two batches and is no
    longer what it was. *)
Lemma duplicate_registration_is_accepted :
  is_ok (fst (get_batch (VStr "LOT-001") w_lot001)) = true
  /\ fst (get_batch (VStr "LOT-001") w_lot001) <> Ok None
  /\ registered (fst (App.upload_file (upload "LOT-001" "hello!") w_lot001)) = true
  /\ is_ok (fst (store_batch (VStr "LOT-001") [] w_lot001)) = true
  /\ List.length (batches (batches_file w_lot001)) = 1%nat
  /\ List.length (batches (batches_file w_lot001_twice)) = 2%nat
  /\ batches_file w_lot001_twice <> batches_file w_lot001.
Proof.
  repeat split; try (vm_compute; reflexivity); vm_compute; discriminate.
Qed.

(** A second [store_batch] under "LOT-001". *)
Lemma store_batch_accepts_duplicate_witness :
  fst (get_batch (VStr "LOT-001") w_lot001)
  = Ok (Some (nth 0 (batches (batches_file w_lot001)) []))
  /\ exists (batch row : dict) (w' : World),
       store_batch (VStr "LOT-001") [] w_lot001 = (Ok batch, w')
       /\ batches (batches_file w') = batches (batches_file w_lot001) ++ [batch]
       /\ Py.lookup batch "batchId" = Some (VStr "LOT-001")
       /\ products (products_file w') = products (products_file w_lot001) ++ [row]
       /\ Py.lookup row "productId" = Some (VStr "LOT-001")
       /\ fst (get_batch (VStr "LOT-001") w')
          = Ok (Some (nth 0 (batches (batches_file w_lot001)) [])).
Proof.
  assert (H : fst (get_batch (VStr "LOT-001") w_lot001)
              = Ok (Some (nth 0 (batches (batches_file w_lot001)) [])))
    by (vm_compute; reflexivity).
  split; [exact H|].
  exact (store_batch_accepts_duplicate w_lot001 (VStr "LOT-001") [] _ H).
Defined.

(** ** Scans against "LOT-001" *)

Example first_scan_is_recorded :
  record_scan (VStr "LOT-001") scan_data_s1 w_lot001 = (Ok (Some first_scan), w_lot001_scanned).
Proof. unfold w_lot001_scanned. apply run_eq. vm_compute. reflexivity. Qed.

(** The first scan of "LOT-001". *)
Lemma record_scan_appends_one_witness :
  record_scan (VStr "LOT-001") scan_data_s1 w_lot001 = (Ok (Some first_scan), w_lot001_scanned)
  /\ exists old : list value,
       listScansByBatch (VStr "LOT-001") w_lot001 = Some old
       /\ listScansByBatch (VStr "LOT-001") w_lot001_scanned = Some (old ++ [VDict first_scan])
       /\ List.length (old ++ [VDict first_scan]) = S (List.length old)
       /\ (forall i, (i < List.length old)%nat ->
                     nth_error (old ++ [VDict first_scan]) i = nth_error old i)
       /\ scans (scans_file w_lot001_scanned) = scans (scans_file w_lot001) ++ [first_scan].
Proof.
  assert (H : record_scan (VStr "LOT-001") scan_data_s1 w_lot001
              = (Ok (Some first_scan), w_lot001_scanned))
    by (unfold w_lot001_scanned; apply run_eq; vm_compute; reflexivity).
  split; [exact H|].
  exact (record_scan_appends_one _ _ _ _ _ H).
Defined.

(** The first scan of "LOT-001" carried a timestamp of 1999; the event has
    the reading of the clock. *)
Lemma record_scan_server_timestamp_witness :
  record_scan (VStr "LOT-001") scan_data_s1 w_lot001 = (Ok (Some first_scan), w_lot001_scanned)
  /\ Py.lookup scan_data_s1 "timestamp" = Some (VStr "1999-01-01T00:00:00")
  /\ Py.lookup first_scan "timestamp" = Some (VStr (isoformat (clock w_lot001 (ticks w_lot001)))).
Proof.
  assert (H : record_scan (VStr "LOT-001") scan_data_s1 w_lot001
              = (Ok (Some first_scan), w_lot001_scanned))
    by (unfold w_lot001_scanned; apply run_eq; vm_compute; reflexivity).
  split; [exact H|]. split; [reflexivity|].
  exact (proj1 (record_scan_server_timestamp _ _ _ _ _ H)).
Defined.

Example first_scan_timestamp :
  Py.lookup first_scan "timestamp" = Some (VStr "2025-07-19T12:00:07").
Proof. vm_compute. reflexivity. Qed.

(** ** The manufacturer dashboard *)

Import Dashboard.

Lemma ltb_false_leb (s t : string) : String.ltb s t = false -> String.leb t s = true.
Proof.
  unfold String.ltb, String.leb. rewrite (String.compare_antisym s t).
  destruct (String.compare t s); simpl; congruence.
Qed.

Lemma ltb_true_leb (s t : string) : String.ltb s t = true -> String.leb s t = true.
Proof.
  unfold String.ltb, String.leb. destruct (String.compare s t); congruence.
Qed.

Lemma insert_desc_hd (x y : dict) (l : list dict) :
  newer_or_equal y x -> HdRel newer_or_equal y l -> HdRel newer_or_equal y (insert_desc x l).
Proof.
  intros Hyx Hl. destruct l as [|z l]; simpl.
  - now constructor.
  - destruct (String.ltb (key_of x) (key_of z)); constructor;
      [now inversion Hl | exact Hyx].
Qed.

Lemma insert_desc_sorted (x : dict) (l : list dict) :
  Sorted newer_or_equal l -> Sorted newer_or_equal (insert_desc x l).
Proof.
  induction l as [|y l IH]; intros Hs; simpl.
  - repeat constructor.
  - inversion Hs as [|? ? Hl Hhd]; subst.
    destruct (String.ltb (key_of x) (key_of y)) eqn:E.
    + constructor; [now apply IH|].
      apply insert_desc_hd; [|exact Hhd]. now apply ltb_true_leb.
    + constructor; [exact Hs|]. constructor. now apply ltb_false_leb.
Qed.

(** The sort puts the scans newest first. *)
Lemma sort_desc_sorted (l : list dict) : Sorted newer_or_equal (sort_desc l).
Proof.
  induction l as [|x l IH]; simpl; [constructor | now apply insert_desc_sorted].
Qed.

Lemma insert_desc_perm (x : dict) (l : list dict) : Permutation (insert_desc x l) (x :: l).
Proof.
  induction l as [|y l IH]; simpl; [reflexivity|].
  destruct (String.ltb (key_of x) (key_of y)); [|reflexivity].
  rewrite IH. apply perm_swap.
Qed.

(** The sort keeps every scan, as often as it was there. *)
Lemma sort_desc_perm (l : list dict) : Permutation (sort_desc l) l.
Proof.
  induction l as [|x l IH]; simpl; [reflexivity|].
  rewrite insert_desc_perm. now constructor.
Qed.

Lemma ltb_irrefl (s : string) : String.ltb s s = false.
Proof.
  unfold String.ltb. pose proof (String.compare_antisym s s) as H.
  destruct (String.compare s s); try reflexivity. discriminate.
Qed.

(** The sort is stable: the scans of one timestamp keep their order. *)
Lemma sort_desc_stable (k : string) (l : list dict) :
  filter (fun y => String.eqb (key_of y) k) (sort_desc l)
  = filter (fun y => String.eqb (key_of y) k) l.
Proof.
  induction l as [|x l IH]; simpl; [reflexivity|].
  rewrite <- IH. generalize (sort_desc l). clear IH l. intros l.
  induction l as [|y l IH]; simpl; [reflexivity|].
  destruct (String.ltb (key_of x) (key_of y)) eqn:E; simpl; [|reflexivity].
  rewrite IH.
  destruct (String.eqb_spec (key_of x) k) as [Hx|Hx];
    destruct (String.eqb_spec (key_of y) k) as [Hy|Hy]; try reflexivity.
  rewrite Hx, Hy, ltb_irrefl in E. discriminate.
Qed.

(** Whenever the dashboard is produced, its [allScans] are ordered newest
    first and [recentScans] are the first ten of them. *)
Lemma dashboard_scans_sorted (user_id : Z) (user_name : string)
    (b : batches_doc) (s : scans_doc) (p : products_doc) (d : dict) :
  _get_manufacturer_dashboard user_id user_name b s p = Ok d ->
  exists sorted : list dict,
    Py.lookup d "allScans" = Some (VList (map VDict sorted))
    /\ Py.lookup d "recentScans" = Some (VList (map VDict (firstn 10 sorted)))
    /\ Sorted newer_or_equal sorted.
Proof.
  unfold _get_manufacturer_dashboard, bindr.
  destruct (own_batches _ _ _) as [a1|]; [|discriminate].
  destruct (own_products _ _ _) as [a2|]; [|discriminate].
  destruct (file_scans _ _ _ _) as [a3|]; [|discriminate].
  destruct (sort_newest_first _) as [sorted|] eqn:Hs; [|discriminate].
  intros H. injection H as <-. exists sorted.
  split; [reflexivity|]. split; [reflexivity|].
  unfold sort_newest_first in Hs.
  destruct (recent_scans a3) as [|x [|y l]].
  - injection Hs as <-. constructor.
  - injection Hs as <-. repeat constructor.
  - destruct (forallb _ _); [|discriminate]. injection Hs as <-.
    apply (sort_desc_sorted (x :: y :: l)).
Qed.

Lemma count_scan_total (scan entry : dict) (a a' : acc) :
  count_scan scan entry a = Ok a' ->
  total_scans a' = total_scans a + 1
  /\ manufacturer_batch_ids a' = manufacturer_batch_ids a
  /\ manufacturer_batches a' = manufacturer_batches a.
Proof.
  unfold count_scan, bindr.
  destruct (if Py.truthy (Py.get scan "supplierName") then _ else _) as [s|];
    [|discriminate].
  intros H. injection H as <-. repeat split.
Qed.

Lemma legacy_scans_total (batch : dict) (l : list value) (a a' : acc) :
  legacy_scans batch l a = Ok a' ->
  total_scans a' = total_scans a + Z.of_nat (List.length l)
  /\ manufacturer_batch_ids a' = manufacturer_batch_ids a
  /\ manufacturer_batches a' = manufacturer_batches a.
Proof.
  revert a. induction l as [|v l IH]; intros a; simpl.
  - intros H. injection H as <-. repeat split. lia.
  - destruct v as [| | | | |scan]; try discriminate.
    unfold bindr. destruct (Py.getitem batch "batchId") as [id|]; [|discriminate].
    destruct (count_scan _ _ a) as [a1|] eqn:Hc; [|discriminate].
    intros H. destruct (count_scan_total _ _ _ _ Hc) as [Ht [Hi Hb]].
    destruct (IH _ H) as [Ht' [Hi' Hb']].
    rewrite Ht', Hi', Hb', Ht, Hi, Hb. repeat split. lia.
Qed.

Lemma own_batches_total (user_id : Z) (bs : list dict) (a a' : acc) :
  own_batches user_id bs a = Ok a' ->
  total_scans a' = total_scans a + nested_scan_count user_id bs.
Proof.
  revert a. induction bs as [|batch bs IH]; intros a; simpl.
  - intros H. injection H as <-. lia.
  - destruct (Py.str_eq_int (Py.get batch "userId") user_id).
    + unfold bindr.
      destruct (Py.set_add _ _) as [ids|]; [|discriminate].
      destruct (iterate _) as [l|]; [|discriminate].
      destruct (legacy_scans batch l _) as [a1|] eqn:Hl; [|discriminate].
      intros H. destruct (legacy_scans_total _ _ _ _ Hl) as [Ht _].
      rewrite (IH _ H), Ht. simpl. lia.
    + intros H. rewrite (IH _ H). lia.
Qed.

Lemma own_products_total (user_id : Z) (ps : list dict) (a a' : acc) :
  own_products user_id ps a = Ok a' -> total_scans a' = total_scans a.
Proof.
  revert a. induction ps as [|p ps IH]; intros a; simpl.
  - intros H. now injection H as <-.
  - destruct (Py.str_eq_int (Py.get p "userId") user_id); [|apply IH].
    unfold bindr. destruct (Py.set_add _ _) as [ids|]; [|discriminate].
    intros H. now rewrite (IH _ H).
Qed.

Lemma file_scans_total (user_name : string) (ps ss : list dict) (a a' : acc) :
  file_scans user_name ps ss a = Ok a' ->
  total_scans a' = total_scans a + file_scan_count (manufacturer_batch_ids a) ss.
Proof.
  unfold file_scan_count. revert a. induction ss as [|scan ss IH]; intros a; simpl.
  - intros H. injection H as <-. lia.
  - unfold bindr, in_set.
    destruct (Py.hashable (Py.get scan "batchId")); [|discriminate].
    destruct (Py.set_mem (Py.get scan "batchId") (manufacturer_batch_ids a)).
    + destruct (count_scan _ _ a) as [a1|] eqn:Hc; [|discriminate].
      intros H. destruct (count_scan_total _ _ _ _ Hc) as [Ht [Hi _]].
      rewrite (IH _ H), Ht, Hi. simpl List.length. lia.
    + intros H. rewrite (IH _ H). lia.
Qed.

(** Whenever the dashboard is produced, its [totalScans] is a sum over two
    stores: the scans kept inside the batches of the user, plus the scans
    of [scans.json] made on the batch ids of the user. [record_scan]
    writes every event to both. *)
Lemma dashboard_total_scans (user_id : Z) (user_name : string)
    (b : batches_doc) (s : scans_doc) (p : products_doc) (d : dict) :
  _get_manufacturer_dashboard user_id user_name b s p = Ok d ->
  exists ids : list value,
    Py.lookup d "totalScans"
    = Some (VInt (nested_scan_count user_id (batches b) + file_scan_count ids (scans s))).
Proof.
  unfold _get_manufacturer_dashboard, bindr.
  destruct (own_batches _ _ _) as [a1|] eqn:H1; [|discriminate].
  destruct (own_products _ _ _) as [a2|] eqn:H2; [|discriminate].
  destruct (file_scans _ _ _ _) as [a3|] eqn:H3; [|discriminate].
  destruct (sort_newest_first _) as [sorted|]; [|discriminate].
  intros H. injection H as <-. exists (manufacturer_batch_ids a2).
  rewrite (file_scans_total _ _ _ _ _ H3), (own_products_total _ _ _ _ H2),
    (own_batches_total _ _ _ _ H1).
  reflexivity.
Qed.

(** C4 on the code. M owns B1 and B2; S1, S2 and S1 again scanned B1 and
    S2 scanned B2, four scan events. The dashboard of M reports 8 scans:
    each event is counted once from the scan list inside its batch and
    once from [scans.json], and is listed twice. It reports 2 suppliers,
    and the scans newest first. [get_user_metadata] counts the same events
    once each, 4. *)
Theorem manufacturer_dashboard_counts_scans_twice :
  dashboard_field w_dashboard "totalBatches" = Some (VInt 2)
  /\ List.length (scans (scans_file w_dashboard)) = 4%nat
  /\ dashboard_field w_dashboard "totalScans" = Some (VInt 8)
  /\ nested_scan_count 1 (batches (batches_file w_dashboard)) = 4
  /\ file_scan_count [VStr "B1"; VStr "B2"] (scans (scans_file w_dashboard)) = 4
  /\ dashboard_field w_dashboard "totalSuppliers" = Some (VInt 2)
  /\ dashboard_field w_dashboard "supplierList" = Some (VList [VStr "S1"; VStr "S2"])
  /\ timestamps (dashboard_field w_dashboard "recentScans")
     = [ VStr "2025-07-19T12:00:20"; VStr "2025-07-19T12:00:20";
         VStr "2025-07-19T12:00:18"; VStr "2025-07-19T12:00:18";
         VStr "2025-07-19T12:00:16"; VStr "2025-07-19T12:00:16";
         VStr "2025-07-19T12:00:14"; VStr "2025-07-19T12:00:14" ]
  /\ scan_ids (dashboard_field w_dashboard "recentScans")
     = [ VStr "4"; VStr "4"; VStr "3"; VStr "3"; VStr "2"; VStr "2"; VStr "1"; VStr "1" ]
  /\ user_metadata_total_scans 1 (scans_file w_dashboard) (products_file w_dashboard)
     = Ok 4.
Proof.
  repeat split; vm_compute; reflexivity.
Qed.

(** With three scan events instead of four the dashboard reports 6. *)
Example three_scans_are_counted_six :
  List.length (scans (scans_file w_dashboard3)) = 3%nat
  /\ dashboard_field w_dashboard3 "totalScans" = Some (VInt 6)
  /\ dashboard_field w_dashboard3 "totalSuppliers" = Some (VInt 2).
Proof. repeat split; vm_compute; reflexivity. Qed.

(** ** Refused scans and search, on "LOT-001" *)

(** A scan of the unknown "LOT-999", and a scan of "LOT-001" with an empty
    supplier name. *)
Lemma scan_refused_leaves_state_unchanged_witness :
  fst (get_batch (VStr "LOT-999") w_lot001) = Ok None
  /\ record_scan (VStr "LOT-999") scan_data_s1 w_lot001 = (Ok None, w_lot001)
  /\ status_of (fst (App.scan_product no_json (scan "LOT-999" "S1") w_lot001)) = 404
  /\ snd (App.scan_product no_json (scan "LOT-999" "S1") w_lot001) = w_lot001
  /\ status_of (fst (App.scan_product no_json (scan "LOT-001" "") w_lot001)) = 400
  /\ snd (App.scan_product no_json (scan "LOT-001" "") w_lot001) = w_lot001.
Proof.
  assert (H : fst (get_batch (VStr "LOT-999") w_lot001) = Ok None)
    by (vm_compute; reflexivity).
  destruct (scan_refused_leaves_state_unchanged no_json (scan "LOT-999" "S1") w_lot001
              (VStr "LOT-999") scan_data_s1) as [Hmissing _].
  destruct (Hmissing H) as [Hrecord Hscan].
  destruct (Hscan "S1" (VDict [("productId", VStr "LOT-999")])
              eq_refl eq_refl ltac:(discriminate) eq_refl eq_refl) as [H404 [_ Hw]].
  destruct (scan_refused_leaves_state_unchanged no_json (scan "LOT-001" "") w_lot001
              (VStr "LOT-001") scan_data_s1) as [_ Hempty].
  destruct (Hempty (or_intror eq_refl)) as [H400 [_ Hw']].
  repeat split; assumption.
Defined.





Example search_finds_by_type :
  List.length (filter (fun p => ci_substring "WIDG" (str_field p "productType"))
                      (products (products_file w_lot001))) = 1%nat
  /\ List.length (filter (fun p => ci_substring "WIDG" (str_field p "batchName"))
                         (products (products_file w_lot001))) = 0%nat
  /\ status_of (fst (App.search_products (Some "lot-") None w_lot001)) = 200
  /\ body_field (fst (App.search_products (Some "lot-") None w_lot001)) "total"
     = Some (VInt 1)
  /\ status_of (fst (App.search_products (Some "") None w_lot001)) = 400.
Proof. repeat split; vm_compute; reflexivity. Qed.

(** Registered rows are an invariant of registration: the initial world
    has no product, and every registration adds one product row of the
    registered shape. *)
Lemma registration_keeps_products_registered
    (req : App.upload_request) (w w' : World) (reg : App.registration) :
  App.upload_file req w = (Ok (inr reg), w') ->
  (forall p, In p (products (products_file w)) -> registered_product p) ->
  forall p, In p (products (products_file w')) -> registered_product p.
Proof.
  intros Hup Hall p Hin.
  destruct (upload_file_success _ _ _ _ Hup) as [_ [_ [_ [_ [row [Hrow Hreg]]]]]].
  rewrite Hrow in Hin. apply in_app_or in Hin.
  destruct Hin as [Hin | [<- | []]]; [now apply Hall | exact Hreg].
Qed.

Lemma recorded_scan_keeps_products (id : value) (sd : dict) (w : World) :
  products_file (snd (record_scan id sd w)) = products_file w.
Proof.
  unfold record_scan, get_batch. run_monad.
  destruct (find_batch (batches (batches_file w)) id) as [[batch|]|e]; try reflexivity.
  destruct (negb (Py.truthy (VDict batch))); [reflexivity|].
  run_monad.
  destruct (append_scan batch _) as [batch'|e]; [|reflexivity].
  run_monad.
  destruct (replace_batch _ _ _) as [bs|e]; reflexivity.
Qed.

(** The one case that [searchable] leaves out. *)
Example empty_query_skips_empty_field :
  field_match (Py.lower "") "batchName" [("productId", VStr "P"); ("batchName", VStr "")]
  = Ok false
  /\ ci_substring "" "" = true.
Proof. split; reflexivity. Qed.

(** ** The Python operations, on examples *)

Example py_eq_examples :
  Py.eq (VBool true) (VInt 1) = true
  /\ Py.eq (VStr "1") (VInt 1) = false
  /\ Py.eq VNone VNone = true
  /\ Py.eq (VDict [("a", VInt 1); ("b", VNone)]) (VDict [("b", VNone); ("a", VInt 1)]) = true
  /\ Py.eq (VList [VStr "a"]) (VList [VStr "a"; VStr "b"]) = false.
Proof. repeat split. Qed.

(** [lower()] and the Greek capital sigma: plain at the start of a
    word, final at its end, also before a full stop, plain before a
    letter. *)
Example py_lower_sigma_examples :
  Py.lower Py.capital_sigma = Py.small_sigma
  /\ Py.lower (Py.capital_sigma +++ Py.capital_sigma) = Py.small_sigma +++ Py.final_sigma
  /\ Py.lower ("a." +++ Py.capital_sigma) = "a." +++ Py.final_sigma
  /\ Py.lower ("a " +++ Py.capital_sigma) = "a " +++ Py.small_sigma
  /\ Py.lower ("A" +++ Py.capital_sigma +++ ".") = "a" +++ Py.final_sigma +++ "."
  /\ Py.lower ("A" +++ Py.capital_sigma +++ ".b") = "a" +++ Py.small_sigma +++ ".b"
  /\ Py.lower (Py.final_sigma +++ Py.capital_sigma) = Py.final_sigma +++ Py.final_sigma.
Proof. repeat split. Qed.

Example py_encode_examples :
  Py.encode "LOT-001" = Ok (encode "LOT-001")
  /\ Py.encode lone_surrogate = Raise UnicodeEncodeError
  /\ Py.encode ("a" +++ lone_surrogate +++ "b") = Raise UnicodeEncodeError
  /\ Py.encodable Py.capital_sigma = true
  /\ Py.encodable (String "237" (String "159" (String "191" ""))) = true.
Proof. repeat split. Qed.

Example py_string_examples :
  Py.lower "Lot-001 [AZ]" = "lot-001 [az]"
  /\ Py.contains "ot-0" "lot-001" = true
  /\ Py.contains "" "" = true
  /\ Py.contains "x" "" = false
  /\ Py.split_last "/" "gnfd://bucket/a.txt" = "a.txt"
  /\ Py.split_last "/" "gnfd://bucket/" = ""
  /\ Py.split_last "." "certificate" = "certificate"
  /\ Py.startswith "gnfd://b/f" "gnfd://" = true
  /\ Py.str_int (-12) = "-12"
  /\ Py.str_eq_int (VStr "7") 7 = true
  /\ Py.str_eq_int VNone 7 = false.
Proof. repeat split. Qed.

Example py_dict_examples :
  Py.update [("id", VInt 1); ("timestamp", VStr "old")]
            [("timestamp", VStr "new"); ("location", VStr "x")]
  = [("id", VInt 1); ("timestamp", VStr "new"); ("location", VStr "x")]
  /\ Py.get [("a", VNone)] "b" = VNone
  /\ Py.get_default [("a", VNone)] "a" (VStr "d") = VNone
  /\ Py.getitem [("a", VNone)] "b" = Raise (KeyError "b")
  /\ Py.set_add (VInt 1) [VBool true] = Ok [VBool true]
  /\ Py.set_add (VList []) [] = Raise TypeError.
Proof. repeat split. Qed.

(** * Further properties of the services *)

(** ** The record store *)

Lemma find_batch_app_none (bs l : list dict) (id : value) :
  find_batch bs id = Ok None -> find_batch (bs ++ l) id = find_batch l id.
Proof.
  induction bs as [|b bs IH]; simpl; [reflexivity|].
  destruct (Py.getitem b "batchId") as [v|e]; [|discriminate].
  destruct (Py.eq v id); [discriminate | exact IH].
Qed.

Lemma last_binding_absent (items : dict) (k : string) :
  ~ In k (map fst items) -> Py.last_binding items k = None.
Proof.
  induction items as [|[k0 v0] items IH]; simpl; [reflexivity|].
  intros H. rewrite IH by tauto.
  destruct (String.eqb_spec k0 k); [|reflexivity]. subst. tauto.
Qed.

(** [store_batch] then [get_batch]: a batch stored under a string id that
    resolved to nothing is what [get_batch] resolves the id to afterwards;
    it is active, has no scan, and carries every entry of [data] apart
    from the six keys that [store_batch] sets itself. *)
Theorem store_batch_then_get_batch :
  forall (w : World) (batch_id : string) (data : dict),
    fst (get_batch (VStr batch_id) w) = Ok None ->
    exists (batch : dict) (w' : World),
      store_batch (VStr batch_id) data w = (Ok batch, w')
      /\ fst (get_batch (VStr batch_id) w') = Ok (Some batch)
      /\ Py.lookup batch "batchId" = Some (VStr batch_id)
      /\ Py.lookup batch "status" = Some (VStr "active")
      /\ listScansByBatch (VStr batch_id) w' = Some []
      /\ forall k, ~ In k batch_keys -> Py.lookup batch k = Py.lookup data k.
Proof.
  intros w s data H. rewrite get_batch_run in H. cbn [fst] in H.
  eexists _, _. split; [apply store_batch_run|].
  assert (Hf : find_batch
                 (batches (batches_file w) ++
                  [batch_record (VStr s) data (clock w (ticks w)) (clock w (S (ticks w)))
                                (clock w (S (S (ticks w))))]) (VStr s)
               = Ok (Some (batch_record (VStr s) data (clock w (ticks w))
                                        (clock w (S (ticks w)))
                                        (clock w (S (S (ticks w))))))).
  { rewrite (find_batch_app_none _ _ _ H). simpl. unfold Py.getitem.
    rewrite batch_record_batchId. simpl. now rewrite String.eqb_refl. }
  split; [rewrite get_batch_run; exact Hf|].
  split; [apply batch_record_batchId|].
  split; [unfold batch_record; now rewrite lookup_update|].
  split.
  - apply listScansByBatch_found with (batch_record (VStr s) data (clock w (ticks w))
                                        (clock w (S (ticks w))) (clock w (S (S (ticks w))))).
    + exact Hf.
    + apply batch_record_scans.
  - intros k Hk. unfold batch_record. rewrite lookup_update.
    now rewrite last_binding_absent.
Qed.

Lemma find_batch_app_other (bs : list dict) (b : dict) (id id' : value) :
  Py.lookup b "batchId" = Some id -> Py.eq id id' = false ->
  find_batch (bs ++ [b]) id' = find_batch bs id'.
Proof.
  intros Hb Hne. induction bs as [|b0 bs IH]; simpl.
  - unfold Py.getitem. now rewrite Hb, Hne.
  - destruct (Py.getitem b0 "batchId") as [v|e]; [|reflexivity].
    destruct (Py.eq v id'); [reflexivity|]. now rewrite IH.
Qed.

(** [store_batch] disturbs nothing that was there: the batches and product
    rows already stored keep their places, [scans.json] and the uploads
    are untouched, each of the two counters it owns advances by one, and
    [get_batch] answers as before for every id that the new id does not
    equal, and for every id that resolved to a batch. *)
Theorem store_batch_frame :
  forall (w : World) (batch_id : value) (data : dict),
    let w' := snd (store_batch batch_id data w) in
    firstn (List.length (batches (batches_file w))) (batches (batches_file w'))
      = batches (batches_file w)
    /\ firstn (List.length (products (products_file w))) (products (products_file w'))
       = products (products_file w)
    /\ List.length (batches (batches_file w')) = S (List.length (batches (batches_file w)))
    /\ List.length (products (products_file w')) = S (List.length (products (products_file w)))
    /\ lastBatchId (batches_file w') = lastBatchId (batches_file w) + 1
    /\ lastProductId (products_file w') = lastProductId (products_file w) + 1
    /\ scans_file w' = scans_file w
    /\ uploads w' = uploads w
    /\ (forall id' b, fst (get_batch id' w) = Ok (Some b) ->
                      fst (get_batch id' w') = Ok (Some b))
    /\ (forall id', Py.eq batch_id id' = false ->
                    fst (get_batch id' w') = fst (get_batch id' w)).
Proof.
  intros w id data w'. subst w'. rewrite store_batch_run.
  cbn [snd batches_file scans_file products_file uploads batches products
       lastBatchId lastProductId].
  rewrite !length_app. cbn [List.length].
  rewrite !firstn_app, !Nat.sub_diag, !firstn_all. cbn [firstn]. rewrite !app_nil_r.
  repeat split; try reflexivity; try lia.
  - intros id' b H. rewrite get_batch_run in *. cbn [fst batches_file batches] in *.
    now apply find_batch_app.
  - intros id' Hne. rewrite !get_batch_run. cbn [fst batches_file batches].
    apply find_batch_app_other with id; [apply batch_record_batchId | exact Hne].
Qed.

(** What [record_scan] can do to the files: it returns a record, or it
    leaves the three files as they were. *)
Lemma record_scan_files (id : value) (sd : dict) (w : World) :
  (exists r, fst (record_scan id sd w) = Ok (Some r))
  \/ (batches_file (snd (record_scan id sd w)) = batches_file w
      /\ scans_file (snd (record_scan id sd w)) = scans_file w).
Proof.
  unfold record_scan, get_batch. run_monad.
  destruct (find_batch (batches (batches_file w)) id) as [[batch|]|e];
    try (right; split; reflexivity).
  destruct (negb (Py.truthy (VDict batch))); [right; split; reflexivity|].
  run_monad.
  destruct (append_scan batch _) as [batch'|e]; [|right; split; reflexivity].
  run_monad.
  destruct (replace_batch _ _ _) as [bs|e]; [|right; split; reflexivity].
  left. eexists. reflexivity.
Qed.

Lemma record_scan_uploads (id : value) (sd : dict) (w : World) :
  uploads (snd (record_scan id sd w)) = uploads w
  /\ env (snd (record_scan id sd w)) = env w
  /\ clock (snd (record_scan id sd w)) = clock w.
Proof.
  unfold record_scan, get_batch. run_monad.
  destruct (find_batch (batches (batches_file w)) id) as [[batch|]|e];
    try (repeat split; reflexivity).
  destruct (negb (Py.truthy (VDict batch))); [repeat split; reflexivity|].
  run_monad.
  destruct (append_scan batch _) as [batch'|e]; [|repeat split; reflexivity].
  run_monad.
  destruct (replace_batch _ _ _) as [bs|e]; repeat split; reflexivity.
Qed.

(** The shape of a successful [record_scan], with the batch it found. *)
Lemma record_scan_success_run (w w' : World) (id : value) (sd r : dict) :
  record_scan id sd w = (Ok (Some r), w') ->
  exists batch l bs',
    find_batch (batches (batches_file w)) id = Ok (Some batch)
    /\ Py.lookup batch "scans" = Some (VList l)
    /\ r = scan_record_of id sd (lastScanId (scans_file w)) (clock w (ticks w))
    /\ replace_batch (batches (batches_file w)) id
         (scanned_batch batch l r (clock w (S (ticks w)))) = Ok bs'
    /\ w' = mkWorld (mkBatches bs' (lastBatchId (batches_file w)))
                    (mkScans (scans (scans_file w) ++ [r]) (lastScanId (scans_file w) + 1))
                    (products_file w) (uploads w) (env w) (clock w) (S (S (ticks w))).
Proof.
  intros H. destruct (record_scan_success _ _ _ _ _ H) as [batch [l [Hf Hs]]].
  destruct (record_scan_run w id sd batch l Hf Hs) as [bs' [Hr Hrun]].
  rewrite Hrun in H. injection H as Hrec Hw.
  exists batch, l, bs'. rewrite <- Hrec. now repeat split.
Qed.

Lemma replace_batch_length (bs bs' : list dict) (id : value) (b : dict) :
  replace_batch bs id b = Ok bs' -> List.length bs' = List.length bs.
Proof.
  revert bs'. induction bs as [|b0 bs IH]; intros bs'; simpl.
  - intros H. now injection H as <-.
  - destruct (Py.getitem b0 "batchId") as [v|e]; [|discriminate].
    destruct (Py.eq v id).
    + intros H. now injection H as <-.
    + destruct (replace_batch bs id b) as [r|e]; [|discriminate].
      intros H. injection H as <-. simpl. now rewrite (IH r).
Qed.

(** What the registration steps can do to the files of the record store:
    they run to the end, or they leave the three files as they were. *)
Lemma upload_file_files (req : App.upload_request) (w : World) :
  (exists reg, fst (App.upload_file req w) = Ok (inr reg))
  \/ (batches_file (snd (App.upload_file req w)) = batches_file w
      /\ products_file (snd (App.upload_file req w)) = products_file w
      /\ scans_file (snd (App.upload_file req w)) = scans_file w).
Proof.
  unfold App.upload_file.
  destruct (App.u_user req) as [user|]; [|right; repeat split].
  destruct (App.u_file req) as [file|]; [|right; repeat split].
  destruct (String.eqb (App.filename file) ""); [right; repeat split|].
  destruct (negb (Py.truthy (App.opt (App.u_productId req)))); [right; repeat split|].
  run_monad.
  destruct (Py.getitem user "id") as [uid|]; [|right; repeat split].
  destruct (Py.getitem user "email") as [email|]; [|right; repeat split].
  run_monad. rewrite store_batch_run. run_monad.
  left. eexists. reflexivity.
Qed.

(** The world that [scan_product] leaves: the one it found, or the one
    that [record_scan] leaves when given the batch id of the QR payload and
    the scan data of the request. *)
Lemma scan_product_world (json_loads : string -> option value)
    (req : App.scan_request) (w : World) :
  snd (App.scan_product json_loads req w) = w
  \/ exists (id : value),
       fst (get_batch id w) <> Ok None
       /\ snd (App.scan_product json_loads req w)
          = snd (record_scan id (scan_data_of req) w).
Proof.
  unfold App.scan_product.
  destruct (negb (Py.truthy (App.s_qrData req))
            || negb (Py.truthy (App.opt (App.s_supplierName req))));
    [left; reflexivity|].
  destruct (App.parse_qr json_loads (App.s_qrData req)) as [parsed|]; [|left; reflexivity].
  run_monad.
  destruct (App.qr_product_id parsed) as [id|e]; [|left; reflexivity].
  unfold get_batch. run_monad.
  destruct (find_batch (batches (batches_file w)) id) as [[batch|]|e] eqn:Hf;
    try (left; reflexivity).
  destruct (negb (Py.truthy (VDict batch))); [left; reflexivity|].
  right. exists id. split; [rewrite Hf; discriminate|].
  fold (scan_data_of req).
  destruct (record_scan id (scan_data_of req) w) as [[[r|]|e] w1];
    [|reflexivity|reflexivity].
  run_monad.
  destruct (Py.getitem r "id"); [|reflexivity].
  destruct (Py.getitem r "timestamp"); [|reflexivity].
  destruct (Py.getitem r "supplierName"); reflexivity.
Qed.

Lemma initial_world_consistent (e : Env) (clk : nat -> datetime) :
  counters_consistent (initial_world e clk).
Proof. repeat split. Qed.

Lemma record_scan_consistent (id : value) (sd : dict) (w : World) :
  counters_consistent w -> counters_consistent (snd (record_scan id sd w)).
Proof.
  intros [Hb [Hs Hp]]. unfold counters_consistent.
  rewrite recorded_scan_keeps_products.
  destruct (record_scan_files id sd w) as [[r Hr] | [Eb Es]].
  - destruct (record_scan id sd w) as [res w'] eqn:Hrun. cbn [fst snd] in *. subst res.
    destruct (record_scan_success_run _ _ _ _ _ Hrun)
      as [batch [l [bs' [_ [_ [_ [Hrep ->]]]]]]].
    cbn [batches_file scans_file batches scans lastBatchId lastScanId].
    rewrite (replace_batch_length _ _ _ _ Hrep), length_app. cbn [List.length].
    repeat split; [exact Hb | lia | exact Hp].
  - rewrite Eb, Es. now repeat split.
Qed.

(** The counters of the three files count their lists, in every world that
    the services reach: [store_batch], [record_scan], the registration
    steps and the scan handler each keep that, whatever they are given
    and whether they succeed, refuse or raise. *)
Theorem counters_stay_consistent :
  forall (w : World),
    counters_consistent w ->
    (forall id data, counters_consistent (snd (store_batch id data w)))
    /\ (forall id sd, counters_consistent (snd (record_scan id sd w)))
    /\ (forall req, counters_consistent (snd (App.upload_file req w)))
    /\ (forall json_loads req, counters_consistent (snd (App.scan_product json_loads req w)))
    /\ (forall req, counters_consistent (snd (App.verify_product req w))).
Proof.
  intros w H. assert (H' := H). destruct H' as [Hb [Hs Hp]].
  split; [|split; [|split; [|split]]].
  - intros id data. rewrite store_batch_run. unfold counters_consistent.
    cbn [snd batches_file scans_file products_file batches products
         lastBatchId lastProductId].
    rewrite !length_app. cbn [List.length]. repeat split; [lia | exact Hs | lia].
  - intros id sd. now apply record_scan_consistent.
  - intros req. destruct (upload_file_files req w) as [[reg Hr] | [Eb [Ep Es]]].
    + destruct (App.upload_file req w) as [res w'] eqn:Hrun. cbn [fst snd] in *. subst res.
      destruct (upload_file_success _ _ _ _ Hrun)
        as [_ [_ [_ [[batch [Hbs _]] [row [Hps _]]]]]].
      unfold counters_consistent. rewrite Hbs, Hps, !length_app. cbn [List.length].
      assert (Hcnt : lastBatchId (batches_file w') = lastBatchId (batches_file w) + 1
                     /\ lastProductId (products_file w') = lastProductId (products_file w) + 1
                     /\ scans_file w' = scans_file w).
      { clear - Hrun. unfold App.upload_file in Hrun.
        destruct (App.u_user req) as [user|]; [|discriminate].
        destruct (App.u_file req) as [file|]; [|discriminate].
        destruct (String.eqb (App.filename file) ""); [discriminate|].
        destruct (negb (Py.truthy (App.opt (App.u_productId req)))); [discriminate|].
        revert Hrun. run_monad.
        destruct (Py.getitem user "id") as [uid|]; [|discriminate].
        destruct (Py.getitem user "email") as [email|]; [|discriminate].
        run_monad. rewrite store_batch_run. run_monad.
        intros H. injection H as _ <-. repeat split. }
      destruct Hcnt as [E1 [E2 E3]]. rewrite E1, E2, E3.
      repeat split; [lia | exact Hs | lia].
    + unfold counters_consistent. rewrite Eb, Ep, Es. exact H.
  - intros jl req. destruct (scan_product_world jl req w) as [-> | [id [_ ->]]];
      [exact H | now apply record_scan_consistent].
  - intros req. now rewrite verify_product_world.
Qed.

Lemma replace_batch_other (bs bs' : list dict) (id id' v : value) (b b' : dict) :
  find_batch bs id = Ok (Some b) ->
  Py.lookup b "batchId" = Some v -> Py.lookup b' "batchId" = Some v ->
  Py.eq v id' = false ->
  replace_batch bs id b' = Ok bs' ->
  find_batch bs' id' = find_batch bs id'.
Proof.
  intros Hf Hb Hb' Hne. revert bs'. induction bs as [|b0 bs IH]; intros bs'; simpl in *;
    [discriminate|].
  unfold Py.getitem in *.
  destruct (Py.lookup b0 "batchId") as [v0|] eqn:L; [|discriminate].
  destruct (Py.eq v0 id) eqn:E.
  - injection Hf as <-. rewrite L in Hb. injection Hb as ->.
    intros H. injection H as <-. simpl. unfold Py.getitem. now rewrite Hb', Hne.
  - destruct (replace_batch bs id b') as [r|e]; [|discriminate].
    intros H. injection H as <-. simpl. unfold Py.getitem. rewrite L.
    destruct (Py.eq v0 id'); [reflexivity|]. now apply IH.
Qed.

(** A successful [record_scan] touches one batch and nothing else: the
    number of batches, their counter, the product rows and the uploads
    stay, the scan counter advances by one, and for every id that the id
    of the scanned batch does not equal, [get_batch] and the scan list
    answer as before. *)
Theorem record_scan_frame :
  forall (w w' : World) (batch_id : value) (scan_data r : dict),
    record_scan batch_id scan_data w = (Ok (Some r), w') ->
    List.length (batches (batches_file w')) = List.length (batches (batches_file w))
    /\ lastBatchId (batches_file w') = lastBatchId (batches_file w)
    /\ lastScanId (scans_file w') = lastScanId (scans_file w) + 1
    /\ products_file w' = products_file w
    /\ uploads w' = uploads w
    /\ forall (batch : dict) (v id' : value),
         fst (get_batch batch_id w) = Ok (Some batch) ->
         Py.lookup batch "batchId" = Some v ->
         Py.eq v id' = false ->
         fst (get_batch id' w') = fst (get_batch id' w)
         /\ listScansByBatch id' w' = listScansByBatch id' w.
Proof.
  intros w w' id sd r H.
  destruct (record_scan_success_run _ _ _ _ _ H)
    as [batch [l [bs' [Hf [Hs [Hr [Hrep ->]]]]]]].
  cbn [batches_file scans_file products_file uploads batches scans lastBatchId lastScanId].
  split; [now apply replace_batch_length with id (scanned_batch batch l r (clock w (S (ticks w))))|].
  do 4 (split; [reflexivity|]).
  intros batch0 v id' Hg Hv Hne. rewrite get_batch_run in Hg. cbn [fst] in Hg.
  rewrite Hf in Hg. injection Hg as <-.
  assert (E : find_batch bs' id' = find_batch (batches (batches_file w)) id').
  { apply replace_batch_other with id v batch (scanned_batch batch l r (clock w (S (ticks w))));
      try assumption.
    now rewrite scanned_batch_batchId. }
  unfold listScansByBatch. rewrite !get_batch_run. cbn [fst batches_file batches].
  now rewrite E.
Qed.

Lemma last_binding_nodup (d : dict) (k : string) :
  NoDup (map fst d) -> Py.last_binding d k = Py.lookup d k.
Proof.
  induction d as [|[k0 v0] d IH]; simpl; [reflexivity|].
  intros H. inversion H as [|? ? Hn Hd]; subst.
  rewrite (IH Hd). destruct (String.eqb_spec k0 k) as [->|Hne].
  - destruct (Py.lookup d k) as [x|] eqn:L; [|reflexivity].
    exfalso. apply Hn. clear - L. induction d as [|[k1 v1] d IH]; simpl in *; [discriminate|].
    destruct (String.eqb_spec k1 k); [now left | right; now apply IH].
  - destruct (Py.lookup d k); reflexivity.
Qed.

(** What the event of a successful [record_scan] holds. Every entry of the
    scan data is in the event, apart from ["timestamp"] and ["location"];
    so an ["id"] or a ["batchId"] in the scan data replaces the number
    that the store assigns and the id of the batch that was scanned. The
    location is that of the scan data, "Unknown" when it has none. *)
Theorem record_scan_event_fields :
  forall (w w' : World) (batch_id : value) (scan_data r : dict),
    NoDup (map fst scan_data) ->
    record_scan batch_id scan_data w = (Ok (Some r), w') ->
    Py.lookup r "id"
      = Some (Py.get_default scan_data "id"
                (VStr (Py.str_int (lastScanId (scans_file w) + 1))))
    /\ Py.lookup r "batchId" = Some (Py.get_default scan_data "batchId" batch_id)
    /\ Py.lookup r "location"
       = Some (Py.get_default scan_data "location" (VStr "Unknown"))
    /\ forall (k : string) (v : value),
         k <> "timestamp" -> k <> "location" ->
         Py.lookup scan_data k = Some v -> Py.lookup r k = Some v.
Proof.
  intros w w' id sd r Hnd H.
  destruct (record_scan_success_run _ _ _ _ _ H) as [_ [_ [_ [_ [_ [-> _]]]]]].
  unfold scan_record_of, Py.display, Py.get_default.
  repeat split.
  - rewrite !lookup_update, (last_binding_nodup sd "id" Hnd). simpl.
    now destruct (Py.lookup sd "id").
  - rewrite !lookup_update, (last_binding_nodup sd "batchId" Hnd). simpl.
    now destruct (Py.lookup sd "batchId").
  - now rewrite lookup_update.
  - intros k v Hk1 Hk2 L. rewrite lookup_update.
    assert (E : Py.last_binding
                  [("timestamp", VStr (isoformat (clock w (ticks w))));
                   ("location",
                    match Py.lookup sd "location" with
                    | Some v0 => v0
                    | None => VStr "Unknown"
                    end)] k = None).
    { cbn [Py.last_binding].
      destruct (String.eqb_spec "location" k); [congruence|].
      destruct (String.eqb_spec "timestamp" k); [congruence | reflexivity]. }
    rewrite E, lookup_update, (last_binding_nodup sd k Hnd), L. reflexivity.
Qed.

(** ** The scan handler *)

Lemma scan_record_lookup (id : value) (sd : dict) (n : Z) (stamp : datetime) (k : string) :
  NoDup (map fst sd) -> k <> "timestamp" -> k <> "location" ->
  Py.lookup (scan_record_of id sd n stamp) k
  = match Py.lookup sd k with
    | Some v => Some v
    | None => Py.lookup (Py.display [ ("id", VStr (Py.str_int (n + 1))); ("batchId", id) ]) k
    end.
Proof.
  intros Hnd H1 H2. unfold scan_record_of. rewrite lookup_update.
  cbn [Py.last_binding].
  destruct (String.eqb_spec "location" k); [congruence|].
  destruct (String.eqb_spec "timestamp" k); [congruence|].
  now rewrite lookup_update, (last_binding_nodup sd k Hnd).
Qed.

Lemma scan_data_of_nodup (req : App.scan_request) : NoDup (map fst (scan_data_of req)).
Proof.
  unfold scan_data_of, Py.display, Py.update. cbn.
  repeat constructor; simpl; intuition discriminate.
Qed.

Lemma scan_event_fields (req : App.scan_request) (id : value) (w : World) (supplier : string) :
  App.s_supplierName req = Some supplier ->
  Py.lookup (scan_event req id w) "id"
  = Some (VStr (Py.str_int (lastScanId (scans_file w) + 1)))
  /\ Py.lookup (scan_event req id w) "timestamp" = Some (VStr (isoformat (clock w (ticks w))))
  /\ Py.lookup (scan_event req id w) "batchId" = Some id
  /\ Py.lookup (scan_event req id w) "supplierName" = Some (VStr supplier)
  /\ Py.lookup (scan_event req id w) "scanType" = Some (VStr "QR_SCAN").
Proof.
  intros Hs. unfold scan_event.
  split; [|split; [apply scan_record_timestamp|split; [|split]]];
    rewrite scan_record_lookup by (try apply scan_data_of_nodup; discriminate);
    unfold scan_data_of, Py.display; rewrite !lookup_update;
    cbn [Py.last_binding String.eqb Ascii.eqb Bool.eqb]; rewrite ?Hs; reflexivity.
Qed.

(** The run of [scan_product] on a request that goes through. *)
Lemma scan_product_run (json_loads : string -> option value) (req : App.scan_request)
    (w : World) (supplier : string) (parsed batch_id : value) (batch : dict)
    (l : list value) :
  Py.truthy (App.s_qrData req) = true ->
  App.s_supplierName req = Some supplier -> supplier <> "" ->
  App.parse_qr json_loads (App.s_qrData req) = Some parsed ->
  App.qr_product_id parsed = Ok batch_id ->
  find_batch (batches (batches_file w)) batch_id = Ok (Some batch) ->
  Py.lookup batch "scans" = Some (VList l) ->
  App.scan_product json_loads req w
  = (Response 200
       (Py.display
          [ ("success", VBool true);
            ("batchInfo",
             VDict (Py.display
                      [ ("batchId", batch_id);
                        ("batchName", Py.get batch "batchName");
                        ("manufacturerName", Py.get batch "manufacturerName");
                        ("productType", Py.get batch "productType");
                        ("description", Py.get batch "description");
                        ("documentUrl", Py.get batch "documentUrl");
                        ("createdAt", Py.get batch "createdAt");
                        ("contractAddress", Py.get batch "contractAddress");
                        ("txHash", Py.get batch "txHash") ]));
            ("scanRecord",
             VDict (Py.display
                      [ ("scanId", VStr (Py.str_int (lastScanId (scans_file w) + 1)));
                        ("timestamp", VStr (isoformat (clock w (ticks w))));
                        ("supplierName", VStr supplier) ]));
            ("message",
             VStr ("Welcome " +++ supplier +++ "! Scan recorded successfully.")) ]),
     snd (record_scan batch_id (scan_data_of req) w)).
Proof.
  intros Hq Hs Hne Hp Hid Hb Hl.
  destruct (record_scan_run w batch_id (scan_data_of req) batch l Hb Hl) as [bs' [Hrep Hrun]].
  destruct (scan_event_fields req batch_id w supplier Hs) as [Lid [Lts [_ [Lsn _]]]].
  unfold scan_event in *.
  assert (Hc : negb (Py.truthy (App.s_qrData req))
               || negb (Py.truthy (App.opt (App.s_supplierName req))) = false)
    by (rewrite Hq, Hs, (truthy_opt_some _ Hne); reflexivity).
  unfold App.scan_product. rewrite Hc, Hp.
  run_monad. rewrite Hid. unfold get_batch. run_monad. rewrite Hb.
  rewrite (found_batch_truthy _ _ _ Hb). cbn [negb].
  fold (scan_data_of req). rewrite Hrun. run_monad.
  unfold Py.getitem. rewrite Lid, Lts, Lsn, Hs. reflexivity.
Qed.

(** A scan that goes through. When the QR payload names a batch that
    exists and holds a list of scans, and a supplier name is given,
    [scan_product] answers 200; it records exactly one event, numbered
    one above the scan counter, stamped by the server clock, carrying the
    supplier name, the batch id of the payload and the type "QR_SCAN"; and
    the [scanRecord] of the answer reports that number, stamp and name. *)
Theorem scan_product_records_one_event :
  forall (json_loads : string -> option value) (req : App.scan_request) (w : World)
         (supplier : string) (parsed batch_id : value) (batch : dict) (l : list value),
    Py.truthy (App.s_qrData req) = true ->
    App.s_supplierName req = Some supplier -> supplier <> "" ->
    App.parse_qr json_loads (App.s_qrData req) = Some parsed ->
    App.qr_product_id parsed = Ok batch_id ->
    fst (get_batch batch_id w) = Ok (Some batch) ->
    Py.lookup batch "scans" = Some (VList l) ->
    let answer := fst (App.scan_product json_loads req w) in
    let w' := snd (App.scan_product json_loads req w) in
    let number := VStr (Py.str_int (lastScanId (scans_file w) + 1)) in
    let stamp := VStr (isoformat (clock w (ticks w))) in
    status_of answer = 200
    /\ body_field answer "scanRecord"
       = Some (VDict [ ("scanId", number); ("timestamp", stamp);
                       ("supplierName", VStr supplier) ])
    /\ exists r : dict,
         scans (scans_file w') = scans (scans_file w) ++ [r]
         /\ listScansByBatch batch_id w' = Some (l ++ [VDict r])
         /\ Py.lookup r "id" = Some number
         /\ Py.lookup r "timestamp" = Some stamp
         /\ Py.lookup r "batchId" = Some batch_id
         /\ Py.lookup r "supplierName" = Some (VStr supplier)
         /\ Py.lookup r "scanType" = Some (VStr "QR_SCAN").
Proof.
  intros jl req w supplier parsed id batch l Hq Hs Hne Hp Hid Hb Hl answer w' number stamp.
  rewrite get_batch_run in Hb. cbn [fst] in Hb.
  destruct (record_scan_run w id (scan_data_of req) batch l Hb Hl) as [bs' [Hrep Hrun]].
  fold (scan_event req id w) in Hrun, Hrep.
  subst answer w'.
  rewrite (scan_product_run jl req w supplier parsed id batch l Hq Hs Hne Hp Hid Hb Hl).
  cbn [fst snd]. rewrite Hrun. cbn [snd].
  split; [reflexivity|]. split.
  - unfold body_field, Py.display. rewrite lookup_update. reflexivity.
  - exists (scan_event req id w). cbn [scans_file scans]. split; [reflexivity|].
    split.
    + destruct (replace_found _ _ _
                  (scanned_batch batch l (scan_event req id w) (clock w (S (ticks w)))) Hb
                  (scanned_batch_batchId batch l (scan_event req id w)
                     (clock w (S (ticks w)))))
        as [bs'' [Hr' [Hf' _]]].
      rewrite Hrep in Hr'. injection Hr' as <-.
      apply listScansByBatch_found
        with (scanned_batch batch l (scan_event req id w) (clock w (S (ticks w)))).
      * exact Hf'.
      * apply scanned_batch_scans.
    + exact (scan_event_fields req id w supplier Hs).
Qed.

(** ** The blob store *)

Import GreenfieldService.

Lemma fs_lookup_write_eq (dir : list (string * file)) (name : string) (f : file) :
  fs_lookup (fs_write dir name f) name = Some f.
Proof.
  induction dir as [|[n g] dir IH]; simpl.
  - now rewrite String.eqb_refl.
  - destruct (String.eqb n name) eqn:E; simpl.
    + now rewrite String.eqb_refl.
    + now rewrite E.
Qed.

Lemma fs_lookup_write_neq (dir : list (string * file)) (name name' : string) (f : file) :
  name <> name' -> fs_lookup (fs_write dir name f) name' = fs_lookup dir name'.
Proof.
  intros Hne. induction dir as [|[n g] dir IH]; simpl.
  - destruct (String.eqb_spec name name'); [contradiction | reflexivity].
  - destruct (String.eqb_spec n name) as [->|Hn]; simpl.
    + destruct (String.eqb_spec name name'); [contradiction | reflexivity].
    + destruct (String.eqb n name'); [reflexivity | exact IH].
Qed.

Lemma append_neq (a b : string) : b <> "" -> a +++ b <> a.
Proof.
  intros Hb. induction a as [|c a IH]; simpl; [exact Hb|].
  intros H. injection H as H. contradiction.
Qed.

Lemma append_assoc_string (a b c : string) : (a +++ b) +++ c = a +++ b +++ c.
Proof. induction a as [|x a IH]; simpl; [reflexivity | now rewrite IH]. Qed.

(** What follows the last separator of [pre ++ sep ++ name], when [name]
    holds no separator, is [name]. *)
Lemma split_last_app (sep : ascii) (pre name : string) :
  Py.contains (String sep "") name = false ->
  Py.split_last sep (pre +++ String sep name) = name.
Proof.
  intros Hn. induction pre as [|c pre IH]; simpl.
  - rewrite Hn. now rewrite Ascii.eqb_refl.
  - assert (E : Py.contains (String sep "") (pre +++ String sep name) = true).
    { apply contains_iff. exists pre, name. reflexivity. }
    now rewrite E.
Qed.

Lemma plain_name_no_slash (name : string) :
  plain_name name = true -> Py.contains "/" name = false.
Proof.
  unfold plain_name. rewrite !andb_true_iff, negb_true_iff. tauto.
Qed.

Lemma startswith_app (p rest : string) : Py.startswith (p +++ rest) p = true.
Proof. unfold Py.startswith. apply prefix_iff. now exists rest. Qed.

Lemma upload_file_run (data : list byte) (name content_type : string) (w : World) :
  GreenfieldService.upload_file data name content_type w =
    (Ok ("gnfd://" +++ bucket_name (env w) +++ "/" +++ name),
     mkWorld (batches_file w) (scans_file w) (products_file w)
       (fs_write (fs_write (uploads w) name (Blob data)) (name +++ ".meta")
          (MetaJson
             (Py.display
                [ ("filename", VStr name);
                  ("contentType", VStr content_type);
                  ("hash", VStr (Sha256.hexdigest data));
                  ("size", VInt (Z.of_nat (List.length data)));
                  ("uploadTime", VStr (isoformat (clock w (ticks w))));
                  ("bucket", VStr (bucket_name (env w)));
                  ("mode", VStr "mock") ])))
       (env w) (clock w) (S (ticks w))).
Proof. reflexivity. Qed.

Lemma download_url_of_name (bucket name : string) (w : World) :
  Py.contains "/" name = false ->
  download_file ("gnfd://" +++ bucket +++ "/" +++ name) w
  = _download_mock name w.
Proof.
  intros Hn. unfold download_file. rewrite startswith_app.
  change ("gnfd://" +++ bucket +++ "/" +++ name)
    with ("gnfd://" +++ bucket +++ String "/" name).
  rewrite <- append_assoc_string. now rewrite (split_last_app "/" _ name Hn).
Qed.

(** Upload then download. An artifact uploaded under a plain name is
    what [download_file] returns for the URL that [upload_file] gave,
    whatever was stored under that name before; the files of the record
    store are untouched, and so is every other object of the uploads apart
    from the side file [<name>.meta]. *)
Theorem upload_then_download :
  forall (w : World) (data : list byte) (name content_type : string),
    plain_name name = true ->
    exists (url : string) (w1 : World),
      GreenfieldService.upload_file data name content_type w = (Ok url, w1)
      /\ url = "gnfd://" +++ bucket_name (env w) +++ "/" +++ name
      /\ download_file url w1 = (Ok data, w1)
      /\ batches_file w1 = batches_file w
      /\ scans_file w1 = scans_file w
      /\ products_file w1 = products_file w
      /\ forall name', name' <> name -> name' <> name +++ ".meta" ->
                       fs_lookup (uploads w1) name' = fs_lookup (uploads w) name'.
Proof.
  intros w data name ct Hpn. pose proof (plain_name_no_slash name Hpn) as Hn.
  eexists _, _. split; [apply upload_file_run|].
  split; [reflexivity|]. split.
  - rewrite (download_url_of_name _ _ _ Hn). unfold _download_mock.
    cbn [uploads]. rewrite fs_lookup_write_neq by (apply append_neq; discriminate).
    now rewrite fs_lookup_write_eq.
  - do 3 (split; [reflexivity|]). intros name' H1 H2. cbn [uploads].
    rewrite !fs_lookup_write_neq by congruence. reflexivity.
Qed.

(** Upload then [get_file_info]: for the URL of an upload under a plain
    name the file information reports the size, the SHA-256, the content
    type and the upload time of that upload, in mode "mock". *)
Theorem upload_then_get_file_info :
  forall (w : World) (data : list byte) (name content_type : string),
    plain_name name = true ->
    let url := "gnfd://" +++ bucket_name (env w) +++ "/" +++ name in
    let w1 := snd (GreenfieldService.upload_file data name content_type w) in
    exists info : dict,
      GreenfieldInfo.get_file_info url w1 = (Ok info, w1)
      /\ Py.lookup info "url" = Some (VStr url)
      /\ Py.lookup info "filename" = Some (VStr name)
      /\ Py.lookup info "size" = Some (VInt (Z.of_nat (List.length data)))
      /\ Py.lookup info "hash" = Some (VStr (Sha256.hexdigest data))
      /\ Py.lookup info "contentType" = Some (VStr content_type)
      /\ Py.lookup info "lastModified" = Some (VStr (isoformat (clock w (ticks w))))
      /\ Py.lookup info "mode" = Some (VStr "mock").
Proof.
  intros w data name ct Hpn url w1. pose proof (plain_name_no_slash name Hpn) as Hn.
  subst w1. rewrite upload_file_run. cbn [snd].
  unfold GreenfieldInfo.get_file_info, GreenfieldInfo.get_env, bind.
  subst url. rewrite startswith_app.
  change ("gnfd://" +++ bucket_name (env w) +++ "/" +++ name)
    with ("gnfd://" +++ bucket_name (env w) +++ String "/" name).
  rewrite <- append_assoc_string, (split_last_app "/" _ name Hn).
  cbn [uploads env]. rewrite fs_lookup_write_eq.
  eexists. split; [reflexivity|].
  unfold Py.display, Py.get_default. rewrite !lookup_update.
  cbn [Py.last_binding String.eqb Ascii.eqb Bool.eqb].
  repeat split.
Qed.

(** A blob that is not there. For a URL that does not start with
    "gnfd://", or whose last segment is a plain name that no object of the
    uploads has, [download_file] does not fail: it returns the constant
    [b"mock_file_content_for_hash_verification"]; [verify_product] then
    answers 200 with the SHA-256 of that constant as [currentHash], for
    every product id whose lookup yields a hash. *)
Theorem download_file_falls_back_to_mock :
  forall (w : World) (url : string),
    Py.startswith url "gnfd://" = false
    \/ (plain_name (Py.split_last "/" url) = true
        /\ fs_lookup (uploads w) (Py.split_last "/" url) = None) ->
    download_file url w = (Ok mock_content, w)
    /\ forall product_id : string,
         product_id <> "" -> Py.encodable product_id = true -> url <> "" ->
         App.verify_product (App.mkVerify (Some product_id) (Some url)) w
         = (verdict product_id (mock_hash product_id) (Sha256.hexdigest mock_content), w).
Proof.
  intros w url H.
  assert (Hd : download_file url w = (Ok mock_content, w)).
  { unfold download_file, _download_mock, ret.
    destruct (Py.startswith url "gnfd://").
    - destruct H as [H|[_ H]]; [discriminate | now rewrite H].
    - reflexivity. }
  split; [exact Hd|]. intros pid Hp He Hu.
  now apply verify_product_with_url.
Qed.

(** ** Verification and the ledger *)

Lemma handle_ret (r : response) (w : World) : App.handle (ret r) w = (r, w).
Proof. reflexivity. Qed.


(** [get_product] finds every product id that UTF-8 encodes, as every id
    taken from the path of a URL is. It only reads; for every such id that
    is not empty it answers 200 with the mock hash of the ledger client as
    [fileHash], the same hash that [verify_product] reports as
    [storedHash], and with the contract address of the environment, or the
    built-in address of the blockchain service: it does not answer
    "Product not found". An id that holds a lone surrogate would get that
    answer, with status 404. *)
Theorem get_product_always_found :
  forall (product_id : string) (w : World),
    let answer := fst (BlockchainInfo.get_product product_id w) in
    snd (BlockchainInfo.get_product product_id w) = w
    /\ (Py.encodable product_id = true -> status_of answer <> 404)
    /\ (product_id <> "" -> Py.encodable product_id = true ->
        status_of answer = 200
        /\ body_field answer "productId" = Some (VStr product_id)
        /\ body_field answer "fileHash" = Some (VStr (mock_hash product_id))
        /\ body_field answer "fileHash"
           = body_field (fst (App.verify_product (App.mkVerify (Some product_id) None) w))
                        "storedHash"
        /\ body_field answer "contractAddress"
           = Some (VStr (BlockchainInfo.contract_address (env w)))
        /\ body_field answer "blockNumber" = Some (VInt 12345678))
    /\ (product_id <> "" -> Py.encodable product_id = false ->
        status_of answer = 404
        /\ body_field answer "error" = Some (VStr "Product not found")).
Proof.
  intros pid w answer. subst answer.
  destruct (String.eqb_spec pid "") as [->|Hp].
  { split; [reflexivity|]. split; [discriminate|].
    split; intros Hx; now contradiction Hx. }
  destruct (Py.encodable pid) eqn:He.
  - assert (E : BlockchainInfo.get_product pid w
                = (Response 200
                     (Py.update
                        (Py.display [ ("success", VBool true); ("productId", VStr pid) ])
                        (Py.display
                           [ ("productId", VStr pid);
                             ("fileHash", VStr (mock_hash pid));
                             ("contractAddress",
                              VStr (BlockchainInfo.contract_address (env w)));
                             ("timestamp", VInt 1721390400);
                             ("blockNumber", VInt 12345678) ])), w)).
    { unfold BlockchainInfo.get_product, BlockchainInfo.get_product_info.
      change (Py.truthy (VStr pid)) with (Py.truthy (App.opt (Some pid))).
      rewrite (truthy_opt_some _ Hp). cbn [negb].
      unfold App.handle, bind at 1. unfold bind at 1.
      rewrite get_product_hash_run, He.
      change (Py.truthy (App.opt (Some (Sha256.hexdigest ?x))))
        with (Py.truthy (VStr (Sha256.hexdigest x))).
      rewrite hexdigest_truthy. cbn [negb]. run_monad.
      unfold Py.get. unfold Py.display at 1. rewrite lookup_update.
      cbn [Py.last_binding String.eqb Ascii.eqb Bool.eqb App.opt].
      fold (mock_hash pid).
      change (Py.truthy (VStr (mock_hash pid)))
        with (Py.truthy (VStr (Sha256.hexdigest (encode ("mock_file_content_" +++ pid))))).
      rewrite hexdigest_truthy. reflexivity. }
    rewrite E. cbn [fst snd]. split; [reflexivity|]. split; [discriminate|].
    split; [|discriminate]. intros _ _.
    rewrite (verify_product_without_url w pid None Hp He (or_introl eq_refl)). cbn [fst].
    destruct (verdict_fields pid (mock_hash pid) (mock_hash pid)) as [_ [_ [Hst _]]].
    rewrite Hst. unfold body_field, status_of, Py.display. rewrite !lookup_update.
    repeat split.
  - assert (E : BlockchainInfo.get_product pid w
                = (Response 404 (Py.display [ ("success", VBool false);
                                              ("error", VStr "Product not found") ]), w)).
    { unfold BlockchainInfo.get_product, BlockchainInfo.get_product_info.
      change (Py.truthy (VStr pid)) with (Py.truthy (App.opt (Some pid))).
      rewrite (truthy_opt_some _ Hp). cbn [negb].
      unfold App.handle, bind at 1. unfold bind at 1.
      rewrite get_product_hash_run, He. reflexivity. }
    rewrite E. cbn [fst snd]. split; [reflexivity|]. split; [discriminate|].
    split; [discriminate|]. intros _ _. now split.
Qed.

(** ** Registration, end to end *)

(** The run of the registration steps on a request that is not turned
    away, for a user that has an id and an email. *)
Lemma app_upload_file_run (req : App.upload_request) (w : World)
    (user : dict) (file : App.uploaded_file) (pid : string) (uid email : value) :
  App.u_user req = Some user -> App.u_file req = Some file ->
  App.filename file <> "" ->
  App.u_productId req = Some pid -> pid <> "" ->
  Py.lookup user "id" = Some uid -> Py.lookup user "email" = Some email ->
  let name := App.object_name pid (clock w (ticks w)) file in
  let hash := Sha256.hexdigest (App.content file) in
  let url := "gnfd://" +++ bucket_name (env w) +++ "/" +++ name in
  let tx := "0x" +++ Sha256.hexdigest (encode (pid +++ hash)) in
  let w1 := snd (GreenfieldService.upload_file (App.content file) name
                   (App.content_type_or_default file) (snd (utcnow w))) in
  let data := App.batch_data_of req file pid hash url tx (env w) uid email
                (clock w (S (S (ticks w)))) in
  App.upload_file req w
  = (Ok (inr (App.mkRegistration pid hash url tx)),
     snd (store_batch (VStr pid) data (snd (utcnow w1)))).
Proof.
  intros Hu Hf Hn Hp Hpid Hid Hem name hash url tx w1 data.
  unfold App.upload_file. rewrite Hu, Hf, Hp.
  destruct (String.eqb_spec (App.filename file) "") as [E|_]; [contradiction|].
  rewrite (truthy_opt_some _ Hpid). cbn [negb].
  run_monad. unfold Py.getitem. rewrite Hid, Hem. run_monad.
  rewrite !store_batch_run. reflexivity.
Qed.

Lemma store_batch_get (w : World) (s : string) (data : dict) :
  find_batch (batches (batches_file w)) (VStr s) = Ok None ->
  fst (get_batch (VStr s) (snd (store_batch (VStr s) data w)))
  = Ok (Some (batch_record (VStr s) data (clock w (ticks w)) (clock w (S (ticks w)))
                           (clock w (S (S (ticks w)))))).
Proof.
  intros H. rewrite store_batch_run, get_batch_run. cbn [fst snd batches_file batches].
  rewrite (find_batch_app_none _ _ _ H). simpl. unfold Py.getitem.
  rewrite batch_record_batchId. simpl. now rewrite String.eqb_refl.
Qed.

Lemma batch_record_data (id : value) (data : dict) (t1 t2 t3 : datetime) (k : string) :
  ~ In k batch_keys ->
  Py.lookup (batch_record id data t1 t2 t3) k = Py.lookup data k.
Proof.
  intros Hk. unfold batch_record. rewrite lookup_update. now rewrite last_binding_absent.
Qed.

(** A registration can be retrieved. When the request is not turned
    away, the user has an id and an email, the product id is not yet the
    id of a batch and the object name is a plain name, the registration
    steps succeed; they report the SHA-256 of the artifact and the anchor
    reference derived from it; the artifact is what [download_file]
    returns for the reported URL; and [get_batch] resolves the product id
    to a batch without scans that holds the reported hash, anchor
    reference and URL and the id of the user. *)
Theorem registration_is_retrievable :
  forall (req : App.upload_request) (w : World) (user : dict) (file : App.uploaded_file)
         (pid : string) (uid email : value),
    App.u_user req = Some user -> App.u_file req = Some file ->
    App.filename file <> "" ->
    App.u_productId req = Some pid -> pid <> "" ->
    Py.lookup user "id" = Some uid -> Py.lookup user "email" = Some email ->
    fst (get_batch (VStr pid) w) = Ok None ->
    plain_name (App.object_name pid (clock w (ticks w)) file) = true ->
    exists (reg : App.registration) (batch : dict) (w' : World),
      App.upload_file req w = (Ok (inr reg), w')
      /\ App.r_batchId reg = pid
      /\ App.r_fileHash reg = Sha256.hexdigest (App.content file)
      /\ App.r_txHash reg
         = "0x" +++ Sha256.hexdigest (encode (pid +++ Sha256.hexdigest (App.content file)))
      /\ App.r_greenfieldUrl reg
         = "gnfd://" +++ bucket_name (env w) +++ "/"
             +++ App.object_name pid (clock w (ticks w)) file
      /\ GreenfieldService.download_file (App.r_greenfieldUrl reg) w'
         = (Ok (App.content file), w')
      /\ fst (get_batch (VStr pid) w') = Ok (Some batch)
      /\ listScansByBatch (VStr pid) w' = Some []
      /\ Py.lookup batch "fileHash" = Some (VStr (App.r_fileHash reg))
      /\ Py.lookup batch "txHash" = Some (VStr (App.r_txHash reg))
      /\ Py.lookup batch "greenfieldUrl" = Some (VStr (App.r_greenfieldUrl reg))
      /\ Py.lookup batch "documentUrl" = Some (VStr (App.r_greenfieldUrl reg))
      /\ Py.lookup batch "userId" = Some uid
      /\ Py.lookup batch "userEmail" = Some email
      /\ Py.lookup batch "fileName" = Some (VStr (App.filename file))
      /\ Py.lookup batch "fileSize"
         = Some (VInt (Z.of_nat (List.length (App.content file)))).
Proof.
  intros req w user file pid uid email Hu Hf Hn Hp Hpid Hid Hem Hnew Hplain.
  pose proof (app_upload_file_run req w user file pid uid email Hu Hf Hn Hp Hpid Hid Hem)
    as Hrun. cbv zeta in Hrun.
  pose proof (plain_name_no_slash _ Hplain) as Hslash.
  rewrite get_batch_run in Hnew. cbn [fst] in Hnew.
  set (name := App.object_name pid (clock w (ticks w)) file) in *.
  set (hash := Sha256.hexdigest (App.content file)) in *.
  set (url := "gnfd://" +++ bucket_name (env w) +++ "/" +++ name) in *.
  set (tx := "0x" +++ Sha256.hexdigest (encode (pid +++ hash))) in *.
  set (data := App.batch_data_of req file pid hash url tx (env w) uid email
                 (clock w (S (S (ticks w))))) in *.
  set (w2 := snd (utcnow (snd (GreenfieldService.upload_file (App.content file) name
                                 (App.content_type_or_default file) (snd (utcnow w)))))) in *.
  assert (Hb2 : batches_file w2 = batches_file w) by reflexivity.
  assert (Hu2 : fs_lookup (uploads w2) name = Some (Blob (App.content file))).
  { unfold w2. rewrite upload_file_run. cbn [snd utcnow uploads].
    rewrite fs_lookup_write_neq by (apply append_neq; discriminate).
    apply fs_lookup_write_eq. }
  set (batch := batch_record (VStr pid) data (clock w2 (ticks w2)) (clock w2 (S (ticks w2)))
                             (clock w2 (S (S (ticks w2))))).
  assert (Hget : fst (get_batch (VStr pid) (snd (store_batch (VStr pid) data w2)))
                 = Ok (Some batch)).
  { apply store_batch_get. now rewrite Hb2. }
  exists (App.mkRegistration pid hash url tx), batch, (snd (store_batch (VStr pid) data w2)).
  cbn [App.r_batchId App.r_fileHash App.r_txHash App.r_greenfieldUrl].
  split; [exact Hrun|]. do 4 (split; [reflexivity|]).
  split.
  { unfold url. rewrite (download_url_of_name _ _ _ Hslash). unfold _download_mock.
    rewrite store_batch_run. cbn [snd uploads]. now rewrite Hu2. }
  split; [exact Hget|].
  split.
  { apply listScansByBatch_found with batch; [exact Hget | apply batch_record_scans]. }
  assert (Hd : forall k, ~ In k batch_keys -> Py.lookup batch k = Py.lookup data k)
    by (intros k Hk; now apply batch_record_data).
  repeat split; rewrite Hd by (unfold batch_keys; simpl; intuition discriminate);
    unfold data, App.batch_data_of, Py.display; rewrite lookup_update; reflexivity.
Qed.

(** The registration steps, from the user lookup to [store_batch], are
    all or nothing for the record store. A request that is turned away
    (404 without a user; 400 without a file, with an empty file name or
    without a product id) leaves the whole world as it was. A run that
    raises leaves the three files of the record store as they were. A
    run that succeeds adds one batch and one product row and leaves
    [scans.json] alone. *)
Theorem upload_file_all_or_nothing :
  forall (req : App.upload_request) (w : World),
    let result := fst (App.upload_file req w) in
    let w' := snd (App.upload_file req w) in
    (forall r, result = Ok (inl r) ->
       w' = w
       /\ body_field r "success" = Some (VBool false)
       /\ (status_of r = 404 /\ App.u_user req = None
           \/ status_of r = 400
              /\ App.u_user req <> None
              /\ (App.u_file req = None
                  \/ (exists file, App.u_file req = Some file /\ App.filename file = "")
                  \/ App.u_productId req = None \/ App.u_productId req = Some "")))
    /\ (forall e, result = Raise e ->
          batches_file w' = batches_file w
          /\ products_file w' = products_file w
          /\ scans_file w' = scans_file w)
    /\ (forall reg, result = Ok (inr reg) ->
          List.length (batches (batches_file w')) = S (List.length (batches (batches_file w)))
          /\ List.length (products (products_file w'))
             = S (List.length (products (products_file w)))
          /\ scans_file w' = scans_file w).
Proof.
  intros req w result w'. subst result w'. unfold App.upload_file.
  destruct (App.u_user req) as [user|].
  2:{ cbn [fst snd ret]. split; [|split]; [|discriminate|discriminate].
      intros r H. injection H as <-. split; [reflexivity|].
      split; [reflexivity|]. left. now split. }
  destruct (App.u_file req) as [file|].
  2:{ cbn [fst snd ret]. split; [|split]; [|discriminate|discriminate].
      intros r H. injection H as <-. split; [reflexivity|].
      split; [reflexivity|]. right. split; [reflexivity|]. split; [discriminate|].
      now left. }
  destruct (String.eqb_spec (App.filename file) "") as [E|_].
  { cbn [fst snd ret]. split; [|split]; [|discriminate|discriminate].
    intros r H. injection H as <-. split; [reflexivity|].
    split; [reflexivity|]. right. split; [reflexivity|]. split; [discriminate|].
    right. left. now exists file. }
  destruct (App.u_productId req) as [pid|].
  2:{ cbn [fst snd ret App.opt Py.truthy negb]. split; [|split]; [|discriminate|discriminate].
      intros r H. injection H as <-. split; [reflexivity|].
      split; [reflexivity|]. right. split; [reflexivity|]. split; [discriminate|].
      right. right. now left. }
  destruct (String.eqb_spec pid "") as [->|Hpid].
  { cbn [fst snd ret App.opt Py.truthy negb String.eqb].
    split; [|split]; [|discriminate|discriminate].
    intros r H. injection H as <-. split; [reflexivity|].
    split; [reflexivity|]. right. split; [reflexivity|]. split; [discriminate|].
    right. right. now right. }
  rewrite (truthy_opt_some _ Hpid). cbn [negb]. run_monad. unfold Py.getitem.
  destruct (Py.lookup user "id") as [uid|] eqn:Lid.
  2:{ cbn [fst snd]. split; [discriminate|]. split; [|discriminate].
      intros e _. now repeat split. }
  destruct (Py.lookup user "email") as [email|] eqn:Lem.
  2:{ cbn [fst snd]. split; [discriminate|]. split; [|discriminate].
      intros e _. now repeat split. }
  run_monad. rewrite store_batch_run. run_monad.
  split; [discriminate|]. split; [discriminate|].
  intros reg _. cbn [batches products]. rewrite !length_app. cbn [List.length].
  repeat split; lia.
Qed.

(** ** Search over any store *)

Lemma search_loop_filter (term criteria : string) (ps results : list dict) :
  search_loop term criteria ps = Ok results ->
  results = filter (fun p => match Search.matches term criteria p with
                             | Ok true => true
                             | _ => false
                             end) ps.
Proof.
  revert results. induction ps as [|p ps IH]; intros results; simpl.
  - intros H. now injection H as <-.
  - unfold bindr. destruct (Search.matches term criteria p) as [m|e]; [|discriminate].
    destruct (search_loop term criteria ps) as [rest|e]; [|discriminate].
    intros H. injection H as <-. rewrite <- (IH rest eq_refl). now destruct m.
Qed.

Lemma matches_unknown_criteria (term criteria : string) (p : dict) :
  criteria <> "productId" -> criteria <> "batchName" ->
  criteria <> "manufacturer" -> criteria <> "productType" ->
  Search.matches term criteria p = Search.matches term "all" p.
Proof.
  intros H1 H2 H3 H4. unfold Search.matches.
  destruct (String.eqb_spec criteria "productId"); [contradiction|].
  destruct (String.eqb_spec criteria "batchName"); [contradiction|].
  destruct (String.eqb_spec criteria "manufacturer"); [contradiction|].
  destruct (String.eqb_spec criteria "productType"); [contradiction|].
  reflexivity.
Qed.

(** The search endpoint, over any store. It only reads. Without a query,
    or with the empty one, it answers 400. Otherwise, when no row makes
    the search raise, it answers 200 with the stored rows that match, in
    stored order, and with their number as [total]; when a row makes it
    raise, the answer is the error. A missing criterion, and a criterion
    that is none of the four names, selects like "all". *)
Theorem search_endpoint_filters_the_store :
  forall (q criteria : option string) (w : World),
    let answer := fst (App.search_products q criteria w) in
    let chosen := match criteria with Some c => c | None => "all" end in
    snd (App.search_products q criteria w) = w
    /\ (q = None \/ q = Some "" ->
        status_of answer = 400
        /\ body_field answer "error" = Some (VStr "Search query is required"))
    /\ (forall query, q = Some query -> query <> "" ->
        match search_loop (Py.lower query) chosen (products (products_file w)) with
        | Ok results =>
            status_of answer = 200
            /\ body_field answer "results" = Some (VList (map VDict results))
            /\ body_field answer "total" = Some (VInt (Z.of_nat (List.length results)))
            /\ results
               = filter (fun p => match Search.matches (Py.lower query) chosen p with
                                  | Ok true => true
                                  | _ => false
                                  end) (products (products_file w))
        | Raise e => answer = InternalError e
        end)
    /\ (chosen <> "productId" -> chosen <> "batchName" ->
        chosen <> "manufacturer" -> chosen <> "productType" ->
        forall query,
          Search.search_products query chosen w = Search.search_products query "all" w).
Proof.
  intros q criteria w answer chosen. subst answer.
  unfold App.search_products, Search.search_products. fold chosen. run_monad.
  assert (Hall : chosen <> "productId" -> chosen <> "batchName" ->
                 chosen <> "manufacturer" -> chosen <> "productType" ->
                 forall query' ps,
                   search_loop (Py.lower query') chosen ps
                   = search_loop (Py.lower query') "all" ps).
  { intros H1 H2 H3 H4 query' ps. induction ps as [|p ps IH]; [reflexivity|].
    simpl. now rewrite IH, (matches_unknown_criteria _ chosen p H1 H2 H3 H4). }
  destruct q as [query|]; cbn [App.opt Py.truthy negb fst snd].
  2:{ split; [reflexivity|]. split; [intros _; now split|].
      split; [intros query H; discriminate|].
      intros H1 H2 H3 H4 query'. now rewrite (Hall H1 H2 H3 H4). }
  destruct (String.eqb_spec query "") as [->|Hq]; cbn [negb fst snd].
  { split; [reflexivity|]. split; [intros _; now split|].
    split; [intros query H Hne; injection H as <-; contradiction|].
    intros H1 H2 H3 H4 query'. now rewrite (Hall H1 H2 H3 H4). }
  split.
  { now destruct (search_loop _ _ _). }
  split; [intros [H|H]; [discriminate | injection H as ->; contradiction]|].
  split.
  - intros query' H _. injection H as <-.
    destruct (search_loop (Py.lower query) chosen (products (products_file w)))
      as [results|e] eqn:Hs; cbn [fst].
    + split; [reflexivity|]. unfold body_field, Py.display. rewrite !lookup_update.
      split; [reflexivity|]. split; [reflexivity|]. now apply search_loop_filter.
    + reflexivity.
  - intros H1 H2 H3 H4 query'. now rewrite (Hall H1 H2 H3 H4).
Qed.

(** ** Scan numbers and the details of a scan *)

Lemma to_int_not_nil (z : Z) :
  Z.to_int z <> Decimal.Pos Decimal.Nil /\ Z.to_int z <> Decimal.Neg Decimal.Nil.
Proof.
  destruct z as [|p|p]; simpl; split; try discriminate;
    intros H; injection H as H; revert H; apply DecimalPos.Unsigned.to_uint_nonnil.
Qed.

(** [str] is injective on the integers. *)
Lemma str_int_inj (a b : Z) : Py.str_int a = Py.str_int b -> a = b.
Proof.
  unfold Py.str_int. intros H. apply DecimalZ.to_int_inj.
  destruct (to_int_not_nil a) as [A1 A2]. destruct (to_int_not_nil b) as [B1 B2].
  pose proof (NilZero.isi _ A1 A2) as Ia. pose proof (NilZero.isi _ B1 B2) as Ib.
  rewrite H in Ia. rewrite Ia in Ib. now injection Ib.
Qed.

Lemma lookup_none_last_binding (d : dict) (k : string) :
  Py.lookup d k = None -> Py.last_binding d k = None.
Proof.
  induction d as [|[k0 v0] d IH]; simpl; [reflexivity|].
  destruct (String.eqb k0 k); [discriminate|]. intros H. now rewrite IH.
Qed.

Lemma lookup_some_truthy (d : dict) (k : string) (v : value) :
  Py.lookup d k = Some v -> Py.truthy (VDict d) = true.
Proof. destruct d; [discriminate | reflexivity]. Qed.

Lemma find_scan_app_none (ss l : list dict) (scan_id : string) :
  ScanDetails.find_scan ss scan_id = Ok None ->
  ScanDetails.find_scan (ss ++ l) scan_id = ScanDetails.find_scan l scan_id.
Proof.
  induction ss as [|s ss IH]; simpl; [reflexivity|].
  destruct (ScanDetails.str_eq (Py.get s "id") scan_id) as [[|]|e]; try discriminate.
  exact IH.
Qed.

(** In a list numbered from [offset + 1], the loop of [get_scan_details]
    stops at position [k] for the numeral of [offset + k + 1], and finds
    nothing for a string that is none of the numerals. *)
Lemma find_scan_numbered (ss : list dict) (offset : nat) (scan_id : string) :
  (forall i s, nth_error ss i = Some s ->
               Py.lookup s "id" = Some (VStr (Py.str_int (Z.of_nat (offset + i) + 1)))) ->
  (forall k s, nth_error ss k = Some s ->
               scan_id = Py.str_int (Z.of_nat (offset + k) + 1) ->
               ScanDetails.find_scan ss scan_id = Ok (Some s))
  /\ ((forall i, (i < List.length ss)%nat ->
                 scan_id <> Py.str_int (Z.of_nat (offset + i) + 1)) ->
      ScanDetails.find_scan ss scan_id = Ok None).
Proof.
  revert offset. induction ss as [|s0 ss IH]; intros offset Hn.
  - split; [intros [|k] s H; discriminate | reflexivity].
  - assert (H0 : Py.lookup s0 "id" = Some (VStr (Py.str_int (Z.of_nat (offset + 0) + 1))))
      by (apply Hn; reflexivity).
    assert (Hn' : forall i s, nth_error ss i = Some s ->
                    Py.lookup s "id"
                    = Some (VStr (Py.str_int (Z.of_nat (S offset + i) + 1)))).
    { intros i s H. replace (S offset + i)%nat with (offset + S i)%nat by lia.
      now apply Hn. }
    destruct (IH (S offset) Hn') as [IH1 IH2].
    simpl ScanDetails.find_scan. unfold Py.get. rewrite H0. cbn [ScanDetails.str_eq].
    split.
    + intros [|k] s H E.
      * injection H as <-. subst scan_id. now rewrite String.eqb_refl.
      * destruct (String.eqb_spec (Py.str_int (Z.of_nat (offset + 0) + 1)) scan_id)
          as [E'|_].
        -- rewrite E in E'. apply str_int_inj in E'. lia.
        -- apply (IH1 k s H). rewrite E. do 2 f_equal. lia.
    + intros Hno.
      destruct (String.eqb_spec (Py.str_int (Z.of_nat (offset + 0) + 1)) scan_id)
        as [E'|_].
      * exfalso. apply (Hno 0%nat); [simpl; lia | now symmetry].
      * apply IH2. intros i Hi. replace (S offset + i)%nat with (offset + S i)%nat by lia.
        apply Hno. simpl. lia.
Qed.

Lemma record_scan_numbered (id : value) (sd : dict) (w : World) :
  Py.lookup sd "id" = None ->
  scans_numbered w -> scans_numbered (snd (record_scan id sd w)).
Proof.
  intros Hid [Hc Hn].
  destruct (record_scan_files id sd w) as [[r Hr] | [_ Es]].
  - destruct (record_scan id sd w) as [res w'] eqn:Hrun. cbn [fst snd] in *. subst res.
    destruct (record_scan_success_run _ _ _ _ _ Hrun)
      as [batch [l [bs' [_ [_ [-> [_ ->]]]]]]].
    unfold scans_numbered. cbn [scans_file scans lastScanId].
    rewrite length_app. cbn [List.length]. split; [lia|].
    intros i s H.
    destruct (Nat.lt_ge_cases i (List.length (scans (scans_file w)))) as [Hlt|Hge].
    + rewrite nth_error_app1 in H by exact Hlt. now apply Hn.
    + rewrite nth_error_app2 in H by exact Hge.
      destruct (i - List.length (scans (scans_file w)))%nat as [|j] eqn:E;
        [|destruct j; discriminate].
      injection H as <-.
      assert (Hi : i = List.length (scans (scans_file w))) by lia.
      unfold scan_record_of. rewrite lookup_update. cbn [Py.last_binding String.eqb
        Ascii.eqb Bool.eqb]. rewrite lookup_update, (lookup_none_last_binding _ _ Hid).
      unfold Py.display. rewrite lookup_update. cbn [Py.last_binding String.eqb
        Ascii.eqb Bool.eqb]. rewrite Hc, Hi. reflexivity.
  - unfold scans_numbered. rewrite Es. now split.
Qed.

(** Scans stay numbered. In the initial world, and in every world that
    the handlers reach from a world whose scans are numbered in sequence,
    the scan at position [i] of [scans.json] has the id [str(i + 1)] and
    the counter is the number of scans. [record_scan] keeps that for scan
    data without an ["id"]; the scan data of [scan_product] has none. *)
Theorem scans_stay_numbered :
  (forall e clk, scans_numbered (initial_world e clk))
  /\ forall (w : World),
       scans_numbered w ->
       (forall id sd, Py.lookup sd "id" = None ->
                      scans_numbered (snd (record_scan id sd w)))
       /\ (forall json_loads req,
             scans_numbered (snd (App.scan_product json_loads req w)))
       /\ (forall id data, scans_numbered (snd (store_batch id data w)))
       /\ (forall req, scans_numbered (snd (App.upload_file req w)))
       /\ (forall req, scans_numbered (snd (App.verify_product req w))).
Proof.
  split.
  { intros e clk. split; [reflexivity|]. intros [|i] s H; discriminate. }
  intros w H. split; [|split; [|split; [|split]]].
  - intros id sd Hid. now apply record_scan_numbered.
  - intros jl req. destruct (scan_product_world jl req w) as [-> | [id [_ ->]]];
      [exact H|]. apply record_scan_numbered; [|exact H].
    unfold scan_data_of, Py.display. rewrite lookup_update. reflexivity.
  - intros id data. rewrite store_batch_run. exact H.
  - intros req.
    assert (E : scans_file (snd (App.upload_file req w)) = scans_file w).
    { unfold App.upload_file.
      destruct (App.u_user req) as [user|]; [|reflexivity].
      destruct (App.u_file req) as [file|]; [|reflexivity].
      destruct (String.eqb (App.filename file) ""); [reflexivity|].
      destruct (negb (Py.truthy (App.opt (App.u_productId req)))); [reflexivity|].
      run_monad.
      destruct (Py.getitem user "id") as [uid|]; [|reflexivity].
      destruct (Py.getitem user "email") as [email|]; [|reflexivity].
      run_monad. rewrite store_batch_run. reflexivity. }
    unfold scans_numbered. now rewrite E.
  - intros req. now rewrite verify_product_world.
Qed.

Lemma get_scan_details_world (scan_id : string) (w : World) :
  snd (ScanDetails.get_scan_details scan_id w) = w.
Proof.
  unfold ScanDetails.get_scan_details, get_batch. run_monad.
  destruct (ScanDetails.find_scan _ _) as [[scan|]|e]; try reflexivity.
  destruct (negb (Py.truthy (VDict scan))); [reflexivity|].
  run_monad.
  destruct (find_batch _ _) as [[b|]|e]; try reflexivity;
    destruct (negb (Py.truthy _)); reflexivity.
Qed.

(** The details of a scan, looked up by its number. [get_scan_details]
    only reads. In a world whose scans are numbered in sequence it answers
    404 "Scan not found" for every id that is not the numeral of a
    position, and for the numeral of position [k + 1] it reports the scan
    stored there, unless looking up its batch raises. *)
Theorem scan_details_by_number :
  forall (w : World) (scan_id : string),
    scans_numbered w ->
    snd (ScanDetails.get_scan_details scan_id w) = w
    /\ ((forall i, (i < List.length (scans (scans_file w)))%nat ->
                   scan_id <> Py.str_int (Z.of_nat i + 1)) ->
        fst (ScanDetails.get_scan_details scan_id w)
        = Response 404 (Py.display [ ("success", VBool false);
                                     ("error", VStr "Scan not found") ]))
    /\ (forall k scan, nth_error (scans (scans_file w)) k = Some scan ->
                       scan_id = Py.str_int (Z.of_nat k + 1) ->
        (status_of (fst (ScanDetails.get_scan_details scan_id w)) = 200
         /\ body_field (fst (ScanDetails.get_scan_details scan_id w)) "scan"
            = Some (VDict scan))
        \/ exists e, fst (ScanDetails.get_scan_details scan_id w) = InternalError e).
Proof.
  intros w scan_id [_ Hn]. split; [apply get_scan_details_world|].
  destruct (find_scan_numbered (scans (scans_file w)) 0 scan_id Hn) as [Hfound Hnone].
  split.
  - intros Hno. unfold ScanDetails.get_scan_details. run_monad.
    now rewrite (Hnone Hno).
  - intros k scan Hk E. specialize (Hfound k scan Hk E).
    pose proof (Hn k scan Hk) as Hid.
    unfold ScanDetails.get_scan_details, get_batch. run_monad. rewrite Hfound.
    rewrite (lookup_some_truthy _ _ _ Hid). cbn [negb]. run_monad.
    destruct (find_batch _ _) as [[b|]|e]; cbn [fst].
    + destruct (negb (Py.truthy (VDict b))); cbn [fst]; left;
        (split; [reflexivity|]); unfold body_field, Py.display;
        rewrite lookup_update; reflexivity.
    + cbn [Py.truthy negb fst]. left. split; [reflexivity|].
      unfold body_field, Py.display. rewrite lookup_update. reflexivity.
    + right. now exists e.
Qed.

(** Scan, then look the scan up. In a world whose scans are numbered in
    sequence, the [scanId] that a successful [scan_product] reports is the
    id under which [get_scan_details] finds exactly the event that was
    recorded, together with the batch that was scanned, as it now is. *)
Theorem scan_then_get_scan_details :
  forall (json_loads : string -> option value) (req : App.scan_request) (w : World)
         (supplier : string) (parsed batch_id : value) (batch : dict) (l : list value),
    scans_numbered w ->
    Py.truthy (App.s_qrData req) = true ->
    App.s_supplierName req = Some supplier -> supplier <> "" ->
    App.parse_qr json_loads (App.s_qrData req) = Some parsed ->
    App.qr_product_id parsed = Ok batch_id ->
    fst (get_batch batch_id w) = Ok (Some batch) ->
    Py.lookup batch "scans" = Some (VList l) ->
    let answer := fst (App.scan_product json_loads req w) in
    let w' := snd (App.scan_product json_loads req w) in
    exists (number : string) (event batch' : dict),
      body_field answer "scanRecord"
      = Some (VDict [ ("scanId", VStr number);
                      ("timestamp", VStr (isoformat (clock w (ticks w))));
                      ("supplierName", VStr supplier) ])
      /\ ScanDetails.get_scan_details number w'
         = (Response 200 (Py.display [ ("success", VBool true);
                                       ("scan", VDict event);
                                       ("batchInfo", VDict batch') ]), w')
      /\ nth_error (scans (scans_file w')) (List.length (scans (scans_file w))) = Some event
      /\ Py.lookup event "supplierName" = Some (VStr supplier)
      /\ Py.lookup event "batchId" = Some batch_id
      /\ fst (get_batch batch_id w') = Ok (Some batch')
      /\ Py.lookup batch' "scans" = Some (VList (l ++ [VDict event])).
Proof.
  intros jl req w supplier parsed id batch l [Hc Hn] Hq Hs Hne Hp Hid Hb Hl answer w'.
  rewrite get_batch_run in Hb. cbn [fst] in Hb.
  destruct (record_scan_run w id (scan_data_of req) batch l Hb Hl) as [bs' [Hrep Hrun]].
  fold (scan_event req id w) in Hrun, Hrep.
  destruct (scan_event_fields req id w supplier Hs) as [Lid [Lts [Lbi [Lsn Lty]]]].
  set (event := scan_event req id w) in *.
  set (batch' := scanned_batch batch l event (clock w (S (ticks w)))) in *.
  destruct (replace_found _ _ _ batch' Hb (scanned_batch_batchId batch l event _))
    as [bs'' [Hr' [Hf' _]]].
  rewrite Hrep in Hr'. injection Hr' as <-.
  subst answer w'.
  rewrite (scan_product_run jl req w supplier parsed id batch l Hq Hs Hne Hp Hid Hb Hl).
  cbn [fst snd]. rewrite Hrun. cbn [snd].
  exists (Py.str_int (lastScanId (scans_file w) + 1)), event, batch'.
  split; [unfold body_field, Py.display; rewrite lookup_update; reflexivity|].
  split.
  { destruct (find_scan_numbered (scans (scans_file w)) 0
                (Py.str_int (lastScanId (scans_file w) + 1)) Hn) as [_ Hnone].
    unfold ScanDetails.get_scan_details, get_batch. run_monad. cbn [scans lastScanId].
    rewrite find_scan_app_none.
    2:{ apply Hnone. intros i Hi E. apply str_int_inj in E. simpl in E. lia. }
    cbn [ScanDetails.find_scan]. unfold Py.get at 1. rewrite Lid.
    cbn [ScanDetails.str_eq]. rewrite String.eqb_refl.
    rewrite (lookup_some_truthy _ _ _ Lid). cbn [negb]. run_monad. cbn [batches].
    unfold Py.get at 1. rewrite Lbi, Hf'.
    rewrite (found_batch_truthy _ _ _ Hf'). cbn [negb]. reflexivity. }
  split.
  { cbn [scans_file scans]. rewrite nth_error_app2 by lia.
    now rewrite Nat.sub_diag. }
  split; [exact Lsn|]. split; [exact Lbi|].
  split; [rewrite get_batch_run; exact Hf'|].
  apply scanned_batch_scans.
Qed.

(** ** The metadata of a user *)

Lemma get_user_metadata_run (user_id : value) (w : World) :
  UserMetadata.get_user_metadata user_id w
  = (let user_products :=
       filter (fun p => Py.eq (Py.get p "userId") user_id) (products (products_file w)) in
     bindr (UserMetadata.user_scans user_products (scans (scans_file w))) (fun scans_of_user =>
     bindr (UserMetadata.upload_history user_products) (fun history =>
     Ok (Py.display
           [ ("userId", user_id);
             ("totalUploads", len user_products);
             ("totalScans", len scans_of_user);
             ("products", VList (map VDict user_products));
             ("recentActivity", VList (map VDict (UserMetadata.last10 scans_of_user)));
             ("uploadHistory", VList history) ]))), w).
Proof.
  unfold UserMetadata.get_user_metadata, UserMetadata.get_user_products. run_monad.
  cbv zeta. unfold bindr.
  destruct (UserMetadata.user_scans _ _); [|reflexivity].
  destruct (UserMetadata.upload_history _); reflexivity.
Qed.

Lemma upload_history_keys (ps : list dict) (h : list value) :
  UserMetadata.upload_history ps = Ok h ->
  forall p, In p ps -> exists v, Py.lookup p "productId" = Some v.
Proof.
  revert h. induction ps as [|p0 ps IH]; intros h H p Hin; [destruct Hin|].
  simpl in H. unfold bindr, UserMetadata.upload_entry, bindr, Py.getitem in H.
  destruct (Py.lookup p0 "productId") as [v|] eqn:L; [|discriminate].
  destruct (Py.lookup p0 "batchName"); [|discriminate].
  destruct (Py.lookup p0 "createdAt"); [|discriminate].
  destruct (Py.lookup p0 "fileHash"); [|discriminate].
  destruct (Py.lookup p0 "txHash"); [|discriminate].
  destruct (UserMetadata.upload_history ps) as [h'|]; [|discriminate].
  destruct Hin as [<-|Hin]; [now exists v | now apply (IH h')].
Qed.

Lemma upload_history_snoc (ps : list dict) (p : dict) (h : list value) (entry : value) :
  UserMetadata.upload_history ps = Ok h -> UserMetadata.upload_entry p = Ok entry ->
  UserMetadata.upload_history (ps ++ [p]) = Ok (h ++ [entry]).
Proof.
  revert h. induction ps as [|p0 ps IH]; intros h H He; simpl in *.
  - injection H as <-. now rewrite He.
  - unfold bindr in *. destruct (UserMetadata.upload_entry p0) as [e0|]; [|discriminate].
    destruct (UserMetadata.upload_history ps) as [h'|]; [|discriminate].
    injection H as <-. now rewrite (IH h' eq_refl He).
Qed.

Lemma any_product_total (id : value) (ps : list dict) :
  (forall p, In p ps -> exists v, Py.lookup p "productId" = Some v) ->
  exists b, UserMetadata.any_product id ps = Ok b.
Proof.
  induction ps as [|p ps IH]; intros H; [now exists false|].
  simpl. unfold bindr, Py.getitem.
  destruct (H p (or_introl eq_refl)) as [v ->].
  destruct (Py.eq v id); [now exists true|].
  apply IH. intros q Hq. apply H. now right.
Qed.

Lemma user_scans_total (ps ss : list dict) :
  (forall p, In p ps -> exists v, Py.lookup p "productId" = Some v) ->
  exists l, UserMetadata.user_scans ps ss = Ok l.
Proof.
  intros H. induction ss as [|s ss [l IH]]; [now exists []|].
  simpl. destruct (any_product_total (Py.get s "batchId") ps H) as [b ->].
  rewrite IH. unfold bindr. eexists. reflexivity.
Qed.

(** What the registration steps add to [products.json]. *)
Lemma upload_file_row (req : App.upload_request) (w w' : World) (reg : App.registration)
    (user : dict) :
  App.upload_file req w = (Ok (inr reg), w') ->
  App.u_user req = Some user ->
  exists (row : dict) (uid name created : value),
    products (products_file w') = products (products_file w) ++ [row]
    /\ scans_file w' = scans_file w
    /\ Py.lookup user "id" = Some uid
    /\ Py.lookup row "userId" = Some uid
    /\ Py.lookup row "productId" = Some (VStr (App.r_batchId reg))
    /\ Py.lookup row "batchName" = Some name
    /\ Py.lookup row "createdAt" = Some created
    /\ Py.lookup row "fileHash" = Some (VStr (App.r_fileHash reg))
    /\ Py.lookup row "txHash" = Some (VStr (App.r_txHash reg)).
Proof.
  unfold App.upload_file. intros H Hu. rewrite Hu in H.
  destruct (App.u_file req) as [file|]; [|discriminate].
  destruct (String.eqb (App.filename file) ""); [discriminate|].
  destruct (App.u_productId req) as [pid|]; [|discriminate].
  destruct (String.eqb_spec pid "") as [->|Hpid]; [discriminate|].
  rewrite (truthy_opt_some _ Hpid) in H. cbn [negb] in H.
  revert H. run_monad. unfold Py.getitem.
  destruct (Py.lookup user "id") as [uid|]; [|discriminate].
  destruct (Py.lookup user "email") as [email|]; [|discriminate].
  run_monad. rewrite store_batch_run. run_monad.
  intros H. injection H as <- <-.
  cbn [products_file scans_file products App.r_batchId App.r_fileHash App.r_txHash].
  eexists _, uid, _, _. split; [reflexivity|]. split; [reflexivity|].
  split; [reflexivity|].
  unfold product_row, App.batch_data_of, Py.get, Py.display.
  rewrite !lookup_update. cbn [Py.last_binding String.eqb Ascii.eqb Bool.eqb].
  rewrite ?lookup_update. cbn [Py.last_binding String.eqb Ascii.eqb Bool.eqb].
  repeat split; reflexivity.
Qed.

(** A registration shows in the metadata of the uploader. When the
    registration steps succeed for a user whose id is an integer, and
    [get_user_metadata] answered for that id before, it answers after:
    [totalUploads] is one more, and [uploadHistory] has one more entry, at
    its end, with the product id, content hash and anchor reference that
    the registration reported. *)
Theorem registration_shows_in_user_metadata :
  forall (req : App.upload_request) (w w' : World) (reg : App.registration)
         (user : dict) (uid : Z) (before : dict),
    App.upload_file req w = (Ok (inr reg), w') ->
    App.u_user req = Some user -> Py.lookup user "id" = Some (VInt uid) ->
    fst (UserMetadata.get_user_metadata (VInt uid) w) = Ok before ->
    exists (after_ entry : dict) (uploads_before : nat) (history : list value),
      fst (UserMetadata.get_user_metadata (VInt uid) w') = Ok after_
      /\ Py.lookup before "totalUploads" = Some (VInt (Z.of_nat uploads_before))
      /\ Py.lookup after_ "totalUploads" = Some (VInt (Z.of_nat uploads_before + 1))
      /\ Py.lookup before "uploadHistory" = Some (VList history)
      /\ Py.lookup after_ "uploadHistory" = Some (VList (history ++ [VDict entry]))
      /\ Py.lookup entry "productId" = Some (VStr (App.r_batchId reg))
      /\ Py.lookup entry "fileHash" = Some (VStr (App.r_fileHash reg))
      /\ Py.lookup entry "txHash" = Some (VStr (App.r_txHash reg)).
Proof.
  intros req w w' reg user uid before Hup Hu Hid Hbefore.
  destruct (upload_file_row req w w' reg user Hup Hu)
    as [row [uid' [name [created [Hps [Hss [Hid' [Lu [Lp [Ln [Lc [Lh Lt]]]]]]]]]]]].
  rewrite Hid in Hid'. injection Hid' as <-.
  rewrite get_user_metadata_run in *. cbn [fst] in *. cbv zeta in *.
  assert (Hmine : Py.eq (Py.get row "userId") (VInt uid) = true)
    by (unfold Py.get; rewrite Lu; cbn [Py.eq Py.num]; apply Z.eqb_refl).
  rewrite Hps, Hss, filter_app. cbn [filter]. rewrite Hmine.
  set (own := filter (fun p => Py.eq (Py.get p "userId") (VInt uid))
                     (products (products_file w))) in *.
  unfold bindr in Hbefore.
  destruct (UserMetadata.user_scans own (scans (scans_file w))) as [ss|]; [|discriminate].
  destruct (UserMetadata.upload_history own) as [h|] eqn:Hh; [|discriminate].
  injection Hbefore as <-.
  set (entry := Py.display
                  [ ("productId", VStr (App.r_batchId reg)); ("batchName", name);
                    ("uploadedAt", created); ("fileHash", VStr (App.r_fileHash reg));
                    ("txHash", VStr (App.r_txHash reg)) ]).
  assert (He : UserMetadata.upload_entry row = Ok (VDict entry)).
  { unfold UserMetadata.upload_entry, bindr, Py.getitem. now rewrite Lp, Ln, Lc, Lh, Lt. }
  assert (Hkeys : forall p, In p (own ++ [row]) ->
                            exists v, Py.lookup p "productId" = Some v).
  { intros p Hin. apply in_app_or in Hin. destruct Hin as [Hin|[<-|[]]].
    - exact (upload_history_keys own h Hh p Hin).
    - exists (VStr (App.r_batchId reg)). exact Lp. }
  destruct (user_scans_total (own ++ [row]) (scans (scans_file w)) Hkeys) as [ss' ->].
  unfold bindr. rewrite (upload_history_snoc own row h (VDict entry) Hh He).
  eexists _, entry, (List.length own), h. split; [reflexivity|].
  unfold Py.display, len. rewrite !lookup_update.
  cbn [Py.last_binding String.eqb Ascii.eqb Bool.eqb].
  rewrite length_app. cbn [List.length].
  repeat split. do 2 f_equal. lia.
Qed.

Lemma eq_string_inv (v : value) (s : string) : Py.eq v (VStr s) = true -> v = VStr s.
Proof.
  destruct v as [| b | n | t | l | d]; cbn [Py.eq Py.num]; try discriminate.
  intros H. apply String.eqb_eq in H. now subst.
Qed.

Lemma user_scans_nil (ss : list dict) : UserMetadata.user_scans [] ss = Ok [].
Proof. induction ss as [|s ss IH]; simpl; [reflexivity | now rewrite IH]. Qed.

(** The metadata of the current user, asked with the identity of a token.
    The identity of a token is a string; [get_user_products] compares it
    with the [userId] of each product row by [==]. Where no row holds a
    string as [userId] (registration stores the [id] of the user, an
    integer), the endpoint answers 200 with no upload, no scan and an
    empty history, whatever the user has registered. *)
Theorem current_user_metadata_is_empty :
  forall (identity : string) (w : World),
    (forall p, In p (products (products_file w)) ->
               forall t, Py.get p "userId" <> VStr t) ->
    UserMetadata.get_current_user_metadata (VStr identity) w
    = (Response 200
         (Py.display
            [ ("success", VBool true);
              ("userMetadata",
               VDict (Py.display
                        [ ("userId", VStr identity);
                          ("totalUploads", VInt 0);
                          ("totalScans", VInt 0);
                          ("products", VList []);
                          ("recentActivity", VList []);
                          ("uploadHistory", VList []) ])) ]), w).
Proof.
  intros identity w H.
  assert (E : filter (fun p => Py.eq (Py.get p "userId") (VStr identity))
                     (products (products_file w)) = []).
  { induction (products (products_file w)) as [|p ps IH]; [reflexivity|].
    simpl. destruct (Py.eq (Py.get p "userId") (VStr identity)) eqn:Hp.
    - apply eq_string_inv in Hp. exfalso. exact (H p (or_introl eq_refl) identity Hp).
    - apply IH. intros q Hq. apply H. now right. }
  unfold UserMetadata.get_current_user_metadata, App.handle, bind.
  rewrite get_user_metadata_run. cbv zeta. rewrite E, user_scans_nil. reflexivity.
Qed.

(** ** Users *)

Lemma delitem_other (d r : dict) (k k' : string) :
  AuthService.delitem d k = Ok r -> k' <> k -> Py.lookup r k' = Py.lookup d k'.
Proof.
  revert r. induction d as [|[k0 v0] d IH]; intros r; simpl; [discriminate|].
  destruct (String.eqb_spec k0 k) as [->|Hk].
  - intros H Hne. injection H as <-.
    destruct (String.eqb_spec k k'); [congruence | reflexivity].
  - destruct (AuthService.delitem d k) as [r'|]; [|discriminate].
    intros H Hne. injection H as <-. simpl.
    destruct (String.eqb k0 k'); [reflexivity | now apply IH].
Qed.

Lemma lookup_not_in (d : dict) (k : string) :
  ~ In k (map fst d) -> Py.lookup d k = None.
Proof.
  induction d as [|[k0 v0] d IH]; simpl; [reflexivity|].
  intros H. destruct (String.eqb_spec k0 k) as [->|_]; [tauto|]. apply IH. tauto.
Qed.

Lemma delitem_gone (d r : dict) (k : string) :
  NoDup (map fst d) -> AuthService.delitem d k = Ok r -> Py.lookup r k = None.
Proof.
  revert r. induction d as [|[k0 v0] d IH]; intros r Hnd; simpl; [discriminate|].
  inversion Hnd as [|? ? Hn Hd]; subst.
  destruct (String.eqb_spec k0 k) as [->|Hk].
  - intros H. injection H as <-. now apply lookup_not_in.
  - destruct (AuthService.delitem d k) as [r'|] eqn:E; [|discriminate].
    intros H. injection H as <-. simpl.
    destruct (String.eqb_spec k0 k); [contradiction|]. now apply IH.
Qed.

Lemma delitem_present (d : dict) (k : string) (v : value) :
  Py.lookup d k = Some v -> exists r, AuthService.delitem d k = Ok r.
Proof.
  induction d as [|[k0 v0] d IH]; simpl; [discriminate|].
  destruct (String.eqb k0 k); [intros _; now eexists|].
  intros H. destruct (IH H) as [r ->]. now eexists.
Qed.

Lemma delitem_absent (d : dict) (k : string) :
  Py.lookup d k = None -> AuthService.delitem d k = Raise (KeyError k).
Proof.
  induction d as [|[k0 v0] d IH]; simpl; [reflexivity|].
  destruct (String.eqb k0 k); [discriminate|]. intros H. now rewrite IH.
Qed.

(** The users that the loop passes over: each holds [key], with a value
    that is not the one asked for. *)
Lemma get_user_by_skip (key : string) (v : value) (before rest : list dict) :
  (forall u, In u before -> exists y, Py.lookup u key = Some y /\ Py.eq y v = false) ->
  AuthService.get_user_by key v (before ++ rest) = AuthService.get_user_by key v rest.
Proof.
  induction before as [|u before IH]; intros H; [reflexivity|].
  destruct (H u (or_introl eq_refl)) as [y [L E]].
  cbn [app AuthService.get_user_by]. unfold bindr, Py.getitem. rewrite L, E.
  apply IH. intros u' Hu'. apply H. now right.
Qed.

(** What [get_user_by_id] and [get_user_by_email] hand out. The user they
    return is the first stored user whose id, or email, equals the one
    asked for: every user stored before it holds another one. The result
    has every entry of that stored user apart from the password; for a
    stored user with distinct keys it holds no ["password"]. They return
    [None] only when no stored user matches. Conversely the first stored
    match decides the answer, wherever it stands: it is handed out
    without its password, and when it has no password the lookup raises
    [KeyError]. *)
Theorem get_user_hides_the_password :
  forall (key : string) (v : value) (us : list dict),
    (forall r, AuthService.get_user_by key v us = Ok (Some r) ->
       exists (before : list dict) (stored : dict) (rest : list dict) (x : value),
         us = before ++ stored :: rest
         /\ (forall u, In u before ->
               exists y, Py.lookup u key = Some y /\ Py.eq y v = false)
         /\ Py.lookup stored key = Some x /\ Py.eq x v = true
         /\ (forall k, k <> "password" -> Py.lookup r k = Py.lookup stored k)
         /\ (NoDup (map fst stored) -> Py.lookup r "password" = None))
    /\ (AuthService.get_user_by key v us = Ok None ->
        forall stored x, In stored us -> Py.lookup stored key = Some x ->
                         Py.eq x v = false)
    /\ (forall (before : list dict) (stored : dict) (rest : list dict) (x : value),
          us = before ++ stored :: rest ->
          (forall u, In u before ->
             exists y, Py.lookup u key = Some y /\ Py.eq y v = false) ->
          Py.lookup stored key = Some x -> Py.eq x v = true ->
          (Py.lookup stored "password" = None ->
           AuthService.get_user_by key v us = Raise (KeyError "password"))
          /\ (forall pw, Py.lookup stored "password" = Some pw ->
                exists r,
                  AuthService.get_user_by key v us = Ok (Some r)
                  /\ (forall k, k <> "password" -> Py.lookup r k = Py.lookup stored k)
                  /\ (NoDup (map fst stored) -> Py.lookup r "password" = None))).
Proof.
  intros key v us. split; [|split].
  - induction us as [|u us IH]; intros r; simpl; [discriminate|].
    unfold bindr, Py.getitem.
    destruct (Py.lookup u key) as [x|] eqn:L; [|discriminate].
    destruct (Py.eq x v) eqn:E.
    + unfold AuthService.user_response.
      destruct (AuthService.delitem u "password") as [r'|] eqn:D; [|discriminate].
      intros H. injection H as <-. exists [], u, us, x.
      split; [reflexivity|]. split; [intros u' []|].
      split; [exact L|]. split; [exact E|]. split.
      * intros k Hk. now apply (delitem_other u r' "password").
      * intros Hnd. now apply (delitem_gone u).
    + intros H. destruct (IH r H) as [before [stored [rest [x' [Hus [Hb Hrest]]]]]].
      exists (u :: before), stored, rest, x'.
      split; [cbn [app]; now rewrite Hus|]. split; [|exact Hrest].
      intros u' [<-|Hu']; [now exists x | now apply Hb].
  - induction us as [|u us IH]; simpl; [intros _ stored x []|].
    unfold bindr, Py.getitem.
    destruct (Py.lookup u key) as [x0|] eqn:L; [|discriminate].
    destruct (Py.eq x0 v) eqn:E.
    + destruct (AuthService.user_response u); discriminate.
    + intros H stored x [<-|Hin] Hx.
      * rewrite L in Hx. now injection Hx as <-.
      * now apply (IH H stored x).
  - intros before stored rest x -> Hb L E.
    rewrite (get_user_by_skip key v before (stored :: rest) Hb).
    cbn [AuthService.get_user_by]. unfold bindr, Py.getitem. rewrite L, E.
    unfold AuthService.user_response. split.
    + intros Hp. now rewrite (delitem_absent _ _ Hp).
    + intros pw Hp. destruct (delitem_present _ _ _ Hp) as [r D]. rewrite D.
      exists r. split; [reflexivity|]. split.
      * intros k Hk. now apply (delitem_other stored r "password").
      * intros Hnd. now apply (delitem_gone stored).
Qed.

Lemma get_user_by_email_app (email : string) (us : list dict) (user : dict) :
  AuthService.email_taken email us = Ok false ->
  AuthService.get_user_by "email" (VStr email) (us ++ [user])
  = AuthService.get_user_by "email" (VStr email) [user].
Proof.
  induction us as [|u us IH]; [reflexivity|]. simpl. unfold bindr.
  destruct (Py.getitem u "email") as [e|]; [|discriminate].
  destruct (Py.eq e (VStr email)); [discriminate | exact IH].
Qed.

(** Registration of a user. When a stored user has the email,
    [register_user] refuses and leaves the users as they were. Otherwise
    it appends one user, numbered one above the counter, which it
    advances; the stored user holds the password hash, the user it
    answers with does not; and [get_user_by_email] then returns exactly
    the user that the registration answered with. *)
Theorem register_user_then_get_user_by_email :
  forall (email password_hash full_name role company_name : string)
         (created joined : datetime) (d : AuthService.users_doc),
    let run := AuthService.register_user email password_hash full_name role company_name
                                         created joined d in
    match AuthService.email_taken email (AuthService.users d) with
    | Ok true =>
        run = (Ok (Py.display [ ("success", VBool false);
                                ("error", VStr "User already exists") ]), d)
    | Ok false =>
        exists (stored answered : dict),
          fst run = Ok (Py.display [ ("success", VBool true); ("user", VDict answered) ])
          /\ AuthService.users (snd run) = AuthService.users d ++ [stored]
          /\ AuthService.lastUserId (snd run) = AuthService.lastUserId d + 1
          /\ Py.lookup stored "id" = Some (VInt (AuthService.lastUserId d + 1))
          /\ Py.lookup stored "password" = Some (VStr password_hash)
          /\ Py.lookup answered "password" = None
          /\ (forall k, k <> "password" -> Py.lookup answered k = Py.lookup stored k)
          /\ Py.lookup answered "email" = Some (VStr email)
          /\ Py.lookup answered "role" = Some (VStr role)
          /\ AuthService.get_user_by_email (VStr email) (snd run) = Ok (Some answered)
          /\ AuthService.email_taken email (AuthService.users (snd run)) = Ok true
    | Raise e => run = (Raise e, d)
    end.
Proof.
  intros email password_hash full_name role company_name created joined d run.
  subst run. unfold AuthService.register_user.
  destruct (AuthService.email_taken email (AuthService.users d)) as [[|]|e] eqn:Ht;
    try reflexivity.
  set (stored := AuthService.new_user d email password_hash full_name role company_name
                                      created joined).
  assert (Hnd : NoDup (map fst stored)).
  { unfold stored, AuthService.new_user, Py.display, Py.update. cbn.
    repeat constructor; simpl; intuition discriminate. }
  assert (Lp : Py.lookup stored "password" = Some (VStr password_hash)).
  { unfold stored, AuthService.new_user, Py.display. now rewrite lookup_update. }
  assert (Le : Py.lookup stored "email" = Some (VStr email)).
  { unfold stored, AuthService.new_user, Py.display. now rewrite lookup_update. }
  destruct (delitem_present stored "password" _ Lp) as [answered Hd].
  cbn [fst snd AuthService.users AuthService.lastUserId].
  unfold AuthService.user_response. rewrite Hd. cbn [bindr].
  exists stored, answered.
  assert (Hk : forall k, k <> "password" -> Py.lookup answered k = Py.lookup stored k)
    by (intros k Hk; now apply (delitem_other stored answered "password")).
  split; [reflexivity|]. split; [reflexivity|]. split; [reflexivity|].
  split; [unfold stored, AuthService.new_user, Py.display; now rewrite lookup_update|].
  split; [exact Lp|].
  split; [now apply (delitem_gone stored)|].
  split; [exact Hk|].
  split; [rewrite Hk by discriminate; exact Le|].
  split.
  { rewrite Hk by discriminate.
    unfold stored, AuthService.new_user, Py.display. now rewrite lookup_update. }
  split.
  - unfold AuthService.get_user_by_email. cbn [AuthService.users].
    rewrite (get_user_by_email_app email _ stored Ht). cbn [AuthService.get_user_by].
    unfold bindr, Py.getitem. rewrite Le. cbn [Py.eq]. rewrite String.eqb_refl.
    unfold AuthService.user_response. now rewrite Hd.
  - clear - Ht Le. induction (AuthService.users d) as [|u us IH].
    + cbn [app AuthService.email_taken]. unfold bindr, Py.getitem. rewrite Le.
      cbn [Py.eq]. now rewrite String.eqb_refl.
    + cbn [app AuthService.email_taken] in *. unfold bindr in *.
      destruct (Py.getitem u "email") as [e|]; [|discriminate].
      destruct (Py.eq e (VStr email)); [discriminate | now apply IH].
Qed.

Lemma get_user_by_id_string (identity : string) (us : list dict) :
  (forall u, In u us -> exists n, Py.lookup u "id" = Some (VInt n)) ->
  AuthService.get_user_by "id" (VStr identity) us = Ok None.
Proof.
  induction us as [|u us IH]; intros H; [reflexivity|].
  cbn [AuthService.get_user_by]. unfold bindr, Py.getitem.
  destruct (H u (or_introl eq_refl)) as [n ->]. cbn [Py.eq Py.num].
  apply IH. intros u' Hu'. apply H. now right.
Qed.

(** The metadata of a user by id, asked with the identity of a token. The
    identity of a token is a string and the ids of the stored users are
    integers, so [get_user_by_id] finds nobody and the identity differs
    from the integer of the URL: for every token, every user id and every
    world the endpoint answers with the error of [None.get('role')], and
    never with 200 or 403. *)
Theorem user_metadata_route_fails_for_token_identity :
  forall (users_data : AuthService.users_doc) (identity : string) (user_id : Z) (w : World),
    (forall u, In u (AuthService.users users_data) ->
               exists n, Py.lookup u "id" = Some (VInt n)) ->
    UserMetadata.get_user_metadata_route users_data (VStr identity) user_id w
    = (InternalError AttributeError, w).
Proof.
  intros users_data identity user_id w H.
  unfold UserMetadata.get_user_metadata_route, AuthService.get_user_by_id. run_monad.
  now rewrite (get_user_by_id_string identity _ H).
Qed.

(** ** The manufacturer dashboard, over any store *)

(** The entries collected so far are as many as were counted. *)
Lemma count_scan_recent (scan entry : dict) (a a' : acc) :
  count_scan scan entry a = Ok a' -> recent_scans a' = recent_scans a ++ [entry].
Proof.
  unfold count_scan, bindr.
  destruct (if Py.truthy (Py.get scan "supplierName") then _ else _) as [s|];
    [|discriminate].
  intros H. now injection H as <-.
Qed.

Lemma legacy_scans_balance (batch : dict) (l : list value) (a a' : acc) :
  legacy_scans batch l a = Ok a' ->
  total_scans a' - Z.of_nat (List.length (recent_scans a'))
  = total_scans a - Z.of_nat (List.length (recent_scans a)).
Proof.
  revert a. induction l as [|v l IH]; intros a; simpl.
  - intros H. now injection H as <-.
  - destruct v as [| | | | |scan]; try discriminate.
    unfold bindr. destruct (Py.getitem batch "batchId") as [id|]; [|discriminate].
    destruct (count_scan _ _ a) as [a1|] eqn:Hc; [|discriminate].
    intros H. rewrite (IH _ H).
    destruct (count_scan_total _ _ _ _ Hc) as [Ht _].
    rewrite Ht, (count_scan_recent _ _ _ _ Hc), length_app. simpl List.length. lia.
Qed.

Lemma own_batches_shape (user_id : Z) (bs : list dict) (a a' : acc) :
  own_batches user_id bs a = Ok a' ->
  manufacturer_batches a'
  = manufacturer_batches a
    ++ filter (fun batch => Py.str_eq_int (Py.get batch "userId") user_id) bs
  /\ total_scans a' - Z.of_nat (List.length (recent_scans a'))
     = total_scans a - Z.of_nat (List.length (recent_scans a)).
Proof.
  revert a. induction bs as [|batch bs IH]; intros a; simpl.
  - intros H. injection H as <-. now rewrite app_nil_r.
  - destruct (Py.str_eq_int (Py.get batch "userId") user_id); [|apply IH].
    unfold bindr.
    destruct (Py.set_add _ _) as [ids|]; [|discriminate].
    destruct (iterate _) as [l|]; [|discriminate].
    destruct (legacy_scans batch l _) as [a1|] eqn:Hl; [|discriminate].
    intros H. destruct (IH _ H) as [Hb Ht].
    destruct (legacy_scans_total _ _ _ _ Hl) as [_ [_ Hb1]].
    pose proof (legacy_scans_balance _ _ _ _ Hl) as Ht1.
    cbn [manufacturer_batches total_scans recent_scans] in *.
    rewrite Hb, Hb1, <- app_assoc. split; [reflexivity | lia].
Qed.

Lemma own_products_shape (user_id : Z) (ps : list dict) (a a' : acc) :
  own_products user_id ps a = Ok a' ->
  manufacturer_batches a' = manufacturer_batches a
  /\ recent_scans a' = recent_scans a
  /\ total_scans a' = total_scans a
  /\ unique_suppliers a' = unique_suppliers a.
Proof.
  revert a. induction ps as [|p ps IH]; intros a; simpl.
  - intros H. now injection H as <-.
  - destruct (Py.str_eq_int (Py.get p "userId") user_id); [|apply IH].
    unfold bindr. destruct (Py.set_add _ _) as [ids|]; [|discriminate].
    intros H. destruct (IH _ H) as [H1 [H2 [H3 H4]]]. now repeat split.
Qed.

Lemma file_scans_shape (user_name : string) (ps ss : list dict) (a a' : acc) :
  file_scans user_name ps ss a = Ok a' ->
  manufacturer_batches a' = manufacturer_batches a
  /\ total_scans a' - Z.of_nat (List.length (recent_scans a'))
     = total_scans a - Z.of_nat (List.length (recent_scans a)).
Proof.
  revert a. induction ss as [|scan ss IH]; intros a; simpl.
  - intros H. now injection H as <-.
  - unfold bindr, in_set.
    destruct (Py.hashable (Py.get scan "batchId")); [|discriminate].
    destruct (Py.set_mem (Py.get scan "batchId") (manufacturer_batch_ids a)); [|apply IH].
    destruct (count_scan _ _ a) as [a1|] eqn:Hc; [|discriminate].
    intros H. destruct (IH _ H) as [Hb Ht].
    destruct (count_scan_total _ _ _ _ Hc) as [Ht1 [_ Hb1]].
    rewrite Hb, Hb1. split; [reflexivity|].
    rewrite Ht, Ht1, (count_scan_recent _ _ _ _ Hc), length_app. simpl List.length. lia.
Qed.

Lemma sort_newest_first_perm (l sorted : list dict) :
  sort_newest_first l = Ok sorted ->
  Permutation sorted l /\ Sorted newer_or_equal sorted.
Proof.
  unfold sort_newest_first. destruct l as [|x [|y l]].
  - intros H. injection H as <-. split; [reflexivity | constructor].
  - intros H. injection H as <-. split; [reflexivity | repeat constructor].
  - destruct (forallb _ _); [|discriminate]. intros H. injection H as <-.
    split; [apply (sort_desc_perm (x :: y :: l)) | apply (sort_desc_sorted (x :: y :: l))].
Qed.

(** The lists and the counts of the manufacturer dashboard agree.
    Whenever the dashboard is produced, over any three files, [batches]
    are the stored batches whose [userId] prints like the id of the user,
    in stored order, and [totalBatches] is their number; [allScans] is
    ordered newest first, [totalScans] is its length, and [recentScans]
    is its first ten entries. *)
Theorem manufacturer_dashboard_lists_agree_with_counts :
  forall (user_id : Z) (user_name : string)
         (b : batches_doc) (s : scans_doc) (p : products_doc) (d : dict),
    _get_manufacturer_dashboard user_id user_name b s p = Ok d ->
    exists (own sorted : list dict),
      own = filter (fun batch => Py.str_eq_int (Py.get batch "userId") user_id) (batches b)
      /\ Py.lookup d "batches" = Some (VList (map VDict own))
      /\ Py.lookup d "totalBatches" = Some (VInt (Z.of_nat (List.length own)))
      /\ Py.lookup d "allScans" = Some (VList (map VDict sorted))
      /\ Py.lookup d "totalScans" = Some (VInt (Z.of_nat (List.length sorted)))
      /\ Py.lookup d "recentScans" = Some (VList (map VDict (firstn 10 sorted)))
      /\ (List.length (firstn 10 sorted) <= 10)%nat
      /\ Sorted newer_or_equal sorted.
Proof.
  intros user_id user_name b s p d.
  unfold _get_manufacturer_dashboard, bindr.
  destruct (own_batches _ _ _) as [a1|] eqn:H1; [|discriminate].
  destruct (own_products _ _ _) as [a2|] eqn:H2; [|discriminate].
  destruct (file_scans _ _ _ _) as [a3|] eqn:H3; [|discriminate].
  destruct (sort_newest_first _) as [sorted|] eqn:Hs; [|discriminate].
  intros H. injection H as <-.
  destruct (own_batches_shape _ _ _ _ H1) as [B1 T1].
  destruct (own_products_shape _ _ _ _ H2) as [B2 [R2 [T2 _]]].
  destruct (file_scans_shape _ _ _ _ _ H3) as [B3 T3].
  destruct (sort_newest_first_perm _ _ Hs) as [Hperm Hsorted].
  cbn [manufacturer_batches total_scans recent_scans List.length] in *.
  exists (manufacturer_batches a3), sorted.
  split; [now rewrite B3, B2, B1|].
  unfold Py.display, len. rewrite !lookup_update.
  cbn [Py.last_binding String.eqb Ascii.eqb Bool.eqb].
  do 3 (split; [reflexivity|]).
  split.
  { do 2 f_equal. rewrite (Permutation_length Hperm). rewrite R2, T2 in T3. lia. }
  split; [reflexivity|]. split; [apply firstn_le_length | exact Hsorted].
Qed.

(** *** Each recorded scan is counted twice *)

Lemma set_add_mem_mono (x y : value) (s s' : list value) :
  Py.set_add y s = Ok s' -> Py.set_mem x s = true -> Py.set_mem x s' = true.
Proof.
  unfold Py.set_add. destruct (Py.hashable y); [|discriminate].
  intros H Hx. injection H as <-. destruct (Py.set_mem y s); [exact Hx|].
  unfold Py.set_mem in *. rewrite existsb_app, Hx. reflexivity.
Qed.

Lemma set_add_mem_string (t : string) (s s' : list value) :
  Py.set_add (VStr t) s = Ok s' -> Py.set_mem (VStr t) s' = true.
Proof.
  unfold Py.set_add. cbn [Py.hashable]. intros H. injection H as <-.
  destruct (Py.set_mem (VStr t) s) eqn:E; [exact E|].
  unfold Py.set_mem. rewrite existsb_app. cbn [existsb Py.eq].
  rewrite String.eqb_refl. now rewrite orb_true_r.
Qed.

Lemma own_batches_ids_congr (user_id : Z) (bs : list dict) (a b a1 b1 : acc) :
  own_batches user_id bs a = Ok a1 -> own_batches user_id bs b = Ok b1 ->
  manufacturer_batch_ids a = manufacturer_batch_ids b ->
  manufacturer_batch_ids a1 = manufacturer_batch_ids b1.
Proof.
  revert a b. induction bs as [|batch bs IH]; intros a b; simpl.
  - intros Ha Hb. injection Ha as <-. now injection Hb as <-.
  - destruct (Py.str_eq_int (Py.get batch "userId") user_id); [|apply IH].
    unfold bindr. intros Ha Hb E. rewrite E in Ha.
    destruct (Py.set_add _ _) as [ids|]; [|discriminate].
    destruct (iterate _) as [l|]; [|discriminate].
    destruct (legacy_scans batch l {| manufacturer_batches := manufacturer_batches a ++ _ |})
      as [a'|] eqn:La; [|discriminate].
    destruct (legacy_scans batch l {| manufacturer_batches := manufacturer_batches b ++ _ |})
      as [b'|] eqn:Lb; [|discriminate].
    apply (IH a' b' Ha Hb).
    destruct (legacy_scans_total _ _ _ _ La) as [_ [-> _]].
    destruct (legacy_scans_total _ _ _ _ Lb) as [_ [-> _]]. reflexivity.
Qed.

Lemma own_batches_ids_replace (user_id : Z) (bs bs' : list dict) (id : value)
    (batch batch' : dict) (a b a1 b1 : acc) :
  find_batch bs id = Ok (Some batch) -> replace_batch bs id batch' = Ok bs' ->
  Py.get batch' "batchId" = Py.get batch "batchId" ->
  Py.get batch' "userId" = Py.get batch "userId" ->
  own_batches user_id bs a = Ok a1 -> own_batches user_id bs' b = Ok b1 ->
  manufacturer_batch_ids a = manufacturer_batch_ids b ->
  manufacturer_batch_ids a1 = manufacturer_batch_ids b1.
Proof.
  intros Hf Hr Hid Hu. revert bs' a b Hf Hr.
  induction bs as [|b0 bs IH]; intros bs' a b Hf Hr; simpl in Hf, Hr; [discriminate|].
  destruct (Py.getitem b0 "batchId") as [v|]; [|discriminate].
  destruct (Py.eq v id).
  - injection Hf as ->. injection Hr as <-. simpl. rewrite Hu.
    destruct (Py.str_eq_int (Py.get batch "userId") user_id);
      [|apply own_batches_ids_congr].
    unfold bindr. rewrite Hid. intros Ha Hb E. rewrite E in Ha.
    destruct (Py.set_add _ _) as [ids|]; [|discriminate].
    destruct (iterate (Py.get_default batch "scans" (VList []))) as [l|]; [|discriminate].
    destruct (iterate (Py.get_default batch' "scans" (VList []))) as [l'|]; [|discriminate].
    destruct (legacy_scans batch l _) as [a'|] eqn:La; [|discriminate].
    destruct (legacy_scans batch' l' _) as [b'|] eqn:Lb; [|discriminate].
    apply (own_batches_ids_congr user_id bs a' b' a1 b1 Ha Hb).
    destruct (legacy_scans_total _ _ _ _ La) as [_ [-> _]].
    destruct (legacy_scans_total _ _ _ _ Lb) as [_ [-> _]]. reflexivity.
  - destruct (replace_batch bs id batch') as [r|] eqn:Hrep; [|discriminate].
    injection Hr as <-. simpl.
    destruct (Py.str_eq_int (Py.get b0 "userId") user_id);
      [|now apply IH].
    unfold bindr. intros Ha Hb E. rewrite E in Ha.
    destruct (Py.set_add _ _) as [ids|]; [|discriminate].
    destruct (iterate _) as [l|]; [|discriminate].
    destruct (legacy_scans b0 l {| manufacturer_batches := manufacturer_batches a ++ _ |})
      as [a'|] eqn:La; [|discriminate].
    destruct (legacy_scans b0 l {| manufacturer_batches := manufacturer_batches b ++ _ |})
      as [b'|] eqn:Lb; [|discriminate].
    apply (IH r a' b' Hf eq_refl Ha Hb).
    destruct (legacy_scans_total _ _ _ _ La) as [_ [-> _]].
    destruct (legacy_scans_total _ _ _ _ Lb) as [_ [-> _]]. reflexivity.
Qed.

Lemma own_products_ids_congr (user_id : Z) (ps : list dict) (a b a2 b2 : acc) :
  own_products user_id ps a = Ok a2 -> own_products user_id ps b = Ok b2 ->
  manufacturer_batch_ids a = manufacturer_batch_ids b ->
  manufacturer_batch_ids a2 = manufacturer_batch_ids b2.
Proof.
  revert a b. induction ps as [|p ps IH]; intros a b; simpl.
  - intros Ha Hb. injection Ha as <-. now injection Hb as <-.
  - destruct (Py.str_eq_int (Py.get p "userId") user_id); [|apply IH].
    unfold bindr. intros Ha Hb E. rewrite E in Ha.
    destruct (Py.set_add _ _) as [ids|]; [|discriminate].
    now apply (IH _ _ Ha Hb).
Qed.

Lemma own_batches_mem_mono (user_id : Z) (x : value) (bs : list dict) (a a1 : acc) :
  own_batches user_id bs a = Ok a1 ->
  Py.set_mem x (manufacturer_batch_ids a) = true ->
  Py.set_mem x (manufacturer_batch_ids a1) = true.
Proof.
  revert a. induction bs as [|batch bs IH]; intros a; simpl.
  - intros H. now injection H as <-.
  - destruct (Py.str_eq_int (Py.get batch "userId") user_id); [|apply IH].
    unfold bindr. destruct (Py.set_add _ _) as [ids|] eqn:Hs; [|discriminate].
    destruct (iterate _) as [l|]; [|discriminate].
    destruct (legacy_scans batch l _) as [a'|] eqn:La; [|discriminate].
    intros H Hx. apply (IH a' H).
    destruct (legacy_scans_total _ _ _ _ La) as [_ [-> _]].
    cbn [manufacturer_batch_ids]. exact (set_add_mem_mono _ _ _ _ Hs Hx).
Qed.

Lemma own_batches_mem (user_id : Z) (t : string) (bs : list dict) (batch : dict)
    (a a1 : acc) :
  In batch bs -> Py.str_eq_int (Py.get batch "userId") user_id = true ->
  Py.get batch "batchId" = VStr t ->
  own_batches user_id bs a = Ok a1 ->
  Py.set_mem (VStr t) (manufacturer_batch_ids a1) = true.
Proof.
  intros Hin Hown Hid. revert a. induction bs as [|b0 bs IH]; intros a; [destruct Hin|].
  simpl. destruct Hin as [->|Hin].
  - rewrite Hown, Hid. unfold bindr.
    destruct (Py.set_add _ _) as [ids|] eqn:Hs; [|discriminate].
    destruct (iterate _) as [l|]; [|discriminate].
    destruct (legacy_scans batch l _) as [a'|] eqn:La; [|discriminate].
    intros H. apply (own_batches_mem_mono _ _ _ _ _ H).
    destruct (legacy_scans_total _ _ _ _ La) as [_ [-> _]].
    cbn [manufacturer_batch_ids]. exact (set_add_mem_string _ _ _ Hs).
  - destruct (Py.str_eq_int (Py.get b0 "userId") user_id); [|now apply IH].
    unfold bindr. destruct (Py.set_add _ _) as [ids|]; [|discriminate].
    destruct (iterate _) as [l|]; [|discriminate].
    destruct (legacy_scans b0 l _) as [a'|]; [|discriminate].
    now apply IH.
Qed.

Lemma own_products_mem_mono (user_id : Z) (x : value) (ps : list dict) (a a2 : acc) :
  own_products user_id ps a = Ok a2 ->
  Py.set_mem x (manufacturer_batch_ids a) = true ->
  Py.set_mem x (manufacturer_batch_ids a2) = true.
Proof.
  revert a. induction ps as [|p ps IH]; intros a; simpl.
  - intros H. now injection H as <-.
  - destruct (Py.str_eq_int (Py.get p "userId") user_id); [|apply IH].
    unfold bindr. destruct (Py.set_add _ _) as [ids|] eqn:Hs; [|discriminate].
    intros H Hx. apply (IH _ H). cbn [manufacturer_batch_ids].
    exact (set_add_mem_mono _ _ _ _ Hs Hx).
Qed.

Lemma nested_scan_count_replace (user_id : Z) (bs bs' : list dict) (id : value)
    (batch batch' : dict) (l : list value) (x : value) :
  find_batch bs id = Ok (Some batch) -> replace_batch bs id batch' = Ok bs' ->
  Py.get batch' "userId" = Py.get batch "userId" ->
  Py.str_eq_int (Py.get batch "userId") user_id = true ->
  Py.lookup batch "scans" = Some (VList l) ->
  Py.lookup batch' "scans" = Some (VList (l ++ [x])) ->
  nested_scan_count user_id bs' = nested_scan_count user_id bs + 1.
Proof.
  intros Hf Hr Hu Hown Hl Hl'. revert bs' Hf Hr.
  induction bs as [|b0 bs IH]; intros bs' Hf Hr; simpl in Hf, Hr; [discriminate|].
  destruct (Py.getitem b0 "batchId") as [v|]; [|discriminate].
  destruct (Py.eq v id).
  - injection Hf as ->. injection Hr as <-. simpl. rewrite Hu, Hown.
    unfold Py.get_default. rewrite Hl, Hl'. cbn [iterate]. rewrite length_app.
    cbn [List.length]. lia.
  - destruct (replace_batch bs id batch') as [r|]; [|discriminate].
    injection Hr as <-. simpl. rewrite (IH r Hf eq_refl). lia.
Qed.

Lemma dashboard_total_exposed (user_id : Z) (user_name : string)
    (b : batches_doc) (s : scans_doc) (p : products_doc) (d : dict) :
  _get_manufacturer_dashboard user_id user_name b s p = Ok d ->
  exists a1 a2 : acc,
    own_batches user_id (batches b) (mkAcc [] [] [] 0 []) = Ok a1
    /\ own_products user_id (products p) a1 = Ok a2
    /\ Py.lookup d "totalScans"
       = Some (VInt (nested_scan_count user_id (batches b)
                     + file_scan_count (manufacturer_batch_ids a2) (scans s))).
Proof.
  unfold _get_manufacturer_dashboard, bindr.
  destruct (own_batches _ _ _) as [a1|] eqn:H1; [|discriminate].
  destruct (own_products _ _ _) as [a2|] eqn:H2; [|discriminate].
  destruct (file_scans _ _ _ _) as [a3|] eqn:H3; [|discriminate].
  destruct (sort_newest_first _) as [sorted|]; [|discriminate].
  intros H. injection H as <-. exists a1, a2.
  split; [reflexivity|]. split; [exact H2|].
  rewrite (file_scans_total _ _ _ _ _ H3), (own_products_total _ _ _ _ H2),
    (own_batches_total _ _ _ _ H1).
  reflexivity.
Qed.

(** Each recorded scan is counted twice. Take a batch under a string id
    whose [userId] prints like the id of a user, and a successful
    [record_scan] on it with scan data that hold no ["batchId"]. Whenever
    the manufacturer dashboard of that user is produced before and after,
    [scans.json] has one more scan and [totalScans] has grown by two. *)
Theorem recorded_scan_is_counted_twice :
  forall (user_id : Z) (user_name : string) (w w' : World) (batch_id : string)
         (scan_data r batch d d' : dict),
    record_scan (VStr batch_id) scan_data w = (Ok (Some r), w') ->
    Py.lookup scan_data "batchId" = None ->
    fst (get_batch (VStr batch_id) w) = Ok (Some batch) ->
    Py.str_eq_int (Py.get batch "userId") user_id = true ->
    _get_manufacturer_dashboard user_id user_name
      (batches_file w) (scans_file w) (products_file w) = Ok d ->
    _get_manufacturer_dashboard user_id user_name
      (batches_file w') (scans_file w') (products_file w') = Ok d' ->
    exists n : Z,
      Py.lookup d "totalScans" = Some (VInt n)
      /\ Py.lookup d' "totalScans" = Some (VInt (n + 2))
      /\ List.length (scans (scans_file w')) = S (List.length (scans (scans_file w))).
Proof.
  intros user_id user_name w w' s sd r batch d d' Hrun Hsd Hget Hown Hd Hd'.
  rewrite get_batch_run in Hget. cbn [fst] in Hget.
  destruct (record_scan_success_run _ _ _ _ _ Hrun)
    as [batch0 [l [bs' [Hf [Hl [Hr [Hrep ->]]]]]]].
  rewrite Hget in Hf. injection Hf as <-.
  destruct (find_batch_found _ _ _ Hget) as [Hin [v [Lv Ev]]].
  apply eq_string_inv in Ev. subst v.
  set (batch' := scanned_batch batch l r (clock w (S (ticks w)))) in *.
  assert (Hu : Py.get batch' "userId" = Py.get batch "userId").
  { unfold Py.get, batch', scanned_batch.
    now rewrite !lookup_setitem_neq by discriminate. }
  assert (Hi : Py.get batch' "batchId" = Py.get batch "batchId").
  { unfold Py.get, batch'. now rewrite scanned_batch_batchId. }
  assert (Hrb : Py.get r "batchId" = VStr s).
  { subst r. unfold Py.get, scan_record_of. rewrite lookup_update.
    cbn [Py.last_binding String.eqb Ascii.eqb Bool.eqb].
    rewrite lookup_update, (lookup_none_last_binding _ _ Hsd).
    unfold Py.display. rewrite lookup_update. reflexivity. }
  destruct (dashboard_total_exposed _ _ _ _ _ _ Hd) as [a1 [a2 [H1 [H2 Ht]]]].
  destruct (dashboard_total_exposed _ _ _ _ _ _ Hd') as [b1 [b2 [H1' [H2' Ht']]]].
  cbn [batches_file scans_file products_file batches scans] in *.
  assert (Eids : manufacturer_batch_ids a2 = manufacturer_batch_ids b2).
  { apply (own_products_ids_congr user_id _ a1 b1 a2 b2 H2 H2').
    exact (own_batches_ids_replace user_id (batches (batches_file w)) bs' (VStr s)
             batch batch' (mkAcc [] [] [] 0 []) (mkAcc [] [] [] 0 []) a1 b1
             Hget Hrep Hi Hu H1 H1' eq_refl). }
  assert (Hmem : Py.set_mem (VStr s) (manufacturer_batch_ids a2) = true).
  { apply (own_products_mem_mono user_id (VStr s) (products (products_file w)) a1 a2 H2).
    apply (own_batches_mem user_id s (batches (batches_file w)) batch
             (mkAcc [] [] [] 0 []) a1 Hin Hown); [|exact H1].
    unfold Py.get. now rewrite Lv. }
  exists (nested_scan_count user_id (batches (batches_file w))
          + file_scan_count (manufacturer_batch_ids a2) (scans (scans_file w))).
  split; [exact Ht|]. split.
  - rewrite Ht', <- Eids.
    rewrite (nested_scan_count_replace user_id _ bs' (VStr s) batch batch' l (VDict r)
               Hget Hrep Hu Hown Hl (scanned_batch_scans _ _ _ _)).
    unfold file_scan_count. rewrite filter_app, length_app. cbn [filter].
    rewrite Hrb, Hmem. cbn [List.length]. do 2 f_equal. lia.
  - rewrite length_app. cbn [List.length]. lia.
Qed.

(** ** From registration to the first scan *)

Lemma registration_qr_product_id (req : App.upload_request) (pid : string) (e : Env) :
  App.qr_product_id (VDict (QRService.registration_qr_data req pid e)) = Ok (VStr pid).
Proof.
  unfold App.qr_product_id, QRService.registration_qr_data, QRService.qr_data, Py.get.
  cbn [Py.display Py.update fold_left Py.setitem fst snd String.eqb Ascii.eqb Bool.eqb
       Py.truthy].
  reflexivity.
Qed.

(** The QR code of a registration leads back to it. Take a registration
    of a product id that is not yet the id of a batch, under a plain
    object name, and a scan request, with a supplier name, whose QR data
    parse to the payload that [upload_file] generates for that
    registration. In the world the registration leaves, [scan_product]
    answers 200 and the registered batch holds exactly one scan: the
    event of this request, with the product id of the registration as
    batch id. *)
Theorem registration_qr_scans_back :
  forall (json_loads : string -> option value)
         (req : App.upload_request) (scan_req : App.scan_request) (w : World)
         (user : dict) (file : App.uploaded_file) (pid supplier : string)
         (uid email : value),
    App.u_user req = Some user -> App.u_file req = Some file ->
    App.filename file <> "" ->
    App.u_productId req = Some pid -> pid <> "" ->
    Py.lookup user "id" = Some uid -> Py.lookup user "email" = Some email ->
    fst (get_batch (VStr pid) w) = Ok None ->
    plain_name (App.object_name pid (clock w (ticks w)) file) = true ->
    Py.truthy (App.s_qrData scan_req) = true ->
    App.parse_qr json_loads (App.s_qrData scan_req)
      = Some (VDict (QRService.registration_qr_data req pid (env w))) ->
    App.s_supplierName scan_req = Some supplier -> supplier <> "" ->
    let w1 := snd (App.upload_file req w) in
    let answer := fst (App.scan_product json_loads scan_req w1) in
    let w2 := snd (App.scan_product json_loads scan_req w1) in
    exists event : dict,
      registered (fst (App.upload_file req w)) = true
      /\ status_of answer = 200
      /\ listScansByBatch (VStr pid) w1 = Some []
      /\ listScansByBatch (VStr pid) w2 = Some [VDict event]
      /\ scans (scans_file w2) = scans (scans_file w) ++ [event]
      /\ Py.lookup event "batchId" = Some (VStr pid)
      /\ Py.lookup event "supplierName" = Some (VStr supplier)
      /\ Py.lookup event "timestamp" = Some (VStr (isoformat (clock w1 (ticks w1)))).
Proof.
  intros jl req sreq w user file pid supplier uid email
         Hu Hf Hn Hp Hpid Hid Hem Hnew _ Hq Hparse Hs Hsup w1 answer w2.
  pose proof (app_upload_file_run req w user file pid uid email Hu Hf Hn Hp Hpid Hid Hem)
    as Hrun. cbv zeta in Hrun.
  rewrite get_batch_run in Hnew. cbn [fst] in Hnew.
  set (data := App.batch_data_of req file pid _ _ _ (env w) uid email _) in Hrun.
  set (w0' := snd (utcnow (snd (GreenfieldService.upload_file _ _ _ (snd (utcnow w)))))) in Hrun.
  assert (Hb0 : batches_file w0' = batches_file w) by reflexivity.
  assert (Hs0 : scans_file w0' = scans_file w) by reflexivity.
  set (batch := batch_record (VStr pid) data (clock w0' (ticks w0'))
                             (clock w0' (S (ticks w0'))) (clock w0' (S (S (ticks w0'))))).
  assert (Hw1 : w1 = snd (store_batch (VStr pid) data w0')) by (subst w1; now rewrite Hrun).
  assert (Hget : find_batch (batches (batches_file w1)) (VStr pid) = Ok (Some batch)).
  { pose proof (store_batch_get w0' pid data) as G. rewrite Hb0 in G. specialize (G Hnew).
    rewrite get_batch_run in G. cbn [fst] in G. now rewrite Hw1. }
  assert (Hscans1 : scans_file w1 = scans_file w).
  { rewrite Hw1, store_batch_run. exact Hs0. }
  assert (Henv : env w1 = env w) by (rewrite Hw1, store_batch_run; reflexivity).
  pose proof (batch_record_scans (VStr pid) data (clock w0' (ticks w0'))
                (clock w0' (S (ticks w0'))) (clock w0' (S (S (ticks w0'))))) as Hl.
  fold batch in Hl.
  pose proof (registration_qr_product_id req pid (env w)) as Hqid.
  destruct (record_scan_run w1 (VStr pid) (scan_data_of sreq) batch [] Hget Hl)
    as [bs' [Hrep Hrec]].
  fold (scan_event sreq (VStr pid) w1) in Hrec, Hrep.
  destruct (scan_event_fields sreq (VStr pid) w1 supplier Hs) as [_ [Lts [Lbi [Lsn _]]]].
  set (event := scan_event sreq (VStr pid) w1) in *.
  destruct (replace_found _ _ _ (scanned_batch batch [] event (clock w1 (S (ticks w1))))
              Hget (scanned_batch_batchId batch [] event _)) as [bs'' [Hr' [Hf' _]]].
  rewrite Hrep in Hr'. injection Hr' as <-.
  pose proof (scan_product_run jl sreq w1 supplier _ (VStr pid) batch []
                Hq Hs Hsup Hparse Hqid Hget Hl) as Hscan.
  exists event. subst answer w2. rewrite Hscan. cbn [fst snd]. rewrite Hrec. cbn [snd].
  split; [now rewrite Hrun|]. split; [reflexivity|].
  split; [apply listScansByBatch_found with batch; assumption|].
  split.
  { apply listScansByBatch_found
      with (scanned_batch batch [] event (clock w1 (S (ticks w1)))).
    - exact Hf'.
    - apply (scanned_batch_scans batch [] event). }
  split; [cbn [scans_file scans]; now rewrite Hscans1|].
  now repeat split.
Qed.

(** ** The dashboards by role *)

Import RoleDashboards.

(** A user that nobody knows. When the lookup of [get_user_dashboard]
    finds no user, the dashboard is [{'error': 'User not found',
    'success': False}] and the world is left as it was; the endpoint
    [/api/dashboard/<user_id>] then answers 200, with [success] false and
    that error; and [/api/scans/<manufacturer_id>] answers 200 with
    [success] true, no scans and [totalScans] 0. *)
Theorem dashboard_of_unknown_user :
  forall (users_data : AuthService.users_doc) (user_id : string) (w : World),
    find_user user_id (AuthService.users users_data) = Ok None ->
    (forall role,
       get_user_dashboard users_data user_id role w
       = (Ok (Py.display [ ("error", VStr "User not found"); ("success", VBool false) ]), w))
    /\ get_dashboard users_data user_id w
       = (Response 200 [ ("success", VBool false); ("error", VStr "User not found") ], w)
    /\ get_manufacturer_scans users_data user_id w
       = (Response 200 [ ("success", VBool true); ("scans", VList []);
                         ("totalScans", VInt 0); ("recentScans", VList []) ], w).
Proof.
  intros users_data user_id w H.
  assert (E : forall role,
             get_user_dashboard users_data user_id role w
             = (Ok (Py.display [ ("error", VStr "User not found");
                                 ("success", VBool false) ]), w)).
  { intros role. unfold get_user_dashboard. run_monad. now rewrite H. }
  split; [exact E|]. split.
  - unfold get_dashboard, App.handle, bind. now rewrite E.
  - unfold get_manufacturer_scans, get_manufacturer_dashboard, App.handle, bind.
    now rewrite E.
Qed.

Lemma file_loop_total (mine : dict -> bool) (k1 k2 : string) (bs ps ss : list dict)
    (a a' : role_acc) :
  file_loop mine k1 k2 bs ps ss a = Ok a' ->
  scan_total a' = scan_total a + Z.of_nat (List.length (filter mine ss))
  /\ List.length (my_scans a')
     = (List.length (my_scans a) + List.length (filter mine ss))%nat.
Proof.
  revert a. induction ss as [|scan ss IH]; intros a; cbn [file_loop filter].
  - intros H. injection H as <-. cbn [List.length]. split; [lia | now rewrite Nat.add_0_r].
  - destruct (mine scan); [|apply IH].
    unfold bindr.
    destruct (batch_info_of scan bs ps) as [info|].
    + destruct (Py.truthy (VDict info)).
      * destruct (Py.set_add _ _) as [ms|]; [|discriminate].
        intros H. destruct (IH _ H) as [Ht Hl].
        cbn [scan_total my_scans] in *. rewrite Ht, Hl, length_app. simpl List.length.
        split; lia.
      * intros H. destruct (IH _ H) as [Ht Hl].
        cbn [scan_total my_scans] in *. rewrite Ht, Hl, length_app. simpl List.length.
        split; lia.
    + intros H. destruct (IH _ H) as [Ht Hl].
      cbn [scan_total my_scans] in *. rewrite Ht, Hl, length_app. simpl List.length.
      split; lia.
Qed.

Lemma legacy_loop_total (user_id : Z) (user_name : string) (batch : dict) (l : list value)
    (a a' : role_acc) :
  legacy_loop user_id user_name batch l a = Ok a' ->
  scan_total a' = scan_total a + supplier_scans_in user_id user_name l
  /\ Z.of_nat (List.length (my_scans a'))
     = Z.of_nat (List.length (my_scans a)) + supplier_scans_in user_id user_name l.
Proof.
  unfold supplier_scans_in. revert a. induction l as [|v l IH]; intros a; simpl.
  - intros H. injection H as <-. split; lia.
  - destruct v as [| | | | |scan]; try discriminate.
    destruct (by_supplier user_id user_name scan); [|apply IH].
    unfold bindr. destruct (Py.set_add _ _) as [ms|]; [|discriminate].
    intros H. destruct (IH _ H) as [Ht Hl].
    cbn [scan_total my_scans] in *. rewrite Ht, Hl, length_app. simpl List.length.
    split; lia.
Qed.

Lemma legacy_batches_total (user_id : Z) (user_name : string) (bs : list dict)
    (a a' : role_acc) :
  legacy_batches user_id user_name bs a = Ok a' ->
  scan_total a' = scan_total a + nested_supplier_scans user_id user_name bs
  /\ Z.of_nat (List.length (my_scans a'))
     = Z.of_nat (List.length (my_scans a)) + nested_supplier_scans user_id user_name bs.
Proof.
  revert a. induction bs as [|batch bs IH]; intros a; simpl.
  - intros H. injection H as <-. split; lia.
  - unfold bindr. destruct (iterate _) as [l|]; [|discriminate].
    destruct (legacy_loop user_id user_name batch l a) as [a1|] eqn:Hl; [|discriminate].
    intros H. destruct (IH _ H) as [Ht Hm].
    destruct (legacy_loop_total _ _ _ _ _ _ Hl) as [Ht1 Hm1].
    split; lia.
Qed.

(** What the supplier dashboard counts. *)
Lemma supplier_dashboard_total (user_id : Z) (user_name : string)
    (b : batches_doc) (s : scans_doc) (p : products_doc) (d : dict) :
  _get_supplier_dashboard user_id user_name b s p = Ok d ->
  exists sorted : list dict,
    Py.lookup d "totalScans"
    = Some (VInt (Z.of_nat (List.length (filter (by_supplier user_id user_name) (scans s)))
                  + nested_supplier_scans user_id user_name (batches b)))
    /\ Py.lookup d "allScans" = Some (VList (map VDict sorted))
    /\ Py.lookup d "totalScans" = Some (VInt (Z.of_nat (List.length sorted))).
Proof.
  unfold _get_supplier_dashboard, bindr.
  destruct (file_loop _ _ _ _ _ _ _) as [a1|] eqn:H1; [|discriminate].
  destruct (legacy_batches _ _ _ _) as [a2|] eqn:H2; [|discriminate].
  destruct (sort_newest_first _) as [sorted|] eqn:Hs; [|discriminate].
  intros H. injection H as <-. exists sorted.
  destruct (file_loop_total _ _ _ _ _ _ _ _ H1) as [T1 L1].
  destruct (legacy_batches_total _ _ _ _ _ H2) as [T2 L2].
  destruct (sort_newest_first_perm _ _ Hs) as [Hperm _].
  cbn [scan_total my_scans List.length] in *.
  unfold Py.display. rewrite !lookup_update.
  cbn [Py.last_binding String.eqb Ascii.eqb Bool.eqb].
  split; [do 2 f_equal; lia|]. split; [reflexivity|].
  do 2 f_equal. rewrite (Permutation_length Hperm). lia.
Qed.

Lemma nested_supplier_scans_replace (user_id : Z) (user_name : string)
    (bs bs' : list dict) (id : value) (batch batch' r : dict) (l : list value) :
  find_batch bs id = Ok (Some batch) -> replace_batch bs id batch' = Ok bs' ->
  Py.lookup batch "scans" = Some (VList l) ->
  Py.lookup batch' "scans" = Some (VList (l ++ [VDict r])) ->
  by_supplier user_id user_name r = true ->
  nested_supplier_scans user_id user_name bs'
  = nested_supplier_scans user_id user_name bs + 1.
Proof.
  intros Hf Hr Hl Hl' Hmine. revert bs' Hf Hr.
  induction bs as [|b0 bs IH]; intros bs' Hf Hr; simpl in Hf, Hr; [discriminate|].
  destruct (Py.getitem b0 "batchId") as [v|]; [|discriminate].
  destruct (Py.eq v id).
  - injection Hf as ->. injection Hr as <-. simpl.
    unfold Py.get_default. rewrite Hl, Hl'. cbn [iterate]. unfold supplier_scans_in.
    rewrite filter_app, length_app. cbn [filter]. rewrite Hmine. cbn [List.length]. lia.
  - destruct (replace_batch bs id batch') as [r0|]; [|discriminate].
    injection Hr as <-. simpl. rewrite (IH r0 Hf eq_refl). lia.
Qed.

(** The supplier dashboard counts each of the supplier's scans twice.
    Whenever it is produced, [totalScans] is the number of scans of
    [scans.json] made by the supplier plus the number of scans kept
    inside the batches made by the supplier, and it is the length of
    [allScans]. [record_scan] writes every event to both places: after a
    successful [record_scan] whose event is the supplier's,
    [scans.json] has one more scan and [totalScans] has grown by two. *)
Theorem supplier_scan_is_counted_twice :
  forall (user_id : Z) (user_name : string) (w w' : World) (batch_id : value)
         (scan_data r d d' : dict),
    record_scan batch_id scan_data w = (Ok (Some r), w') ->
    by_supplier user_id user_name r = true ->
    _get_supplier_dashboard user_id user_name
      (batches_file w) (scans_file w) (products_file w) = Ok d ->
    _get_supplier_dashboard user_id user_name
      (batches_file w') (scans_file w') (products_file w') = Ok d' ->
    exists n : Z,
      Py.lookup d "totalScans" = Some (VInt n)
      /\ n = Z.of_nat (List.length (filter (by_supplier user_id user_name)
                                           (scans (scans_file w))))
             + nested_supplier_scans user_id user_name (batches (batches_file w))
      /\ Py.lookup d' "totalScans" = Some (VInt (n + 2))
      /\ List.length (scans (scans_file w')) = S (List.length (scans (scans_file w))).
Proof.
  intros user_id user_name w w' id sd r d d' Hrun Hmine Hd Hd'.
  destruct (record_scan_success_run _ _ _ _ _ Hrun)
    as [batch [l [bs' [Hf [Hl [Hr [Hrep ->]]]]]]].
  destruct (supplier_dashboard_total _ _ _ _ _ _ Hd) as [sorted [Ht _]].
  destruct (supplier_dashboard_total _ _ _ _ _ _ Hd') as [sorted' [Ht' _]].
  cbn [batches_file scans_file batches scans] in *.
  eexists. split; [exact Ht|]. split; [reflexivity|]. split.
  - rewrite Ht'.
    rewrite (nested_supplier_scans_replace user_id user_name _ bs' id batch _ r l
               Hf Hrep Hl (scanned_batch_scans _ _ _ _) Hmine).
    rewrite filter_app, length_app. cbn [filter]. rewrite Hmine. cbn [List.length].
    do 2 f_equal. lia.
  - rewrite length_app. cbn [List.length]. lia.
Qed.

Lemma general_dashboard_total (user_id : Z) (user_name : string)
    (b : batches_doc) (s : scans_doc) (p : products_doc) (d : dict) :
  _get_general_user_dashboard user_id user_name b s p = Ok d ->
  exists sorted : list dict,
    Py.lookup d "totalScans"
    = Some (VInt (Z.of_nat (List.length (filter (by_user user_id user_name) (scans s)))))
    /\ Py.lookup d "allScans" = Some (VList (map VDict sorted))
    /\ List.length sorted = List.length (filter (by_user user_id user_name) (scans s)).
Proof.
  unfold _get_general_user_dashboard, bindr.
  destruct (file_loop _ _ _ _ _ _ _) as [a1|] eqn:H1; [|discriminate].
  destruct (sort_newest_first _) as [sorted|] eqn:Hs; [|discriminate].
  intros H. injection H as <-. exists sorted.
  destruct (file_loop_total _ _ _ _ _ _ _ _ H1) as [T1 L1].
  destruct (sort_newest_first_perm _ _ Hs) as [Hperm _].
  cbn [scan_total my_scans List.length] in *.
  unfold Py.display. rewrite !lookup_update.
  cbn [Py.last_binding String.eqb Ascii.eqb Bool.eqb].
  split; [do 2 f_equal; lia|]. split; [reflexivity|].
  rewrite (Permutation_length Hperm). lia.
Qed.

(** The dashboard of a general user counts each scan once. Whenever it is
    produced, [totalScans] is the number of scans of [scans.json] made by
    the user; the scans kept inside the batches are not counted. After a
    successful [record_scan] whose event is the user's, [scans.json] has
    one more scan and [totalScans] has grown by one. *)
Theorem general_user_scan_is_counted_once :
  forall (user_id : Z) (user_name : string) (w w' : World) (batch_id : value)
         (scan_data r d d' : dict),
    record_scan batch_id scan_data w = (Ok (Some r), w') ->
    by_user user_id user_name r = true ->
    _get_general_user_dashboard user_id user_name
      (batches_file w) (scans_file w) (products_file w) = Ok d ->
    _get_general_user_dashboard user_id user_name
      (batches_file w') (scans_file w') (products_file w') = Ok d' ->
    exists n : Z,
      Py.lookup d "totalScans" = Some (VInt n)
      /\ n = Z.of_nat (List.length (filter (by_user user_id user_name)
                                           (scans (scans_file w))))
      /\ Py.lookup d' "totalScans" = Some (VInt (n + 1))
      /\ List.length (scans (scans_file w')) = S (List.length (scans (scans_file w))).
Proof.
  intros user_id user_name w w' id sd r d d' Hrun Hmine Hd Hd'.
  destruct (record_scan_success_run _ _ _ _ _ Hrun)
    as [batch [l [bs' [_ [_ [_ [_ ->]]]]]]].
  destruct (general_dashboard_total _ _ _ _ _ _ Hd) as [sorted [Ht _]].
  destruct (general_dashboard_total _ _ _ _ _ _ Hd') as [sorted' [Ht' _]].
  cbn [scans_file scans] in *.
  eexists. split; [exact Ht|]. split; [reflexivity|]. split.
  - rewrite Ht'. rewrite filter_app, length_app. cbn [filter]. rewrite Hmine.
    cbn [List.length]. do 2 f_equal. lia.
  - rewrite length_app. cbn [List.length]. lia.
Qed.

(** ** Every outcome of [record_scan] *)

(** The outcomes of [record_scan], by what [get_batch] finds. When the
    lookup raises (a batch before the match has no ["batchId"]),
    [record_scan] raises the same error; when it finds nothing,
    [record_scan] returns [None]; in both cases the world is as it was.
    When the batch found has no ["scans"], or holds something that is not
    a list there, [record_scan] raises [KeyError] or [AttributeError], and
    the three files and the uploads are as they were. Otherwise it
    returns the event, which it has appended to [scans.json] and to the
    scan list of the batch. *)
Theorem record_scan_outcomes :
  forall (batch_id : value) (scan_data : dict) (w : World),
    let run := record_scan batch_id scan_data w in
    let unchanged :=
      batches_file (snd run) = batches_file w /\ scans_file (snd run) = scans_file w
      /\ products_file (snd run) = products_file w /\ uploads (snd run) = uploads w in
    match find_batch (batches (batches_file w)) batch_id with
    | Raise e => run = (Raise e, w)
    | Ok None => run = (Ok None, w)
    | Ok (Some batch) =>
        match Py.lookup batch "scans" with
        | None => fst run = Raise (KeyError "scans") /\ unchanged
        | Some (VList l) =>
            exists r : dict,
              fst run = Ok (Some r)
              /\ scans (scans_file (snd run)) = scans (scans_file w) ++ [r]
              /\ listScansByBatch batch_id (snd run) = Some (l ++ [VDict r])
        | Some _ => fst run = Raise AttributeError /\ unchanged
        end
    end.
Proof.
  intros id sd w run unchanged. subst run unchanged.
  destruct (find_batch (batches (batches_file w)) id) as [[batch|]|e] eqn:Hf.
  - destruct (Py.lookup batch "scans") as [v|] eqn:Hs.
    + destruct v as [| | | | l |];
        try (unfold record_scan, get_batch; run_monad; rewrite Hf;
             rewrite (found_batch_truthy _ _ _ Hf); cbn [negb]; run_monad;
             unfold append_scan, Py.getitem; rewrite Hs; now repeat split).
      destruct (record_scan_run w id sd batch l Hf Hs) as [bs' [Hrep Hrun]].
      rewrite Hrun. cbn [fst snd scans_file scans]. eexists.
      split; [reflexivity|]. split; [reflexivity|].
      destruct (replace_found _ _ _
                  (scanned_batch batch l
                     (scan_record_of id sd (lastScanId (scans_file w)) (clock w (ticks w)))
                     (clock w (S (ticks w)))) Hf (scanned_batch_batchId _ _ _ _))
        as [bs'' [Hr' [Hf' _]]].
      rewrite Hrep in Hr'. injection Hr' as <-.
      apply listScansByBatch_found with
        (scanned_batch batch l
           (scan_record_of id sd (lastScanId (scans_file w)) (clock w (ticks w)))
           (clock w (S (ticks w)))).
      * exact Hf'.
      * apply scanned_batch_scans.
    + unfold record_scan, get_batch. run_monad. rewrite Hf.
      rewrite (found_batch_truthy _ _ _ Hf). cbn [negb]. run_monad.
      unfold append_scan, Py.getitem. rewrite Hs. now repeat split.
  - unfold record_scan, get_batch. run_monad. now rewrite Hf.
  - unfold record_scan, get_batch. run_monad. now rewrite Hf.
Qed.

(** ** Login *)

Lemma setitem_keys (d : dict) (k : string) (v : value) :
  forall k', In k' (map fst (Py.setitem d k v)) -> k' = k \/ In k' (map fst d).
Proof.
  induction d as [|[k0 v0] d IH]; simpl; intros k' H.
  - destruct H as [<-|[]]. now left.
  - destruct (String.eqb_spec k0 k) as [->|Hne]; simpl in H.
    + destruct H as [<-|H]; [now left | right; now right].
    + destruct H as [<-|H]; [right; now left|].
      destruct (IH k' H) as [->|Hin]; [now left | right; now right].
Qed.

Lemma setitem_nodup (d : dict) (k : string) (v : value) :
  NoDup (map fst d) -> NoDup (map fst (Py.setitem d k v)).
Proof.
  induction d as [|[k0 v0] d IH]; simpl; intros H.
  - repeat constructor. intros [].
  - inversion H as [|? ? Hn Hd]; subst.
    destruct (String.eqb_spec k0 k) as [->|Hne]; simpl.
    + now constructor.
    + constructor; [|now apply IH].
      intros Hin. destruct (setitem_keys d k v k0 Hin) as [->|Hin']; tauto.
Qed.

Lemma find_by_email_found (email : string) (us : list dict) (user : dict) :
  AuthService.find_by_email email us = Ok (Some user) ->
  In user us /\ Py.lookup user "email" = Some (VStr email).
Proof.
  induction us as [|u us IH]; simpl; [discriminate|].
  unfold bindr, Py.getitem. destruct (Py.lookup u "email") as [e|] eqn:L; [|discriminate].
  destruct (Py.eq e (VStr email)) eqn:E.
  - intros H. injection H as <-. apply eq_string_inv in E. subst e.
    split; [now left | exact L].
  - intros H. destruct (IH H) as [Hin Hl]. split; [now right | exact Hl].
Qed.

Lemma set_last_login_found (email : string) (stamp : value) (us : list dict) (user : dict) :
  AuthService.find_by_email email us = Ok (Some user) ->
  AuthService.find_by_email email (AuthService.set_last_login email stamp us)
  = Ok (Some (Py.setitem user "lastLogin" stamp))
  /\ List.length (AuthService.set_last_login email stamp us) = List.length us.
Proof.
  induction us as [|u us IH]; simpl; [discriminate|].
  unfold bindr, Py.getitem. destruct (Py.lookup u "email") as [e|] eqn:L; [|discriminate].
  destruct (Py.eq e (VStr email)) eqn:E.
  - intros H. injection H as <-. simpl. unfold bindr, Py.getitem.
    rewrite lookup_setitem_neq by discriminate. rewrite L, E. now split.
  - intros H. destruct (IH H) as [Hf Hl]. simpl. unfold bindr, Py.getitem.
    rewrite L, E. split; [exact Hf | now rewrite Hl].
Qed.

(** The outcomes of [login_user], whatever the password check. Without a
    user of that email it answers "User not found"; when the check
    rejects the password it answers "Invalid password"; when the check
    raises, so does it; in each case the users and the sessions are as
    they were. When the check accepts, it answers with the user found,
    with [lastLogin] set to the time of the login and, for a user with
    distinct keys, without the password; it appends one session, with
    the id and email of the user; and the user stored under that email is
    the user found with [lastLogin] set, password included. *)
Theorem login_user_outcomes :
  forall (checkpw : string -> string -> result bool) (email password : string)
         (login_at session_login session_activity : datetime)
         (files : AuthService.auth_files),
    let run := AuthService.login_user checkpw email password
                 login_at session_login session_activity files in
    let stored := AuthService.users (AuthService.users_file files) in
    match AuthService.find_by_email email stored with
    | Raise e => run = (Raise e, files)
    | Ok None =>
        run = (Ok (Py.display [ ("success", VBool false);
                                ("error", VStr "User not found") ]), files)
    | Ok (Some user) =>
        forall hashed, Py.lookup user "password" = Some (VStr hashed) ->
        match checkpw password hashed with
        | Raise e => run = (Raise e, files)
        | Ok false =>
            run = (Ok (Py.display [ ("success", VBool false);
                                    ("error", VStr "Invalid password") ]), files)
        | Ok true =>
            forall user_id, Py.lookup user "id" = Some user_id ->
            exists (answered session : dict),
              fst run = Ok (Py.display [ ("success", VBool true); ("user", VDict answered) ])
              /\ Py.lookup answered "lastLogin" = Some (VStr (isoformat login_at))
              /\ (forall k, k <> "password" -> k <> "lastLogin" ->
                            Py.lookup answered k = Py.lookup user k)
              /\ (NoDup (map fst user) -> Py.lookup answered "password" = None)
              /\ AuthService.sessions (snd run) = AuthService.sessions files ++ [session]
              /\ Py.lookup session "userId" = Some user_id
              /\ Py.lookup session "email" = Some (VStr email)
              /\ AuthService.find_by_email email
                   (AuthService.users (AuthService.users_file (snd run)))
                 = Ok (Some (Py.setitem user "lastLogin" (VStr (isoformat login_at))))
              /\ List.length (AuthService.users (AuthService.users_file (snd run)))
                 = List.length stored
              /\ AuthService.lastUserId (AuthService.users_file (snd run))
                 = AuthService.lastUserId (AuthService.users_file files)
        end
    end.
Proof.
  intros checkpw email password t1 t2 t3 files run stored. subst stored.
  destruct (AuthService.find_by_email email _) as [[user|]|e] eqn:Hf.
  - intros hashed Lp.
    destruct (find_by_email_found _ _ _ Hf) as [_ Le].
    destruct (checkpw password hashed) as [[|]|e] eqn:Hc.
    + intros user_id Lid.
      set (stamp := VStr (isoformat t1)).
      assert (Lp' : Py.lookup (Py.setitem user "lastLogin" stamp) "password"
                    = Some (VStr hashed)) by (now rewrite lookup_setitem_neq by discriminate).
      destruct (delitem_present _ _ _ Lp') as [answered Hd].
      destruct (set_last_login_found email stamp _ user Hf) as [Hfound Hlen].
      set (session := Py.display [ ("userId", user_id); ("email", VStr email);
                                   ("loginTime", VStr (isoformat t2));
                                   ("lastActivity", VStr (isoformat t3)) ]).
      assert (Hrun : run
                = (Ok (Py.display [ ("success", VBool true); ("user", VDict answered) ]),
                   AuthService.mkAuthFiles
                     (AuthService.mkUsers
                        (AuthService.set_last_login email stamp
                           (AuthService.users (AuthService.users_file files)))
                        (AuthService.lastUserId (AuthService.users_file files)))
                     (AuthService.sessions files ++ [session]))).
      { subst run. unfold AuthService.login_user. cbv zeta. rewrite Hf.
        rewrite (lookup_some_truthy _ _ _ Lp). cbn [negb]. unfold Py.getitem.
        rewrite Lp, Hc. rewrite !lookup_setitem_neq by discriminate. rewrite Lid, Le.
        unfold AuthService.user_response. fold stamp. rewrite Hd. reflexivity. }
      rewrite Hrun.
      cbn [fst snd AuthService.sessions AuthService.users_file AuthService.users
           AuthService.lastUserId].
      exists answered, session. split; [reflexivity|].
      split.
      { rewrite (delitem_other _ _ "password" "lastLogin" Hd) by discriminate.
        apply lookup_setitem_eq. }
      split.
      { intros k Hk1 Hk2. rewrite (delitem_other _ _ "password" k Hd) by exact Hk1.
        apply lookup_setitem_neq. congruence. }
      split.
      { intros Hnd. apply (delitem_gone _ _ "password" (setitem_nodup _ _ _ Hnd) Hd). }
      split; [reflexivity|].
      unfold session, Py.display. rewrite !lookup_update.
      cbn [Py.last_binding String.eqb Ascii.eqb Bool.eqb].
      split; [reflexivity|]. split; [reflexivity|].
      split; [exact Hfound|]. split; [exact Hlen | reflexivity].
    + subst run. unfold AuthService.login_user. cbv zeta. rewrite Hf.
      rewrite (lookup_some_truthy _ _ _ Lp). cbn [negb]. unfold Py.getitem.
      now rewrite Lp, Hc.
    + subst run. unfold AuthService.login_user. cbv zeta. rewrite Hf.
      rewrite (lookup_some_truthy _ _ _ Lp). cbn [negb]. unfold Py.getitem.
      now rewrite Lp, Hc.
  - subst run. unfold AuthService.login_user. cbv zeta. now rewrite Hf.
  - subst run. unfold AuthService.login_user. cbv zeta. now rewrite Hf.
Qed.

(** * The further properties, on the scenarios *)

Import Cases.

(** [store_batch] of the unknown "LOT-001" in the initial world. *)
Lemma store_batch_then_get_batch_witness :
  fst (get_batch (VStr "LOT-001") w0) = Ok None
  /\ exists (batch : dict) (w' : World),
       store_batch (VStr "LOT-001") [("batchName", VStr "Lot 1")] w0 = (Ok batch, w')
       /\ fst (get_batch (VStr "LOT-001") w') = Ok (Some batch)
       /\ Py.lookup batch "batchName" = Some (VStr "Lot 1").
Proof.
  assert (H : fst (get_batch (VStr "LOT-001") w0) = Ok None) by reflexivity.
  split; [exact H|].
  destruct (store_batch_then_get_batch w0 "LOT-001" [("batchName", VStr "Lot 1")] H)
    as [batch [w' [Hrun [Hget [_ [_ [_ Hdata]]]]]]].
  exists batch, w'. split; [exact Hrun|]. split; [exact Hget|].
  rewrite Hdata; [reflexivity|]. unfold batch_keys. simpl. intuition discriminate.
Defined.

(** The counters in the initial world, after the registration of
    "LOT-001" and after a scan of it. *)
Lemma counters_stay_consistent_witness :
  counters_consistent w0
  /\ counters_consistent w_lot001
  /\ counters_consistent (do_scan "LOT-001" "S1" w0).
Proof.
  assert (H : counters_consistent w0) by (repeat split).
  destruct (counters_stay_consistent w0 H) as [_ [_ [Hup [Hscan _]]]].
  split; [exact H|]. split; [apply Hup | apply Hscan].
Defined.

(** The first scan of "LOT-001". *)
Lemma record_scan_frame_witness :
  record_scan (VStr "LOT-001") scan_data_s1 w_lot001 = (Ok (Some first_scan), w_lot001_scanned)
  /\ List.length (batches (batches_file w_lot001_scanned))
     = List.length (batches (batches_file w_lot001))
  /\ lastScanId (scans_file w_lot001_scanned) = lastScanId (scans_file w_lot001) + 1
  /\ products_file w_lot001_scanned = products_file w_lot001.
Proof.
  assert (H : record_scan (VStr "LOT-001") scan_data_s1 w_lot001
              = (Ok (Some first_scan), w_lot001_scanned))
    by (unfold w_lot001_scanned; apply run_eq; vm_compute; reflexivity).
  split; [exact H|].
  destruct (record_scan_frame _ _ _ _ _ H) as [H1 [_ [H3 [H4 _]]]].
  split; [exact H1|]. split; [exact H3 | exact H4].
Defined.

(** The first scan of "LOT-001" carries the supplier of its scan data and
    the number 1. *)
Lemma record_scan_event_fields_witness :
  NoDup (map fst scan_data_s1)
  /\ record_scan (VStr "LOT-001") scan_data_s1 w_lot001
     = (Ok (Some first_scan), w_lot001_scanned)
  /\ Py.lookup first_scan "id" = Some (VStr "1")
  /\ Py.lookup first_scan "supplierName" = Some (VStr "S1").
Proof.
  assert (Hnd : NoDup (map fst scan_data_s1))
    by (repeat constructor; simpl; intuition discriminate).
  assert (H : record_scan (VStr "LOT-001") scan_data_s1 w_lot001
              = (Ok (Some first_scan), w_lot001_scanned))
    by (unfold w_lot001_scanned; apply run_eq; vm_compute; reflexivity).
  split; [exact Hnd|]. split; [exact H|].
  destruct (record_scan_event_fields _ _ _ _ _ Hnd H) as [Hid [_ [_ Hrest]]].
  split.
  - rewrite Hid. reflexivity.
  - apply Hrest; [discriminate | discriminate | reflexivity].
Defined.

(** A scan of "LOT-001" by S1, after its registration. *)
Lemma scan_product_records_one_event_witness :
  fst (get_batch (VStr "LOT-001") w_lot001) = Ok (Some lot001_batch)
  /\ Py.lookup lot001_batch "scans" = Some (VList [])
  /\ status_of (fst (App.scan_product no_json lot001_scan w_lot001)) = 200
  /\ exists r : dict,
       scans (scans_file (snd (App.scan_product no_json lot001_scan w_lot001)))
       = scans (scans_file w_lot001) ++ [r]
       /\ listScansByBatch (VStr "LOT-001")
            (snd (App.scan_product no_json lot001_scan w_lot001)) = Some [VDict r]
       /\ Py.lookup r "id" = Some (VStr "1")
       /\ Py.lookup r "supplierName" = Some (VStr "S1").
Proof.
  assert (Hb : fst (get_batch (VStr "LOT-001") w_lot001) = Ok (Some lot001_batch))
    by (vm_compute; reflexivity).
  assert (Hl : Py.lookup lot001_batch "scans" = Some (VList []))
    by (vm_compute; reflexivity).
  split; [exact Hb|]. split; [exact Hl|].
  destruct (scan_product_records_one_event no_json lot001_scan w_lot001 "S1"
              (VDict [("productId", VStr "LOT-001")]) (VStr "LOT-001") lot001_batch []
              eq_refl eq_refl ltac:(discriminate) eq_refl eq_refl Hb Hl)
    as [Hst [_ [r [Hs [Hls [Hid [_ [_ [Hsn _]]]]]]]]].
  split; [exact Hst|]. exists r. split; [exact Hs|]. split; [exact Hls|].
  split; [exact Hid | exact Hsn].
Defined.

(** An upload of [b"hello"] as "a.txt" into the initial world. *)
Lemma upload_then_download_witness :
  plain_name "a.txt" = true
  /\ exists (url : string) (w1 : World),
       GreenfieldService.upload_file (encode "hello") "a.txt" "text/plain" w0 = (Ok url, w1)
       /\ url = "gnfd://bnbhack1/a.txt"
       /\ download_file url w1 = (Ok (encode "hello"), w1).
Proof.
  assert (H : plain_name "a.txt" = true) by reflexivity.
  split; [exact H|].
  destruct (upload_then_download w0 (encode "hello") "a.txt" "text/plain" H)
    as [url [w1 [Hrun [Hurl [Hdown _]]]]].
  exists url, w1. split; [exact Hrun|]. split; [exact Hurl | exact Hdown].
Defined.

(** The file information of that upload. *)
Lemma upload_then_get_file_info_witness :
  plain_name "a.txt" = true
  /\ exists info : dict,
       fst (GreenfieldInfo.get_file_info "gnfd://bnbhack1/a.txt"
              (snd (GreenfieldService.upload_file (encode "hello") "a.txt" "text/plain" w0)))
       = Ok info
       /\ Py.lookup info "size" = Some (VInt 5)
       /\ Py.lookup info "hash"
          = Some (VStr "2cf24dba5fb0a30e26e83b2ac5b9e29e1b161e5c1fa7425e73043362938b9824")
       /\ Py.lookup info "lastModified" = Some (VStr "2025-07-19T12:00:00").
Proof.
  assert (H : plain_name "a.txt" = true) by reflexivity.
  split; [exact H|].
  destruct (upload_then_get_file_info w0 (encode "hello") "a.txt" "text/plain" H)
    as [info [Hrun [_ [_ [Hsize [Hhash [_ [Hmod _]]]]]]]].
  exists info. split; [exact (f_equal fst Hrun)|]. split; [exact Hsize|].
  split; [rewrite Hhash; vm_compute; reflexivity | exact Hmod].
Defined.

(** A URL that is not a "gnfd://" URL, in the world that holds "LOT-001". *)
Lemma download_file_falls_back_to_mock_witness :
  Py.startswith "https://example.com/LOT-001.txt" "gnfd://" = false
  /\ download_file "https://example.com/LOT-001.txt" w_lot001 = (Ok mock_content, w_lot001)
  /\ status_of (fst (App.verify_product
                       (App.mkVerify (Some "LOT-001") (Some "https://example.com/LOT-001.txt"))
                       w_lot001)) = 200.
Proof.
  assert (H : Py.startswith "https://example.com/LOT-001.txt" "gnfd://" = false)
    by reflexivity.
  split; [exact H|].
  destruct (download_file_falls_back_to_mock w_lot001 "https://example.com/LOT-001.txt"
              (or_introl H)) as [Hd Hv].
  split; [exact Hd|].
  rewrite (Hv "LOT-001" ltac:(discriminate) eq_refl ltac:(discriminate)). reflexivity.
Defined.


(** The product "LOT-404", which was never registered. *)
Lemma get_product_always_found_witness :
  status_of (fst (BlockchainInfo.get_product "LOT-404" w0)) = 200
  /\ body_field (fst (BlockchainInfo.get_product "LOT-404" w0)) "fileHash"
     = Some (VStr (mock_hash "LOT-404")).
Proof.
  destruct (get_product_always_found "LOT-404" w0) as [_ [_ [H _]]].
  destruct (H ltac:(intros Hx; inversion Hx) eq_refl) as [Hst [_ [Hh _]]].
  split; [exact Hst | exact Hh].
Defined.

(** A second batch, "LOT-002", stored next to "LOT-001". *)
Lemma store_batch_frame_witness :
  fst (get_batch (VStr "LOT-001") (snd (store_batch (VStr "LOT-002") [] w_lot001)))
  = Ok (Some lot001_batch)
  /\ List.length (batches (batches_file (snd (store_batch (VStr "LOT-002") [] w_lot001))))
     = 2%nat
  /\ uploads (snd (store_batch (VStr "LOT-002") [] w_lot001)) = uploads w_lot001.
Proof.
  destruct (store_batch_frame w_lot001 (VStr "LOT-002") [])
    as [_ [_ [Hlen [_ [_ [_ [_ [Hup [Hkeep _]]]]]]]]].
  split; [apply Hkeep; vm_compute; reflexivity|].
  split; [rewrite Hlen; vm_compute; reflexivity | exact Hup].
Defined.

(** The registration of "LOT-001" in the initial world. *)
Lemma registration_is_retrievable_witness :
  fst (get_batch (VStr "LOT-001") w0) = Ok None
  /\ plain_name (App.object_name "LOT-001" (clock w0 (ticks w0)) certificate) = true
  /\ exists (reg : App.registration) (batch : dict) (w' : World),
       App.upload_file (upload "LOT-001" "hello") w0 = (Ok (inr reg), w')
       /\ GreenfieldService.download_file (App.r_greenfieldUrl reg) w'
          = (Ok (encode "hello"), w')
       /\ fst (get_batch (VStr "LOT-001") w') = Ok (Some batch)
       /\ Py.lookup batch "fileHash" = Some (VStr (App.r_fileHash reg))
       /\ Py.lookup batch "userId" = Some (VInt 1).
Proof.
  assert (Hnew : fst (get_batch (VStr "LOT-001") w0) = Ok None) by reflexivity.
  assert (Hplain : plain_name (App.object_name "LOT-001" (clock w0 (ticks w0)) certificate)
                   = true) by (vm_compute; reflexivity).
  split; [exact Hnew|]. split; [exact Hplain|].
  destruct (registration_is_retrievable (upload "LOT-001" "hello") w0 manufacturer
              certificate "LOT-001" (VInt 1) (VStr "m@example.com")
              eq_refl eq_refl ltac:(discriminate) eq_refl ltac:(discriminate)
              eq_refl eq_refl Hnew Hplain)
    as (reg & batch & w' & Hrun & _ & _ & _ & _ & Hdown & Hget & _ & Hhash & _ & _ & _
        & Huid & _).
  exists reg, batch, w'. split; [exact Hrun|]. split; [exact Hdown|].
  split; [exact Hget|]. split; [exact Hhash | exact Huid].
Defined.

(** An upload request without a user, one without a product id, and the
    registration of "LOT-001". *)
Lemma upload_file_all_or_nothing_witness :
  snd (App.upload_file (App.mkUpload None None None None None None None) w_lot001) = w_lot001
  /\ snd (App.upload_file
            (App.mkUpload (Some manufacturer) (Some certificate) None None None None None)
            w_lot001) = w_lot001
  /\ List.length (batches (batches_file w_lot001))
     = S (List.length (batches (batches_file w0))).
Proof.
  destruct (upload_file_all_or_nothing
              (App.mkUpload None None None None None None None) w_lot001) as [H1 _].
  destruct (upload_file_all_or_nothing
              (App.mkUpload (Some manufacturer) (Some certificate) None None None None None)
              w_lot001) as [H2 _].
  destruct (upload_file_all_or_nothing (upload "LOT-001" "hello") w0) as [_ [_ H3]].
  split.
  { exact (proj1 (H1 (Response 404 (Py.display [ ("success", VBool false);
                                                 ("error", VStr "User not found") ]))
                     eq_refl)). }
  split.
  { exact (proj1 (H2 (Response 400 (Py.display [ ("success", VBool false);
                                                 ("error", VStr "Product ID is required") ]))
                     eq_refl)). }
  exact (proj1 (H3 lot001_registration (f_equal fst lot001_is_registered))).
Defined.

(** A search without a query, and a search for "lot" in the world that
    holds "LOT-001". *)
Lemma search_endpoint_filters_the_store_witness :
  status_of (fst (App.search_products None None w_lot001)) = 400
  /\ snd (App.search_products (Some "lot") (Some "anything") w_lot001) = w_lot001
  /\ Search.search_products "lot" "anything" w_lot001
     = Search.search_products "lot" "all" w_lot001.
Proof.
  destruct (search_endpoint_filters_the_store None None w_lot001) as [_ [H400 _]].
  destruct (search_endpoint_filters_the_store (Some "lot") (Some "anything") w_lot001)
    as [Hw [_ [_ Hall]]].
  split; [exact (proj1 (H400 (or_introl eq_refl)))|]. split; [exact Hw|].
  apply Hall; discriminate.
Defined.

(** The scans after the registration of "LOT-001" and two scans of it. *)
Lemma scans_stay_numbered_witness :
  scans_numbered w0
  /\ scans_numbered (do_scan "LOT-001" "S2" (do_scan "LOT-001" "S1" w_lot001)).
Proof.
  destruct scans_stay_numbered as [H0 Hstep].
  assert (Hw0 : scans_numbered w0) by apply H0.
  split; [exact Hw0|].
  destruct (Hstep w0 Hw0) as [_ [_ [_ [Hup _]]]].
  assert (H1 : scans_numbered w_lot001) by apply Hup.
  destruct (Hstep w_lot001 H1) as [_ [Hscan _]].
  assert (H2 : scans_numbered (do_scan "LOT-001" "S1" w_lot001)) by apply Hscan.
  destruct (Hstep _ H2) as [_ [Hscan' _]]. apply Hscan'.
Defined.

Lemma lot001_scans_numbered : scans_numbered w_lot001.
Proof.
  assert (E : scans (scans_file w_lot001) = []) by (vm_compute; reflexivity).
  assert (E' : lastScanId (scans_file w_lot001) = 0) by (vm_compute; reflexivity).
  unfold scans_numbered. rewrite E, E'.
  split; [reflexivity|]. intros i s H. destruct i; discriminate.
Qed.

Lemma lot001_scanned_numbered : scans_numbered w_lot001_scanned.
Proof.
  exact (record_scan_numbered (VStr "LOT-001") scan_data_s1 w_lot001 eq_refl
           lot001_scans_numbered).
Qed.

(** The details of the scans "7" and "1" after the first scan of
    "LOT-001". *)
Lemma scan_details_by_number_witness :
  scans_numbered w_lot001_scanned
  /\ status_of (fst (ScanDetails.get_scan_details "7" w_lot001_scanned)) = 404
  /\ body_field (fst (ScanDetails.get_scan_details "1" w_lot001_scanned)) "scan"
     = Some (VDict first_scan).
Proof.
  pose proof lot001_scanned_numbered as Hn.
  assert (Hlen : List.length (scans (scans_file w_lot001_scanned)) = 1%nat)
    by (vm_compute; reflexivity).
  split; [exact Hn|].
  destruct (scan_details_by_number w_lot001_scanned "7" Hn) as [_ [H404 _]].
  destruct (scan_details_by_number w_lot001_scanned "1" Hn) as [_ [_ H200]].
  split.
  - rewrite H404; [reflexivity|]. intros i Hi. rewrite Hlen in Hi.
    assert (i = 0%nat) by lia. subst i. discriminate.
  - destruct (H200 0%nat first_scan) as [[_ Hscan] | [e He]].
    + vm_compute. reflexivity.
    + reflexivity.
    + exact Hscan.
    + exfalso. vm_compute in He. discriminate.
Defined.

(** A scan of "LOT-001" by S1, then the details of the scan "1". *)
Lemma scan_then_get_scan_details_witness :
  scans_numbered w_lot001
  /\ fst (get_batch (VStr "LOT-001") w_lot001) = Ok (Some lot001_batch)
  /\ exists (event batch' : dict),
       ScanDetails.get_scan_details "1" (snd (App.scan_product no_json lot001_scan w_lot001))
       = (Response 200 (Py.display [ ("success", VBool true);
                                     ("scan", VDict event);
                                     ("batchInfo", VDict batch') ]),
          snd (App.scan_product no_json lot001_scan w_lot001))
       /\ Py.lookup event "supplierName" = Some (VStr "S1")
       /\ Py.lookup batch' "scans" = Some (VList [VDict event]).
Proof.
  assert (Hb : fst (get_batch (VStr "LOT-001") w_lot001) = Ok (Some lot001_batch))
    by (vm_compute; reflexivity).
  assert (Hl : Py.lookup lot001_batch "scans" = Some (VList []))
    by (vm_compute; reflexivity).
  split; [exact lot001_scans_numbered|]. split; [exact Hb|].
  destruct (scan_then_get_scan_details no_json lot001_scan w_lot001 "S1"
              (VDict [("productId", VStr "LOT-001")]) (VStr "LOT-001") lot001_batch []
              lot001_scans_numbered eq_refl eq_refl ltac:(discriminate) eq_refl eq_refl
              Hb Hl)
    as (number & event & batch' & Hrec & Hdet & _ & Hsn & _ & _ & Hscans).
  assert (Hnum : number = "1").
  { assert (E : body_field (fst (App.scan_product no_json lot001_scan w_lot001))
                           "scanRecord"
                = Some (VDict [ ("scanId", VStr "1");
                                ("timestamp", VStr (isoformat (clock w_lot001 (ticks w_lot001))));
                                ("supplierName", VStr "S1") ]))
      by (vm_compute; reflexivity).
    rewrite E in Hrec.
    exact (f_equal (fun o => match o with
                             | Some (VDict ((_, VStr n) :: _)) => n
                             | _ => ""
                             end) (eq_sym Hrec)). }
  subst number. exists event, batch'.
  split; [exact Hdet|]. split; [exact Hsn | exact Hscans].
Defined.

(** The metadata of user 1 before and after the registration of
    "LOT-001". *)
Lemma registration_shows_in_user_metadata_witness :
  App.upload_file (upload "LOT-001" "hello") w0 = (Ok (inr lot001_registration), w_lot001)
  /\ fst (UserMetadata.get_user_metadata (VInt 1) w0) = Ok no_uploads
  /\ exists (after_ entry : dict),
       fst (UserMetadata.get_user_metadata (VInt 1) w_lot001) = Ok after_
       /\ Py.lookup after_ "totalUploads" = Some (VInt 1)
       /\ Py.lookup after_ "uploadHistory" = Some (VList [VDict entry])
       /\ Py.lookup entry "productId" = Some (VStr "LOT-001").
Proof.
  assert (Hb : fst (UserMetadata.get_user_metadata (VInt 1) w0) = Ok no_uploads)
    by reflexivity.
  split; [exact lot001_is_registered|]. split; [exact Hb|].
  destruct (registration_shows_in_user_metadata (upload "LOT-001" "hello") w0 w_lot001
              lot001_registration manufacturer 1 no_uploads
              lot001_is_registered eq_refl eq_refl Hb)
    as (after_ & entry & n & history & Hafter & Hn & Htot & Hh & Hhist & Hpid & _).
  assert (n = 0%nat).
  { unfold no_uploads, Py.display in Hn. rewrite lookup_update in Hn.
    cbn [Py.last_binding String.eqb Ascii.eqb Bool.eqb] in Hn.
    injection Hn as Hn. lia. }
  assert (history = []).
  { unfold no_uploads, Py.display in Hh. rewrite lookup_update in Hh.
    cbn [Py.last_binding String.eqb Ascii.eqb Bool.eqb] in Hh. now injection Hh as <-. }
  subst n history. exists after_, entry.
  split; [exact Hafter|]. split; [exact Htot|]. split; [exact Hhist | exact Hpid].
Defined.

Lemma lot001_user_ids :
  map (fun p => Py.get p "userId") (products (products_file w_lot001)) = [VInt 1].
Proof. vm_compute. reflexivity. Qed.

(** The metadata that the token identity "1" is shown after user 1
    registered "LOT-001". *)
Lemma current_user_metadata_is_empty_witness :
  (forall p, In p (products (products_file w_lot001)) ->
             forall t, Py.get p "userId" <> VStr t)
  /\ List.length (products (products_file w_lot001)) = 1%nat
  /\ body_field (fst (UserMetadata.get_current_user_metadata (VStr "1") w_lot001))
       "userMetadata"
     = Some (VDict (Py.display
                      [ ("userId", VStr "1"); ("totalUploads", VInt 0);
                        ("totalScans", VInt 0); ("products", VList []);
                        ("recentActivity", VList []); ("uploadHistory", VList []) ])).
Proof.
  assert (H : forall p, In p (products (products_file w_lot001)) ->
                        forall t, Py.get p "userId" <> VStr t).
  { intros p Hin t E.
    apply (in_map (fun p => Py.get p "userId")) in Hin.
    rewrite lot001_user_ids in Hin. destruct Hin as [Hin|[]].
    rewrite E in Hin. discriminate. }
  split; [exact H|]. split; [vm_compute; reflexivity|].
  rewrite (current_user_metadata_is_empty "1" w_lot001 H). reflexivity.
Defined.

Lemma one_user_is (stored : dict) :
  In stored (AuthService.users one_user) ->
  stored = AuthService.new_user (AuthService.mkUsers [] 0) "m@example.com" "$2b$12$hash"
             "M" "manufacturer" "Acme" (demo_clock 0) (demo_clock 1).
Proof. intros [<-|[]]. reflexivity. Qed.

(** Three stored users, of which the second and the third have the id 2:
    the lookup of the id 2 hands out the second, without its password;
    the lookup of the email of the third, which has no password, raises. *)
Lemma get_user_hides_the_password_witness :
  (exists r, AuthService.get_user_by "id" (VInt 2) three_users = Ok (Some r)
             /\ Py.lookup r "email" = Some (VStr "b@example.com")
             /\ Py.lookup r "password" = None)
  /\ AuthService.get_user_by "email" (VStr "c@example.com") three_users
     = Raise (KeyError "password").
Proof.
  destruct (get_user_hides_the_password "id" (VInt 2) three_users) as [_ [_ Hid]].
  destruct (get_user_hides_the_password "email" (VStr "c@example.com") three_users)
    as [_ [_ Hemail]].
  split.
  - assert (Hb : forall u, In u [user_a] ->
                   exists y, Py.lookup u "id" = Some y /\ Py.eq y (VInt 2) = false).
    { intros u [<-|[]]. exists (VInt 1). split; reflexivity. }
    destruct (Hid [user_a] user_b [user_c] (VInt 2) eq_refl Hb eq_refl eq_refl)
      as [_ Hpw].
    destruct (Hpw (VStr "$2b$12$b") eq_refl) as [r [Hr [Hkeep Hgone]]].
    exists r. split; [exact Hr|]. split.
    + rewrite (Hkeep "email") by (intros Hx; inversion Hx). reflexivity.
    + apply Hgone. simpl. repeat constructor; simpl; intuition discriminate.
  - assert (Hb : forall u, In u [user_a; user_b] ->
                   exists y, Py.lookup u "email" = Some y
                             /\ Py.eq y (VStr "c@example.com") = false).
    { intros u [<-|[<-|[]]];
        [exists (VStr "a@example.com") | exists (VStr "b@example.com")];
        split; reflexivity. }
    exact (proj1 (Hemail [user_a; user_b] user_c [] (VStr "c@example.com")
                    eq_refl Hb eq_refl eq_refl) eq_refl).
Defined.

(** The registration of the first user, and a second registration with
    the same email. *)
Lemma register_user_then_get_user_by_email_witness :
  AuthService.lastUserId one_user = 1
  /\ (exists answered : dict,
        AuthService.get_user_by_email (VStr "m@example.com") one_user = Ok (Some answered)
        /\ Py.lookup answered "password" = None)
  /\ AuthService.register_user "m@example.com" "$2b$12$other" "N" "supplier" ""
       (demo_clock 2) (demo_clock 3) one_user
     = (Ok (Py.display [ ("success", VBool false);
                         ("error", VStr "User already exists") ]), one_user).
Proof.
  pose proof (register_user_then_get_user_by_email "m@example.com" "$2b$12$hash" "M"
                "manufacturer" "Acme" (demo_clock 0) (demo_clock 1)
                (AuthService.mkUsers [] 0)) as H1.
  cbv zeta in H1. cbn [AuthService.users AuthService.email_taken] in H1.
  fold one_user in H1.
  destruct H1 as (stored & answered & _ & _ & Hlast & _ & _ & Hpw & _ & _ & _ & Hget & Htaken).
  pose proof (register_user_then_get_user_by_email "m@example.com" "$2b$12$other" "N"
                "supplier" "" (demo_clock 2) (demo_clock 3) one_user) as H2.
  cbv zeta in H2. rewrite Htaken in H2.
  split; [exact Hlast|]. split; [exists answered; now split | exact H2].
Defined.

(** The metadata of user 1, asked with the token identity "1". *)
Lemma user_metadata_route_fails_for_token_identity_witness :
  (forall u, In u (AuthService.users one_user) -> exists n, Py.lookup u "id" = Some (VInt n))
  /\ status_of (fst (UserMetadata.get_user_metadata_route one_user (VStr "1") 1 w_lot001))
     = 500.
Proof.
  assert (H : forall u, In u (AuthService.users one_user) ->
                        exists n, Py.lookup u "id" = Some (VInt n)).
  { intros u Hin. rewrite (one_user_is u Hin). exists 1. reflexivity. }
  split; [exact H|].
  rewrite (user_metadata_route_fails_for_token_identity one_user "1" 1 w_lot001 H).
  reflexivity.
Defined.

Lemma dashboard_doc_is (w : World) (d : dict) :
  dashboard_of w = Ok d ->
  _get_manufacturer_dashboard 1 "M" (batches_file w) (scans_file w) (products_file w)
  = Ok (dashboard_doc w).
Proof. unfold dashboard_doc. fold (dashboard_of w). now intros ->. Qed.

(** The dashboard of M after four scans. *)
Lemma manufacturer_dashboard_lists_agree_with_counts_witness :
  _get_manufacturer_dashboard 1 "M" (batches_file w_dashboard) (scans_file w_dashboard)
    (products_file w_dashboard) = Ok (dashboard_doc w_dashboard)
  /\ exists (own sorted : list dict),
       Py.lookup (dashboard_doc w_dashboard) "totalBatches"
       = Some (VInt (Z.of_nat (List.length own)))
       /\ Py.lookup (dashboard_doc w_dashboard) "allScans" = Some (VList (map VDict sorted))
       /\ Py.lookup (dashboard_doc w_dashboard) "totalScans"
          = Some (VInt (Z.of_nat (List.length sorted)))
       /\ Sorted newer_or_equal sorted.
Proof.
  assert (H : _get_manufacturer_dashboard 1 "M" (batches_file w_dashboard)
                (scans_file w_dashboard) (products_file w_dashboard)
              = Ok (dashboard_doc w_dashboard)).
  { apply (dashboard_doc_is w_dashboard (dashboard_doc w_dashboard)).
    vm_compute. reflexivity. }
  split; [exact H|].
  destruct (manufacturer_dashboard_lists_agree_with_counts 1 "M" _ _ _ _ H)
    as (own & sorted & _ & _ & Hb & Ha & Ht & _ & _ & Hs).
  exists own, sorted. split; [exact Hb|]. split; [exact Ha|]. split; [exact Ht | exact Hs].
Defined.

(** The dashboard of M before and after the first scan of "LOT-001". *)
Lemma recorded_scan_is_counted_twice_witness :
  record_scan (VStr "LOT-001") scan_data_s1 w_lot001 = (Ok (Some first_scan), w_lot001_scanned)
  /\ fst (get_batch (VStr "LOT-001") w_lot001) = Ok (Some lot001_batch)
  /\ Py.str_eq_int (Py.get lot001_batch "userId") 1 = true
  /\ Py.lookup (dashboard_doc w_lot001) "totalScans" = Some (VInt 0)
  /\ Py.lookup (dashboard_doc w_lot001_scanned) "totalScans" = Some (VInt 2)
  /\ List.length (scans (scans_file w_lot001_scanned)) = 1%nat.
Proof.
  assert (Hrun : record_scan (VStr "LOT-001") scan_data_s1 w_lot001
                 = (Ok (Some first_scan), w_lot001_scanned))
    by (unfold w_lot001_scanned; apply run_eq; vm_compute; reflexivity).
  assert (Hb : fst (get_batch (VStr "LOT-001") w_lot001) = Ok (Some lot001_batch))
    by (vm_compute; reflexivity).
  assert (Hown : Py.str_eq_int (Py.get lot001_batch "userId") 1 = true)
    by (vm_compute; reflexivity).
  assert (Hd : _get_manufacturer_dashboard 1 "M" (batches_file w_lot001)
                 (scans_file w_lot001) (products_file w_lot001)
               = Ok (dashboard_doc w_lot001)).
  { apply (dashboard_doc_is w_lot001 (dashboard_doc w_lot001)). vm_compute. reflexivity. }
  assert (Hd' : _get_manufacturer_dashboard 1 "M" (batches_file w_lot001_scanned)
                  (scans_file w_lot001_scanned) (products_file w_lot001_scanned)
                = Ok (dashboard_doc w_lot001_scanned)).
  { apply (dashboard_doc_is w_lot001_scanned (dashboard_doc w_lot001_scanned)).
    vm_compute. reflexivity. }
  assert (H0 : Py.lookup (dashboard_doc w_lot001) "totalScans" = Some (VInt 0))
    by (vm_compute; reflexivity).
  split; [exact Hrun|]. split; [exact Hb|]. split; [exact Hown|]. split; [exact H0|].
  destruct (recorded_scan_is_counted_twice 1 "M" w_lot001 w_lot001_scanned "LOT-001"
              scan_data_s1 first_scan lot001_batch _ _ Hrun eq_refl Hb Hown Hd Hd')
    as (n & Hn & Hn' & Hlen).
  rewrite H0 in Hn. injection Hn as <-.
  split; [exact Hn'|]. rewrite Hlen. vm_compute. reflexivity.
Defined.

(** The registration of "LOT-001", then a scan with its QR payload. *)
Lemma registration_qr_scans_back_witness :
  fst (get_batch (VStr "LOT-001") w0) = Ok None
  /\ plain_name (App.object_name "LOT-001" (clock w0 (ticks w0)) certificate) = true
  /\ App.parse_qr no_json (App.s_qrData lot001_qr_scan)
     = Some (VDict (QRService.registration_qr_data (upload "LOT-001" "hello") "LOT-001"
                      (env w0)))
  /\ exists event : dict,
       status_of (fst (App.scan_product no_json lot001_qr_scan w_lot001)) = 200
       /\ listScansByBatch (VStr "LOT-001")
            (snd (App.scan_product no_json lot001_qr_scan w_lot001)) = Some [VDict event]
       /\ Py.lookup event "supplierName" = Some (VStr "S1").
Proof.
  assert (Hnew : fst (get_batch (VStr "LOT-001") w0) = Ok None) by reflexivity.
  assert (Hplain : plain_name (App.object_name "LOT-001" (clock w0 (ticks w0)) certificate)
                   = true) by (vm_compute; reflexivity).
  assert (Hparse : App.parse_qr no_json (App.s_qrData lot001_qr_scan)
                   = Some (VDict (QRService.registration_qr_data (upload "LOT-001" "hello")
                                    "LOT-001" (env w0)))) by reflexivity.
  split; [exact Hnew|]. split; [exact Hplain|]. split; [exact Hparse|].
  destruct (registration_qr_scans_back no_json (upload "LOT-001" "hello") lot001_qr_scan w0
              manufacturer certificate "LOT-001" "S1" (VInt 1) (VStr "m@example.com")
              eq_refl eq_refl ltac:(discriminate) eq_refl ltac:(discriminate)
              eq_refl eq_refl Hnew Hplain eq_refl Hparse eq_refl ltac:(discriminate))
    as (event & _ & Hst & _ & Hscans & _ & _ & Hsn & _).
  exists event. split; [exact Hst|]. split; [exact Hscans | exact Hsn].
Defined.

(** The dashboard of the unknown user "999". *)
Lemma dashboard_of_unknown_user_witness :
  find_user "999" (AuthService.users one_user) = Ok None
  /\ status_of (fst (get_dashboard one_user "999" w_lot001)) = 200
  /\ body_field (fst (get_dashboard one_user "999" w_lot001)) "success" = Some (VBool false)
  /\ body_field (fst (get_manufacturer_scans one_user "999" w_lot001)) "totalScans"
     = Some (VInt 0).
Proof.
  assert (H : find_user "999" (AuthService.users one_user) = Ok None) by reflexivity.
  split; [exact H|].
  destruct (dashboard_of_unknown_user one_user "999" w_lot001 H) as [_ [-> ->]].
  repeat split.
Defined.

Lemma supplier_doc_is (w : World) (d : dict) :
  _get_supplier_dashboard 2 "S1" (batches_file w) (scans_file w) (products_file w) = Ok d ->
  _get_supplier_dashboard 2 "S1" (batches_file w) (scans_file w) (products_file w)
  = Ok (supplier_doc w).
Proof. unfold supplier_doc. now intros ->. Qed.

Lemma general_doc_is (w : World) (d : dict) :
  _get_general_user_dashboard 2 "S1" (batches_file w) (scans_file w) (products_file w)
  = Ok d ->
  _get_general_user_dashboard 2 "S1" (batches_file w) (scans_file w) (products_file w)
  = Ok (general_doc w).
Proof. unfold general_doc. now intros ->. Qed.

(** The dashboard of the supplier S1 before and after the first scan of
    "LOT-001". *)
Lemma supplier_scan_is_counted_twice_witness :
  record_scan (VStr "LOT-001") scan_data_s1 w_lot001 = (Ok (Some first_scan), w_lot001_scanned)
  /\ by_supplier 2 "S1" first_scan = true
  /\ Py.lookup (supplier_doc w_lot001) "totalScans" = Some (VInt 0)
  /\ Py.lookup (supplier_doc w_lot001_scanned) "totalScans" = Some (VInt 2)
  /\ List.length (scans (scans_file w_lot001_scanned)) = 1%nat.
Proof.
  assert (Hrun : record_scan (VStr "LOT-001") scan_data_s1 w_lot001
                 = (Ok (Some first_scan), w_lot001_scanned))
    by (unfold w_lot001_scanned; apply run_eq; vm_compute; reflexivity).
  assert (Hmine : by_supplier 2 "S1" first_scan = true) by (vm_compute; reflexivity).
  assert (Hd : _get_supplier_dashboard 2 "S1" (batches_file w_lot001)
                 (scans_file w_lot001) (products_file w_lot001)
               = Ok (supplier_doc w_lot001)).
  { apply (supplier_doc_is w_lot001 (supplier_doc w_lot001)). vm_compute. reflexivity. }
  assert (Hd' : _get_supplier_dashboard 2 "S1" (batches_file w_lot001_scanned)
                  (scans_file w_lot001_scanned) (products_file w_lot001_scanned)
                = Ok (supplier_doc w_lot001_scanned)).
  { apply (supplier_doc_is w_lot001_scanned (supplier_doc w_lot001_scanned)).
    vm_compute. reflexivity. }
  assert (H0 : Py.lookup (supplier_doc w_lot001) "totalScans" = Some (VInt 0))
    by (vm_compute; reflexivity).
  split; [exact Hrun|]. split; [exact Hmine|]. split; [exact H0|].
  destruct (supplier_scan_is_counted_twice 2 "S1" w_lot001 w_lot001_scanned (VStr "LOT-001")
              scan_data_s1 first_scan _ _ Hrun Hmine Hd Hd')
    as (n & Hn & _ & Hn' & Hlen).
  rewrite H0 in Hn. injection Hn as <-.
  split; [exact Hn'|]. rewrite Hlen. vm_compute. reflexivity.
Defined.

(** The dashboard of the general user S1 before and after the first scan
    of "LOT-001". *)
Lemma general_user_scan_is_counted_once_witness :
  record_scan (VStr "LOT-001") scan_data_s1 w_lot001 = (Ok (Some first_scan), w_lot001_scanned)
  /\ by_user 2 "S1" first_scan = true
  /\ Py.lookup (general_doc w_lot001) "totalScans" = Some (VInt 0)
  /\ Py.lookup (general_doc w_lot001_scanned) "totalScans" = Some (VInt 1).
Proof.
  assert (Hrun : record_scan (VStr "LOT-001") scan_data_s1 w_lot001
                 = (Ok (Some first_scan), w_lot001_scanned))
    by (unfold w_lot001_scanned; apply run_eq; vm_compute; reflexivity).
  assert (Hmine : by_user 2 "S1" first_scan = true) by (vm_compute; reflexivity).
  assert (Hd : _get_general_user_dashboard 2 "S1" (batches_file w_lot001)
                 (scans_file w_lot001) (products_file w_lot001)
               = Ok (general_doc w_lot001)).
  { apply (general_doc_is w_lot001 (general_doc w_lot001)). vm_compute. reflexivity. }
  assert (Hd' : _get_general_user_dashboard 2 "S1" (batches_file w_lot001_scanned)
                  (scans_file w_lot001_scanned) (products_file w_lot001_scanned)
                = Ok (general_doc w_lot001_scanned)).
  { apply (general_doc_is w_lot001_scanned (general_doc w_lot001_scanned)).
    vm_compute. reflexivity. }
  assert (H0 : Py.lookup (general_doc w_lot001) "totalScans" = Some (VInt 0))
    by (vm_compute; reflexivity).
  split; [exact Hrun|]. split; [exact Hmine|]. split; [exact H0|].
  destruct (general_user_scan_is_counted_once 2 "S1" w_lot001 w_lot001_scanned
              (VStr "LOT-001") scan_data_s1 first_scan _ _ Hrun Hmine Hd Hd')
    as (n & Hn & _ & Hn' & _).
  rewrite H0 in Hn. injection Hn as <-. exact Hn'.
Defined.

(** A scan of the batch "B", which has no scan list, and of the unknown
    batch "Z". *)
Lemma record_scan_outcomes_witness :
  fst (record_scan (VStr "B") [] w_bare) = Raise (KeyError "scans")
  /\ scans_file (snd (record_scan (VStr "B") [] w_bare)) = scans_file w_bare
  /\ record_scan (VStr "Z") [] w_bare = (Ok None, w_bare).
Proof.
  pose proof (record_scan_outcomes (VStr "B") [] w_bare) as HB. cbv zeta in HB.
  change (find_batch (batches (batches_file w_bare)) (VStr "B"))
    with (Ok (Some [("batchId", VStr "B")])) in HB.
  change (Py.lookup [("batchId", VStr "B")] "scans") with (@None value) in HB.
  pose proof (record_scan_outcomes (VStr "Z") [] w_bare) as HZ. cbv zeta in HZ.
  change (find_batch (batches (batches_file w_bare)) (VStr "Z"))
    with (@Ok (option dict) None) in HZ.
  destruct HB as [HB1 [_ [HB2 _]]].
  split; [exact HB1|]. split; [exact HB2 | exact HZ].
Defined.

(** A login with the wrong password, and one with the right password. *)
Lemma login_user_outcomes_witness :
  AuthService.login_user demo_checkpw "m@example.com" "wrong"
    (demo_clock 5) (demo_clock 6) (demo_clock 7) one_user_files
  = (Ok (Py.display [ ("success", VBool false); ("error", VStr "Invalid password") ]),
     one_user_files)
  /\ exists (answered session : dict),
       fst (AuthService.login_user demo_checkpw "m@example.com" "right"
              (demo_clock 5) (demo_clock 6) (demo_clock 7) one_user_files)
       = Ok (Py.display [ ("success", VBool true); ("user", VDict answered) ])
       /\ Py.lookup answered "lastLogin" = Some (VStr "2025-07-19T12:00:05")
       /\ Py.lookup answered "password" = None
       /\ AuthService.sessions
            (snd (AuthService.login_user demo_checkpw "m@example.com" "right"
                    (demo_clock 5) (demo_clock 6) (demo_clock 7) one_user_files))
          = [session]
       /\ Py.lookup session "userId" = Some (VInt 1).
Proof.
  set (stored := AuthService.new_user (AuthService.mkUsers [] 0) "m@example.com"
                   "$2b$12$hash" "M" "manufacturer" "Acme" (demo_clock 0) (demo_clock 1)).
  assert (Hf : AuthService.find_by_email "m@example.com"
                 (AuthService.users (AuthService.users_file one_user_files))
               = Ok (Some stored)) by reflexivity.
  assert (Hnd : NoDup (map fst stored)).
  { unfold stored, AuthService.new_user, Py.display, Py.update. cbn.
    repeat constructor; simpl; intuition discriminate. }
  pose proof (login_user_outcomes demo_checkpw "m@example.com" "wrong"
                (demo_clock 5) (demo_clock 6) (demo_clock 7) one_user_files) as Hwrong.
  cbv zeta in Hwrong. rewrite Hf in Hwrong.
  specialize (Hwrong "$2b$12$hash" eq_refl).
  change (demo_checkpw "wrong" "$2b$12$hash") with (@Ok bool false) in Hwrong.
  pose proof (login_user_outcomes demo_checkpw "m@example.com" "right"
                (demo_clock 5) (demo_clock 6) (demo_clock 7) one_user_files) as Hright.
  cbv zeta in Hright. rewrite Hf in Hright.
  specialize (Hright "$2b$12$hash" eq_refl).
  change (demo_checkpw "right" "$2b$12$hash") with (@Ok bool true) in Hright.
  destruct (Hright (VInt 1) eq_refl)
    as (answered & session & Hans & Hlast & _ & Hpw & Hsess & Huid & _).
  split; [exact Hwrong|]. exists answered, session.
  split; [exact Hans|]. split; [exact Hlast|]. split; [exact (Hpw Hnd)|].
  split; [exact Hsess | exact Huid].
Defined.
